(** * BitFlow: strategy optimizer, signal engine, risk engine and trading loop

    A shallow embedding of [src/ml-risk-manager.js], [src/strategy.js] and of
    the trading loop [BitFlowBot.startTrading], followed by the properties of
    the specification that were checked against them.

    Numbers.  A JavaScript number is modelled by an exact rational ([Q]);
    array lengths, indices and MA lengths are [nat].  Rounding error and
    overflow are outside the model.  In [calculatePositionSize] the
    divisions by zero are followed through [Infinity] and [NaN] (module
    [Number]); elsewhere a quotient is only meaningful when its divisor is
    non-zero, and the theorems say which inputs they cover.  [Math.sqrt]
    and the three indicators imported from
    the [technicalindicators] package are not code of the repository; they
    are taken as parameters (classes [MathLib] and [TechnicalIndicators]). *)

From Stdlib Require Import QArith Qminmax Qround Qabs ZArith List String Ascii Bool Lia Lqa.
From Stdlib Require DecimalString.
Import ListNotations.

Open Scope string_scope.
Open Scope list_scope.
Open Scope Q_scope.

(** ** JavaScript primitives used by the sources *)

Module JS.

(** [a < b], [a <= b], [a === b] on numbers. *)
Definition ltb (a b : Q) : bool := negb (Qle_bool b a).
Definition leb (a b : Q) : bool := Qle_bool a b.
Definition eqb (a b : Q) : bool := Qeq_bool a b.

(** Truthiness of a number: [0] is falsy. *)
Definition truthy (a : Q) : bool := negb (Qeq_bool a 0).

(** [a || b] on numbers. *)
Definition or_else (a b : Q) : Q := if truthy a then a else b.

Definition Math_max (a b : Q) : Q := Qmax a b.
Definition Math_min (a b : Q) : Q := Qmin a b.
Definition Math_max3 (a b c : Q) : Q := Qmax (Qmax a b) c.
Definition Math_abs (a : Q) : Q := Qabs a.
Definition Math_pow2 (a : Q) : Q := a * a.

(** [Math.round]: the nearest integer, halves rounded up. *)
Definition Math_round (a : Q) : Q := inject_Z (Qfloor (a + (1 # 2))).

(** [x.toFixed(d)]: the decimal with [d] fraction digits nearest to [x],
    halves rounded away from zero.  The source stores the resulting
    string; the model stores the rational that string denotes. *)
Definition toFixed (d : nat) (x : Q) : Q :=
  let scale := inject_Z (10 ^ Z.of_nat d) in
  let n := inject_Z (Qfloor (Qabs x * scale + (1 # 2))) in
  if ltb x 0 then - (n / scale) else n / scale.

(** [arr.slice(-k)]: the last [k] elements, the whole array when
    [k >= arr.length], and also when [k = 0] (since [-0] is [0]). *)
Definition slice_last {A} (k : nat) (l : list A) : list A :=
  match k with
  | O => l
  | _ => skipn (List.length l - k) l
  end.

(** [arr.slice(a, b)] for [0 <= a]. *)
Definition slice {A} (a b : nat) (l : list A) : list A :=
  firstn (b - a) (skipn a l).

(** [arr[arr.length - 1]]. *)
Definition last_opt {A} (l : list A) : option A := nth_error l (List.length l - 1).

(** [arr.reduce((s, x) => s + x, 0)]. *)
Definition sum (l : list Q) : Q := fold_left Qplus l 0.

(** An array length or index used as a number. *)
Definition of_nat (n : nat) : Q := inject_Z (Z.of_nat n).

(** Decimal rendering of a non-negative integer. *)
Definition show_nat (n : nat) : string := DecimalString.NilZero.string_of_uint (Nat.to_uint n).

(** Decimal rendering of an integer. *)
Definition show_Z (z : Z) : string := DecimalString.NilZero.string_of_int (Z.to_int z).

Fixpoint zeros (n : nat) : string :=
  match n with
  | O => EmptyString
  | S n' => String "0" (zeros n')
  end.

(** The string [x.toFixed(d)] itself (below the magnitude at which the
    source switches to exponent notation). *)
Definition toFixed_string (d : nat) (x : Q) : string :=
  let scale := (10 ^ Z.of_nat d)%Z in
  let n := Qfloor (Qabs x * inject_Z scale + (1 # 2)) in
  let digits := show_Z (n mod scale) in
  let fraction :=
    match d with
    | O => EmptyString
    | _ => String "." (zeros (d - String.length digits) ++ digits)%string
    end in
  ((if ltb x 0 then "-" else "") ++ show_Z (n / scale) ++ fraction)%string.

End JS.

Import JS.

(** What a [throw] or a normal return delivers. *)
Inductive result (A : Type) : Type :=
| Ok (value : A)
| Throw (message : string).
Arguments Ok {A} value.
Arguments Throw {A} message.

(** ** Numbers beyond the rationals

    A division by zero leaves the rationals: [x / 0] is [Infinity],
    [-Infinity] or [NaN], and these values spread through the arithmetic
    that follows as IEEE 754 has it.  Zero is always [+0]. *)

Module Number.

Inductive t := Finite (q : Q) | Infinity | NegInfinity | NaN.

(** The infinity of the sign of [q], [NaN] for zero. *)
Definition of_sign (q : Q) : t :=
  match q ?= 0 with
  | Gt => Infinity
  | Lt => NegInfinity
  | Eq => NaN
  end.

Definition opp (a : t) : t :=
  match a with
  | Finite q => Finite (- q)
  | Infinity => NegInfinity
  | NegInfinity => Infinity
  | NaN => NaN
  end.

(** [a * b]; [Infinity * 0] is [NaN]. *)
Definition mul (a b : t) : t :=
  match a, b with
  | NaN, _ | _, NaN => NaN
  | Finite x, Finite y => Finite (x * y)
  | Finite x, Infinity | Infinity, Finite x => of_sign x
  | Finite x, NegInfinity | NegInfinity, Finite x => opp (of_sign x)
  | Infinity, Infinity | NegInfinity, NegInfinity => Infinity
  | Infinity, NegInfinity | NegInfinity, Infinity => NegInfinity
  end.

(** [a + b]; [Infinity + -Infinity] is [NaN]. *)
Definition add (a b : t) : t :=
  match a, b with
  | NaN, _ | _, NaN => NaN
  | Finite x, Finite y => Finite (x + y)
  | Infinity, NegInfinity | NegInfinity, Infinity => NaN
  | Infinity, _ | _, Infinity => Infinity
  | NegInfinity, _ | _, NegInfinity => NegInfinity
  end.

(** [a - b]; [Infinity - Infinity] is [NaN]. *)
Definition sub (a b : t) : t :=
  match a, b with
  | NaN, _ | _, NaN => NaN
  | Finite x, Finite y => Finite (x - y)
  | Infinity, Infinity | NegInfinity, NegInfinity => NaN
  | Infinity, _ | _, NegInfinity => Infinity
  | NegInfinity, _ | _, Infinity => NegInfinity
  end.

(** [a / b]; [x / 0] is the infinity of the sign of [x], [0 / 0] and
    [Infinity / Infinity] are [NaN]. *)
Definition div (a b : t) : t :=
  match a, b with
  | NaN, _ | _, NaN => NaN
  | Finite x, Finite y => if eqb y 0 then of_sign x else Finite (x / y)
  | Finite _, _ => Finite 0
  | Infinity, Finite y => if ltb y 0 then NegInfinity else Infinity
  | NegInfinity, Finite y => if ltb y 0 then Infinity else NegInfinity
  | _, _ => NaN
  end.

(** [Math.min(a, b)]: [NaN] if either is. *)
Definition min (a b : t) : t :=
  match a, b with
  | NaN, _ | _, NaN => NaN
  | NegInfinity, _ | _, NegInfinity => NegInfinity
  | Infinity, c | c, Infinity => c
  | Finite x, Finite y => Finite (Math_min x y)
  end.

(** [Math.max(a, b)]: [NaN] if either is. *)
Definition max (a b : t) : t :=
  match a, b with
  | NaN, _ | _, NaN => NaN
  | Infinity, _ | _, Infinity => Infinity
  | NegInfinity, c | c, NegInfinity => c
  | Finite x, Finite y => Finite (Math_max x y)
  end.

(** [a > b]: false when either is [NaN]. *)
Definition gtb (a b : t) : bool :=
  match a, b with
  | NaN, _ | _, NaN => false
  | Finite x, Finite y => ltb y x
  | _, Infinity => false
  | Infinity, _ => true
  | NegInfinity, _ => false
  | Finite _, NegInfinity => true
  end.

(** The number [x.toFixed(d)] prints: ['Infinity'] and ['NaN'] print as
    themselves. *)
Definition toFixed (d : nat) (a : t) : t :=
  match a with
  | Finite q => Finite (JS.toFixed d q)
  | _ => a
  end.

(** The rational a number is; [0] stands in where it is none. *)
Definition rational (a : t) : Q :=
  match a with
  | Finite q => q
  | _ => 0
  end.

End Number.

(** A price bar as delivered by the data manager. *)
Record Bar := mkBar {
  open : Q;
  high : Q;
  low : Q;
  close : Q;
  volume : Q
}.

(** The account record returned by [getAccountInfo]. *)
Record AccountInfo := mkAccount {
  equity : Q;
  cash : Q;
  buyingPower : Q;
  portfolioValue : Q
}.

Class MathLib := { Math_sqrt : Q -> Q }.

(** ** [src/ml-risk-manager.js] *)

Module MLRiskManager.

Record FeeTier := mkTier { tier_volume : Q; maker : Q; taker : Q }.

(** The fields set by the constructor. *)
Record t := mk {
  volatilityWindow : nat;
  atrMultiplier : Q;
  riskRewardRatio : Q;
  maxStopLossPercent : Q;
  maxTakeProfitPercent : Q;
  minStopLossPercent : Q;
  minTakeProfitPercent : Q;
  maxPositionPercent : Q;
  minPositionSize : Q;
  feeTiers : list FeeTier;
  currentTradingVolume : Q
}.

Definition constructor : t := {|
  volatilityWindow := 50;
  atrMultiplier := 1.5;
  riskRewardRatio := 2.0;
  maxStopLossPercent := 0.5;
  maxTakeProfitPercent := 0.5;
  minStopLossPercent := 0.2;
  minTakeProfitPercent := 0.3;
  maxPositionPercent := 10;
  minPositionSize := 0.001;
  feeTiers :=
    [ mkTier 0 0.0015 0.0025;
      mkTier 100000 0.0012 0.0022;
      mkTier 500000 0.0010 0.0020;
      mkTier 1000000 0.0008 0.0018;
      mkTier 10000000 0.0005 0.0015;
      mkTier 25000000 0.0002 0.0013;
      mkTier 50000000 0.0002 0.0012;
      mkTier 100000000 0.0000 0.0010 ];
  currentTradingVolume := 0
|}.

(** The downward loop of [getFeeRate], over the tiers from the last to
    the first: the first tier met whose threshold is reached. *)
Fixpoint getFeeRate_loop (tiers_down : list FeeTier) (volume30Day : Q) : option FeeTier :=
  match tiers_down with
  | [] => None
  | tier :: rest =>
      if leb (tier_volume tier) volume30Day then Some tier
      else getFeeRate_loop rest volume30Day
  end.

Definition getFeeRate (this : t) (volume30Day : Q) (isMaker : bool) : Q :=
  let tier0 := hd (mkTier 0 0 0) (feeTiers this) in
  let tier :=
    match getFeeRate_loop (rev (feeTiers this)) volume30Day with
    | Some tier => tier
    | None => tier0
    end in
  if isMaker then maker tier else taker tier.

Record TradeFees := mkFees {
  buyFee : Q;
  buyFeeCost : Q;
  sellFee : Q;
  totalFees : Q;
  feePercent : Q;
  buyFeeRate : Q;
  sellFeeRate : Q
}.

Definition calculateTradeFees (this : t) (positionSize entryPrice exitPrice volume30Day : Q)
  : TradeFees :=
  let buyFeeRate := getFeeRate this volume30Day false in
  let sellFeeRate := getFeeRate this volume30Day false in
  let buyFee := positionSize * buyFeeRate in
  let buyFeeCost := buyFee * entryPrice in
  let sellValue := positionSize * exitPrice in
  let sellFee := sellValue * sellFeeRate in
  let totalFees := buyFeeCost + sellFee in
  let positionValue := positionSize * entryPrice in
  let feePercent := (totalFees / positionValue) * 100 in
  mkFees buyFee buyFeeCost sellFee totalFees feePercent buyFeeRate sellFeeRate.

(** The [switch] of [calculatePositionSize] on the timeframe. *)
Definition sizeTimeframeMultiplier (timeframe : string) : Q :=
  if String.eqb timeframe "1m" then 1.5
  else if String.eqb timeframe "5m" then 1.0
  else if String.eqb timeframe "15m" then 0.7
  else 1.0.

Record SizeFees := mkSizeFees {
  sf_totalFees : Q;      (* toFixed(4) *)
  sf_feePercent : Q;     (* toFixed(3) *)
  sf_buyFeeRate : Q;     (* percent, toFixed(2) *)
  sf_sellFeeRate : Q     (* percent, toFixed(2) *)
}.

Record SizeResult := mkSize {
  size : Q;
  riskAmount : Q;
  actualRisk : Q;
  actualRiskPercent : Q;       (* toFixed(2) *)
  volatilityAdjustment : Q;    (* toFixed(2) *)
  timeframeMultiplier : Q;     (* toFixed(2) *)
  maxAllowed : Q;
  size_fees : SizeFees
}.

(** [calculateTradeFees] on a position size that may have left the
    rationals: the same code, line by line, [totalFees] and [feePercent]
    kept. *)
Record TradeFeeNumbers := mkFeeNumbers {
  number_totalFees : Number.t;
  number_feePercent : Number.t
}.

Definition calculateTradeFees_numbers (this : t) (positionSize : Number.t)
    (entryPrice exitPrice volume30Day : Q) : TradeFeeNumbers :=
  let buyFeeRate := getFeeRate this volume30Day false in
  let sellFeeRate := getFeeRate this volume30Day false in
  let buyFee := Number.mul positionSize (Number.Finite buyFeeRate) in
  let buyFeeCost := Number.mul buyFee (Number.Finite entryPrice) in
  let sellValue := Number.mul positionSize (Number.Finite exitPrice) in
  let sellFee := Number.mul sellValue (Number.Finite sellFeeRate) in
  let totalFees := Number.add buyFeeCost sellFee in
  let positionValue := Number.mul positionSize (Number.Finite entryPrice) in
  let feePercent :=
    Number.mul (Number.div totalFees positionValue) (Number.Finite 100) in
  mkFeeNumbers totalFees feePercent.

(** The numbers [calculatePositionSize] computes, before they are
    printed into the returned object. *)
Record SizeNumbers := mkSizeNumbers {
  number_size : Number.t;
  number_riskAmount : Number.t;
  number_actualRisk : Number.t;
  number_actualRiskPercent : Number.t;
  number_volatilityAdjustment : Number.t;
  number_maxAllowed : Number.t;
  number_finalFees : TradeFeeNumbers
}.

(** The body of [calculatePositionSize] up to its [return]. *)
Definition calculatePositionSize_numbers (this : t) (accountInfo : AccountInfo)
    (riskPercent entryPrice stopLoss volatility volume30Day : Q) (timeframe : string)
  : SizeNumbers :=
  let availableCapital := buyingPower accountInfo in
  let riskAmount := Number.Finite (equity accountInfo * (riskPercent / 100)) in
  let volatilityAdjustment :=
    Number.max (Number.Finite 0.5)
      (Number.min (Number.Finite 1.5)
         (Number.div (Number.Finite 1) (Number.Finite (volatility * 50)))) in
  let riskAmount := Number.mul riskAmount volatilityAdjustment in
  let timeframeMultiplier := sizeTimeframeMultiplier timeframe in
  let riskAmount := Number.mul riskAmount (Number.Finite timeframeMultiplier) in
  let stopDistance := Math_abs (entryPrice - stopLoss) in
  let positionSize := Number.div riskAmount (Number.Finite stopDistance) in
  let fees := calculateTradeFees_numbers this positionSize entryPrice stopLoss volume30Day in
  let adjustedRiskAmount := Number.sub riskAmount (number_totalFees fees) in
  let positionSize :=
    if Number.gtb adjustedRiskAmount (Number.Finite 0)
    then Number.div adjustedRiskAmount (Number.Finite stopDistance)
    else positionSize in
  let maxSize :=
    Number.min
      (Number.div (Number.Finite (availableCapital * (maxPositionPercent this / 100)))
                  (Number.Finite entryPrice))
      (Number.div (Number.Finite (equity accountInfo * 0.15)) (Number.Finite entryPrice)) in
  let positionSize :=
    Number.max (Number.Finite (minPositionSize this)) (Number.min maxSize positionSize) in
  let finalFees :=
    calculateTradeFees_numbers this positionSize entryPrice stopLoss volume30Day in
  let actualRisk :=
    Number.add (Number.mul (Number.Finite stopDistance) positionSize)
               (number_totalFees finalFees) in
  let actualRiskPercent :=
    Number.mul (Number.div actualRisk (Number.Finite (equity accountInfo)))
               (Number.Finite 100) in
  {| number_size := positionSize;
     number_riskAmount := riskAmount;
     number_actualRisk := actualRisk;
     number_actualRiskPercent := actualRiskPercent;
     number_volatilityAdjustment := volatilityAdjustment;
     number_maxAllowed := maxSize;
     number_finalFees := finalFees |}.

(** [calculatePositionSize]: the returned object, each number as the
    rational it is.  Where a field is [NaN] or infinite in
    [calculatePositionSize_numbers], [0] stands in for it here. *)
Definition calculatePositionSize (this : t) (accountInfo : AccountInfo)
    (riskPercent entryPrice stopLoss volatility volume30Day : Q) (timeframe : string)
  : SizeResult :=
  let numbers :=
    calculatePositionSize_numbers this accountInfo riskPercent entryPrice stopLoss
                                  volatility volume30Day timeframe in
  let buyFeeRate := getFeeRate this volume30Day false in
  let sellFeeRate := getFeeRate this volume30Day false in
  {| size := Number.rational (number_size numbers);
     riskAmount := Number.rational (number_riskAmount numbers);
     actualRisk := Number.rational (number_actualRisk numbers);
     actualRiskPercent :=
       Number.rational (Number.toFixed 2 (number_actualRiskPercent numbers));
     volatilityAdjustment :=
       Number.rational (Number.toFixed 2 (number_volatilityAdjustment numbers));
     timeframeMultiplier := toFixed 2 (sizeTimeframeMultiplier timeframe);
     maxAllowed := Number.rational (number_maxAllowed numbers);
     size_fees :=
       {| sf_totalFees :=
            Number.rational
              (Number.toFixed 4 (number_totalFees (number_finalFees numbers)));
          sf_feePercent :=
            Number.rational
              (Number.toFixed 3 (number_feePercent (number_finalFees numbers)));
          sf_buyFeeRate := toFixed 2 (buyFeeRate * 100);
          sf_sellFeeRate := toFixed 2 (sellFeeRate * 100) |} |}.

(** *** ATR, volatility, trend and the TP/SL derivation *)

(** True range of bar [cur] after bar [prev] (the body of the loop of
    [calculateATR]). *)
Definition trueRange (prev cur : Bar) : Q :=
  let high := or_else (high cur) (close cur) in
  let low := or_else (low cur) (close cur) in
  let prevClose := close prev in
  Math_max3 (high - low) (Math_abs (high - prevClose)) (Math_abs (low - prevClose)).

Fixpoint trueRanges (priceData : list Bar) : list Q :=
  match priceData with
  | prev :: (cur :: _) as rest => trueRange prev cur :: trueRanges rest
  | _ => []
  end.

(** [calculateATR]; [None] is the source's [null]. *)
Definition calculateATR (priceData : list Bar) (period : nat) : option Q :=
  if (List.length priceData <? period + 1)%nat then None
  else
    let recentTR := slice_last period (trueRanges priceData) in
    Some (sum recentTR / of_nat period).

(** Simple returns of consecutive closes. *)
Fixpoint returns (priceData : list Bar) : list Q :=
  match priceData with
  | prev :: (cur :: _) as rest =>
      (close cur - close prev) / close prev :: returns rest
  | _ => []
  end.

Definition calculateVolatility `{MathLib} (priceData : list Bar) : Q :=
  let returns := returns priceData in
  let mean := sum returns / of_nat (List.length returns) in
  let variance :=
    fold_left (fun s r => s + Math_pow2 (r - mean)) returns 0
    / of_nat (List.length returns) in
  Math_sqrt variance.

(** The four running sums of [calculateTrend], from index [i] on. *)
Fixpoint trendSums (prices : list Q) (i : nat) (acc : Q * Q * Q * Q) : Q * Q * Q * Q :=
  match prices with
  | [] => acc
  | p :: rest =>
      let '(sumX, sumY, sumXY, sumX2) := acc in
      trendSums rest (S i)
        (sumX + of_nat i, sumY + p, sumXY + of_nat i * p, sumX2 + of_nat i * of_nat i)
  end.

Definition calculateTrend (priceData : list Bar) : Q :=
  let prices := map close priceData in
  let n := of_nat (List.length prices) in
  let '(sumX, sumY, sumXY, sumX2) := trendSums prices 0 (0, 0, 0, 0) in
  let slope := (n * sumXY - sumX * sumY) / (n * sumX2 - sumX * sumX) in
  let avgPrice := sumY / n in
  Math_max (-1) (Math_min 1 (slope / avgPrice * 100)).

(** [calculateSimpleMA]: one entry per price, [None] ([null]) before
    the window is full. *)
Definition calculateSimpleMA (prices : list Q) (length : nat) : list (option Q) :=
  map (fun i =>
         if (i <? length - 1)%nat then None
         else Some (sum (slice (i + 1 - length) (i + 1) prices) / of_nat length))
      (seq 0 (List.length prices)).

(** [calculateConfidence]. *)
Definition calculateConfidence (volatility trend maDistance : Q) : Q :=
  let volScore := 1 - Math_abs (volatility - 0.02) / 0.05 in
  let trendScore := Math_abs trend in
  let maScore := 1 - Math_min (maDistance / 0.05) 1 in
  let confidence := volScore * 0.3 + trendScore * 0.4 + maScore * 0.3 in
  Math_max 0 (Math_min 1 confidence).

Record ScenarioFees := mkScenario {
  sc_totalFees : Q;    (* toFixed(4) *)
  sc_feePercent : Q;   (* toFixed(3) *)
  sc_net : Q           (* netProfit / netLoss, toFixed(4) *)
}.

Record TPSLFees := mkTPSLFees {
  tpScenario : ScenarioFees;
  slScenario : ScenarioFees;
  tf_buyFeeRate : Q;   (* percent, toFixed(2) *)
  tf_sellFeeRate : Q   (* percent, toFixed(2) *)
}.

Record TPSLMetrics := mkMetrics {
  m_atr : Q;                  (* toFixed(2) *)
  m_volatility : Q;           (* percent, toFixed(2) *)
  m_trend : Q;                (* toFixed(3) *)
  m_maDistance : option Q     (* percent, toFixed(2); [None]: not finite *)
}.

(** The fields the ['ml-atr-fees'] result has and the fallback lacks. *)
Record TPSLDetails := mkDetails {
  stopLossPercent : Q;        (* toFixed(2) *)
  takeProfitPercent : Q;      (* toFixed(2) *)
  riskRewardRatio_net : Q;    (* toFixed(2) *)
  fees : TPSLFees;
  metrics : TPSLMetrics
}.

Record TPSLResult := mkTPSL {
  stopLoss : Q;
  takeProfit : Q;
  method : string;
  confidence : Q;
  details : option TPSLDetails
}.

(** The values of [stopLossPercent] and [takeProfitPercent] after the
    timeframe adjustment, before fees (lines 152-183 of the source). *)
Definition percentsBeforeFees (this : t) (atr volatility trend currentPrice : Q)
    (timeframe : string) : Q * Q :=
  let volatilityFactor := Math_max 0.5 (Math_min 2.0 (volatility / 0.02)) in
  let stopLossDistance := atr * atrMultiplier this * volatilityFactor in
  let stopLossPercent := stopLossDistance / currentPrice * 100 in
  let stopLossPercent :=
    Math_max (minStopLossPercent this) (Math_min (maxStopLossPercent this) stopLossPercent) in
  let stopLossDistance := currentPrice * (stopLossPercent / 100) in
  let trendFactor := Math_abs trend in
  let dynamicRR := riskRewardRatio this * (1 + trendFactor * 0.5) in
  let takeProfitDistance := stopLossDistance * dynamicRR in
  let takeProfitPercent := takeProfitDistance / currentPrice * 100 in
  let takeProfitPercent :=
    Math_max (minTakeProfitPercent this)
             (Math_min (maxTakeProfitPercent this) takeProfitPercent) in
  if String.eqb timeframe "1m" then
    (Math_min (maxStopLossPercent this * 1.2) (stopLossPercent * 1.2),
     Math_min (maxTakeProfitPercent this * 1.3) (takeProfitPercent * 1.3))
  else if String.eqb timeframe "5m" then
    (stopLossPercent,
     Math_min (maxTakeProfitPercent this * 1.1) (takeProfitPercent * 1.1))
  else (stopLossPercent, takeProfitPercent).

Definition calculateOptimalTPSL `{MathLib} (this : t) (priceData : list Bar)
    (currentPrice : Q) (maType : string) (maLength : nat)
    (positionSize volume30Day : Q) (timeframe : string) : result TPSLResult :=
  match calculateATR priceData 14 with
  | None =>
      Ok (mkTPSL (currentPrice * 0.985) (currentPrice * 1.03) "fallback" 0.5 None)
  | Some atr =>
    if negb (truthy atr) then
      Ok (mkTPSL (currentPrice * 0.985) (currentPrice * 1.03) "fallback" 0.5 None)
    else
      let recentData := slice_last (volatilityWindow this) priceData in
      let volatility := calculateVolatility recentData in
      let trend := calculateTrend recentData in
      (* Lines 148-150 compute [maDistance], which only the confidence
         at line 207 reads. *)
      let '(stopLossPercent, takeProfitPercent) :=
        percentsBeforeFees this atr volatility trend currentPrice timeframe in
      let takeProfit := currentPrice * (1 + takeProfitPercent / 100) in
      (* Line 187, [stopLoss = currentPrice * (1 - stopLossPercent / 100)]:
         [stopLoss] was declared [const] at line 161. *)
      Throw "Assignment to constant variable."
  end.

End MLRiskManager.

(** ** [src/strategy.js] *)

(** The three indicators of the [technicalindicators] package used by
    [calculateMA]: [X.calculate({ period, values })]. *)
Class TechnicalIndicators := {
  SMA_calculate : nat -> list Q -> list Q;
  EMA_calculate : nat -> list Q -> list Q;
  WMA_calculate : nat -> list Q -> list Q
}.

Module StrategyOptimizer.

Definition maTypes : list string := ["SMA"; "EMA"; "WMA"; "DEMA"; "TEMA"; "HMA"; "VWAP"].
Definition lengthRange_min : nat := 5.
Definition lengthRange_max : nat := 30.

(** [type.toUpperCase()] on ASCII letters. *)
Definition upper_ascii (c : ascii) : ascii :=
  let n := nat_of_ascii c in
  if ((97 <=? n) && (n <=? 122))%nat then ascii_of_nat (n - 32) else c.

Fixpoint toUpperCase (s : string) : string :=
  match s with
  | EmptyString => EmptyString
  | String c rest => String (upper_ascii c) (toUpperCase rest)
  end.

(** [xs.map((x, i) => f x i)]. *)
Fixpoint mapi_from {A B} (i : nat) (f : A -> nat -> B) (xs : list A) : list B :=
  match xs with
  | [] => []
  | x :: rest => f x i :: mapi_from (S i) f rest
  end.
Definition mapi {A B} (f : A -> nat -> B) (xs : list A) : list B := mapi_from 0 f xs.

(** Keeps the entries that are numbers; [None] is the [NaN] obtained
    from an index past the end of an array. *)
Fixpoint finite_values (xs : list (option Q)) : list Q :=
  match xs with
  | [] => []
  | Some x :: rest => x :: finite_values rest
  | None :: rest => finite_values rest
  end.

(** The price-weighted window average of the ['VWAP'] case. *)
Definition vwap_window (window : list Q) : Q :=
  fold_left Qplus (mapi (fun p idx => p * of_nat (idx + 1)) window) 0
  / fold_left Qplus (mapi (fun _ idx => of_nat (idx + 1)) window) 0.

(** The [switch] of [calculateMA]; the entries are [option]s because the
    DEMA, TEMA and HMA combinations read arrays by index. *)
Definition calculateMA_switch `{TechnicalIndicators}
    (type : string) (length : nat) (validPrices : list Q) : list (option Q) :=
  let TYPE := toUpperCase type in
  if String.eqb TYPE "SMA" then map Some (SMA_calculate length validPrices)
  else if String.eqb TYPE "EMA" then map Some (EMA_calculate length validPrices)
  else if String.eqb TYPE "WMA" then map Some (WMA_calculate length validPrices)
  else if String.eqb TYPE "DEMA" then
    let ema1 := EMA_calculate length validPrices in
    let ema2 := EMA_calculate length ema1 in
    mapi (fun e1 i => option_map (fun e2 => 2 * e1 - e2) (nth_error ema2 i))
         (slice_last (List.length ema2) ema1)
  else if String.eqb TYPE "TEMA" then
    let tema1 := EMA_calculate length validPrices in
    let tema2 := EMA_calculate length tema1 in
    let tema3 := EMA_calculate length tema2 in
    mapi (fun e1 i =>
            match nth_error (slice_last (List.length tema3) tema2) i, nth_error tema3 i with
            | Some e2, Some e3 => Some (3 * e1 - 3 * e2 + e3)
            | _, _ => None
            end)
         (slice_last (List.length tema3) tema1)
  else if String.eqb TYPE "HMA" then
    let halfLength := Nat.div length 2 in
    let sqrtLength := Nat.sqrt length in
    let wma1 := WMA_calculate halfLength validPrices in
    let wma2 := WMA_calculate length validPrices in
    let diff :=
      mapi (fun w1 i => option_map (fun w2 => 2 * w1 - w2) (nth_error wma2 i))
           (slice_last (List.length wma2) wma1) in
    (* [wma1.slice(-wma2.length)] is never longer than [wma2] unless
       [wma2] is empty; every entry of [diff] is then [NaN], and so is
       whatever the indicator makes of it. *)
    if (List.length (finite_values diff) =? List.length diff)%nat
    then map Some (WMA_calculate sqrtLength (finite_values diff))
    else map (fun _ => None) diff
  else if String.eqb TYPE "VWAP" then
    map (fun i => Some (vwap_window (slice (i + 1 - length) (i + 1) validPrices)))
        (seq (length - 1) (List.length validPrices - (length - 1)))
  else map Some (SMA_calculate length validPrices).

(** [calculateMA]; [None] is the [null] returned from the [catch]. *)
Definition calculateMA `{TechnicalIndicators}
    (prices : list Q) (type : string) (length : nat) : option (list Q) :=
  if (List.length prices =? 0)%nat then None
  else if String.eqb type "" then None
  else if ((length =? 0) || (length <? 1) || (List.length prices <? length))%nat then None
  else
    let validPrices := filter (fun price => ltb 0 price) prices in
    if (List.length validPrices <? length)%nat then None
    else
      let result := calculateMA_switch type length validPrices in
      if (List.length result =? 0)%nat then None
      else Some (finite_values result).

(** [arr[i]] at an index known to be in range. *)
Definition at_index (arr : list Q) (i : nat) : Q := nth i arr 0.

(** The body of the loop of [scoreMA] at index [i]. *)
Definition scoreMA_step (prices maValues : list Q) (length : nat) (score : Q) (i : nat) : Q :=
  let priceIdx := (Z.of_nat (List.length prices) - Z.of_nat (List.length maValues)
                   + Z.of_nat i)%Z in
  if ((0 <? priceIdx) && (priceIdx <? Z.of_nat (List.length prices)))%Z then
    let prevPrice := at_index prices (Z.to_nat (priceIdx - 1)) in
    let currentPrice := at_index prices (Z.to_nat priceIdx) in
    let prevMA := at_index maValues (i - 1) in
    let currentMA := at_index maValues i in
    let longSignal := leb prevPrice prevMA && ltb currentMA currentPrice in
    let shortSignal := leb prevMA prevPrice && ltb currentPrice currentMA in
    if longSignal then score + (currentPrice - prevPrice) / of_nat length
    else if shortSignal then score + (prevPrice - currentPrice) / of_nat length
    else score
  else score.

Definition scoreMA (prices maValues : list Q) (length evaluationPeriod : nat) : Q :=
  if (List.length maValues <? evaluationPeriod)%nat then 0
  else
    let startIdx := (List.length maValues - evaluationPeriod)%nat in
    fold_left (scoreMA_step prices maValues length)
              (seq (startIdx + 1) (List.length maValues - (startIdx + 1))) 0.

Definition calculateRSquared (prices maValues : list Q) (length : nat) : Q :=
  if negb (List.length prices =? List.length maValues)%nat then 0
  else
    let n := Nat.min (List.length prices) length in
    let priceSlice := slice_last n prices in
    let maSlice := slice_last n maValues in
    let priceMean := sum priceSlice / of_nat n in
    let '(ssRes, ssTot) :=
      fold_left
        (fun '(ssRes, ssTot) i =>
           (ssRes + Math_pow2 (at_index priceSlice i - at_index maSlice i),
            ssTot + Math_pow2 (at_index priceSlice i - priceMean)))
        (seq 0 n) (0, 0) in
    if eqb ssTot 0 then 0 else 1 - (ssRes / ssTot).

Record Trade := mkTrade {
  entry : Q;
  exit : Q;
  profit : Q;
  profitPercent : Q;
  win : bool
}.

Record Performance := mkPerformance {
  winRate : Q;
  profitFactor : Q;
  maxDrawdown : Q;
  totalTrades : nat;
  wins : nat;
  losses : nat;
  sharpeRatio : Q
}.

Definition calculateSharpeRatio `{MathLib} (prices maValues : list Q) : Q :=
  let returns :=
    map (fun i => (at_index prices i - at_index prices (i - 1)) / at_index prices (i - 1))
        (seq 1 (Nat.min (List.length prices) (List.length maValues) - 1)) in
  if (List.length returns =? 0)%nat then 0
  else
    let avgReturn := sum returns / of_nat (List.length returns) in
    let variance :=
      fold_left (fun s ret => s + Math_pow2 (ret - avgReturn)) returns 0
      / of_nat (List.length returns) in
    let stdDev := Math_sqrt variance in
    if eqb stdDev 0 then 0 else avgReturn / stdDev.

(** The simulation loop of [evaluatePerformance]: the trades closed so
    far, whether a position is open, and its entry price. *)
Definition simulate_step (prices maValues : list Q)
    (st : list Trade * bool * Q) (i : nat) : list Trade * bool * Q :=
  let '(trades, inPosition, entryPrice) := st in
  let priceIdx := (Z.of_nat (List.length prices) - Z.of_nat (List.length maValues)
                   + Z.of_nat i)%Z in
  if ((0 <? priceIdx) && (priceIdx <? Z.of_nat (List.length prices)))%Z then
    let prevPrice := at_index prices (Z.to_nat (priceIdx - 1)) in
    let currentPrice := at_index prices (Z.to_nat priceIdx) in
    let prevMA := at_index maValues (i - 1) in
    let currentMA := at_index maValues i in
    if negb inPosition && leb prevPrice prevMA && ltb currentMA currentPrice then
      (trades, true, currentPrice)
    else if inPosition && leb prevMA prevPrice && ltb currentPrice currentMA then
      let profit := currentPrice - entryPrice in
      let profitPercent := (profit / entryPrice) * 100 in
      (trades ++ [mkTrade entryPrice currentPrice profit profitPercent (ltb 0 profit)],
       false, entryPrice)
    else st
  else st.

(** The [forEach] that tracks the deepest fall of the running profit
    below its peak: [(maxDrawdown, peak, runningTotal)]. *)
Definition drawdown_step (st : Q * Q * Q) (t : Trade) : Q * Q * Q :=
  let '(maxDrawdown, peak, runningTotal) := st in
  let runningTotal := runningTotal + profit t in
  let peak := if ltb peak runningTotal then runningTotal else peak in
  let drawdown := peak - runningTotal in
  let maxDrawdown := if ltb maxDrawdown drawdown then drawdown else maxDrawdown in
  (maxDrawdown, peak, runningTotal).

Definition evaluatePerformance `{MathLib} (prices maValues : list Q) : Performance :=
  let '(trades, _, _) :=
    fold_left (simulate_step prices maValues)
              (seq 1 (List.length maValues - 1)) ([], false, 0) in
  let wins := List.length (filter win trades) in
  let losses := List.length (filter (fun t => negb (win t)) trades) in
  let totalProfit := fold_left (fun s t => s + (if win t then profit t else 0)) trades 0 in
  let totalLoss :=
    Math_abs (fold_left (fun s t => s + (if negb (win t) then profit t else 0)) trades 0) in
  let '(maxDrawdown, _, _) := fold_left drawdown_step trades (0, 0, 0) in
  {| winRate :=
       if (0 <? List.length trades)%nat
       then of_nat wins / of_nat (List.length trades) else 0;
     profitFactor := if ltb 0 totalLoss then totalProfit / totalLoss else totalProfit;
     maxDrawdown := maxDrawdown;
     totalTrades := List.length trades;
     wins := wins;
     losses := losses;
     sharpeRatio := calculateSharpeRatio prices maValues |}.

Definition calculateCompositeScore (crossoverScore rSquared : Q)
    (performance : Performance) (timeframe : string) : Q :=
  let w_crossover := 0.4 in
  let w_rSquared := 0.2 in
  let w_winRate := 0.2 in
  let w_profitFactor := 0.1 in
  let w_drawdown := 0.1 in
  let normalizedCrossover := Math_max 0 (Math_min 1 ((crossoverScore + 100) / 200)) in
  let normalizedRSquared := Math_max 0 (Math_min 1 rSquared) in
  let normalizedWinRate := Math_max 0 (Math_min 1 (winRate performance)) in
  let normalizedProfitFactor :=
    Math_max 0 (Math_min 1 (profitFactor performance / 1000)) in
  let normalizedDrawdown :=
    Math_max 0 (Math_min 1 (1 - (maxDrawdown performance / 1000))) in
  let compositeScore :=
    w_crossover * normalizedCrossover +
    w_rSquared * normalizedRSquared +
    w_winRate * normalizedWinRate +
    w_profitFactor * normalizedProfitFactor +
    w_drawdown * normalizedDrawdown in
  let timeframeMultiplier :=
    if String.eqb timeframe "1m" then 0.9
    else if String.eqb timeframe "5m" then 1.0
    else if String.eqb timeframe "15m" then 0.95
    else 1.0 in
  compositeScore * timeframeMultiplier.

Record Config := mkConfig {
  type : string;
  length : nat;
  score : Q;
  crossoverScore : Q;
  rSquared : Q;
  performance : Performance;
  timeframe : string
}.

(** The variables the two nested loops of [optimizeMAParameters] update.
    [bestScore = None] is the initial [-Infinity]; [progress] collects
    the fractions handed to the progress callback. *)
Record OptState := mkOpt {
  bestConfig : option Config;
  bestScore : option Q;
  results : list Config;
  tested : nat;
  progress : list Q
}.

Definition totalCombinations : nat :=
  (List.length maTypes * (lengthRange_max - lengthRange_min + 1))%nat.

(** One pass through the body of the inner loop. *)
Definition tryCombination `{MathLib} `{TechnicalIndicators}
    (prices : list Q) (timeframe : string) (maType : string)
    (st : OptState) (length : nat) : OptState :=
  let tested := S (tested st) in
  let progress := progress st ++ [of_nat tested / of_nat totalCombinations] in
  let skipped := mkOpt (bestConfig st) (bestScore st) (results st) tested progress in
  match calculateMA prices maType length with
  | Some maValues =>
      if (20 <? List.length maValues)%nat then
        let crossoverScore := scoreMA prices maValues length 20 in
        let rSquared :=
          calculateRSquared (slice_last (List.length maValues) prices) maValues
                            (List.length maValues) in
        let performance := evaluatePerformance prices maValues in
        let compositeScore :=
          calculateCompositeScore crossoverScore rSquared performance timeframe in
        let config :=
          mkConfig maType length compositeScore crossoverScore rSquared performance
                   timeframe in
        let results := results st ++ [config] in
        let better :=
          match bestScore st with
          | None => true
          | Some best => ltb best compositeScore
          end in
        if better
        then mkOpt (Some config) (Some compositeScore) results tested progress
        else mkOpt (bestConfig st) (bestScore st) results tested progress
      else skipped
  | None => skipped
  end.

Definition lengths : list nat :=
  seq lengthRange_min (lengthRange_max - lengthRange_min + 1).

Definition optimize_loops `{MathLib} `{TechnicalIndicators}
    (prices : list Q) (timeframe : string) : OptState :=
  fold_left
    (fun st maType => fold_left (tryCombination prices timeframe maType) lengths st)
    maTypes
    (mkOpt None None [] 0 []).

(** What [optimizeMAParameters] resolves to: the best configuration
    together with the [allResults] array attached to it. *)
Definition optimizeMAParameters `{MathLib} `{TechnicalIndicators}
    (historicalData : list Bar) (timeframe : string)
  : result (Config * list Config) :=
  if (List.length historicalData <? 50)%nat
  then Throw "Insufficient historical data for optimization"
  else
    let prices := map close historicalData in
    let st := optimize_loops prices timeframe in
    match bestConfig st with
    | None => Throw "No valid MA configuration found"
    | Some best => Ok (best, results st)
    end.

(** *** Signal generation *)

Inductive Action := HOLD | BUY | SELL.

Definition Action_eqb (a b : Action) : bool :=
  match a, b with
  | HOLD, HOLD | BUY, BUY | SELL, SELL => true
  | _, _ => false
  end.

(** The object [detectCrossover] returns when [detected] is true. *)
Record Crossover := mkCrossover {
  direction : Action;
  kind : string;
  strength : Q;
  crossover_reason : string;
  priceChange : Q;
  maChange : Q;
  crossoverGap : Q
}.

(** The fields of a signal the callers read.  The echo of the MA
    parameters and the wall-clock [timestamp] are left out. *)
Record Signal := mkSignal {
  action : Action;
  signal_confidence : Q;
  reason : string;
  valid : bool;
  pending : bool;
  crossover : option Crossover;
  trend : option string
}.

Definition validatePriceData (values : list Q) : bool :=
  forallb (fun value => ltb 0 value) values.

(** A candle under construction: start time in milliseconds and close. *)
Record Candle := mkCandle { startTime : Z; candle_close : Q }.

(** [getCandleEndTime]; [this_timeframe] is the optimizer's own field. *)
Definition getCandleEndTime (this_timeframe : string) (startTime : Z) : Z :=
  let minutes :=
    if String.eqb this_timeframe "1m" then 1%Z
    else if String.eqb this_timeframe "5m" then 5%Z
    else if String.eqb this_timeframe "15m" then 15%Z
    else 5%Z in
  (startTime + minutes * 60000)%Z.

(** [validateCandleClose]; [now] is the clock reading of [new Date()]. *)
Definition validateCandleClose (this_timeframe : string) (now : Z)
    (candleData : option Candle) (currentPrice : Q) : bool :=
  match candleData with
  | None => true
  | Some candle =>
      let candleEndTime := getCandleEndTime this_timeframe (startTime candle) in
      if (candleEndTime <=? now)%Z then
        let priceDiff := Math_abs (currentPrice - candle_close candle) / currentPrice in
        ltb priceDiff 0.001
      else false
  end.

Definition calculateCrossoverStrength (prevPrice currentPrice prevMA currentMA : Q)
    (type : string) : Q :=
  let priceMovement := Math_abs (currentPrice - prevPrice) / prevPrice in
  let maMovement := Math_abs (currentMA - prevMA) / prevMA in
  let gap :=
    if String.eqb type "bullish"
    then (currentPrice - currentMA) / currentMA
    else (currentMA - currentPrice) / currentMA in
  let strength := Math_min 1 ((priceMovement * 2 + maMovement + gap * 0.5) / 3) in
  Math_max 0 strength.

(** [detectCrossover]; [None] is [{ detected: false }]. *)
Definition detectCrossover (prevPrice currentPrice prevMA currentMA : Q)
    (maType : string) (maLength : nat) : option Crossover :=
  let bullishCrossover := leb prevPrice prevMA && ltb currentMA currentPrice in
  let bearishCrossover := leb prevMA prevPrice && ltb currentPrice currentMA in
  if bullishCrossover then
    let strength :=
      calculateCrossoverStrength prevPrice currentPrice prevMA currentMA "bullish" in
    Some {| direction := BUY;
            kind := "bullish";
            strength := strength;
            crossover_reason :=
              ("Bullish crossover: Price (" ++ toFixed_string 4 currentPrice
               ++ ") crossed above " ++ maType ++ "(" ++ show_nat maLength ++ ") at "
               ++ toFixed_string 4 currentMA)%string;
            priceChange := currentPrice - prevPrice;
            maChange := currentMA - prevMA;
            crossoverGap := currentPrice - currentMA |}
  else if bearishCrossover then
    let strength :=
      calculateCrossoverStrength prevPrice currentPrice prevMA currentMA "bearish" in
    Some {| direction := SELL;
            kind := "bearish";
            strength := strength;
            crossover_reason :=
              ("Bearish crossover: Price (" ++ toFixed_string 4 currentPrice
               ++ ") crossed below " ++ maType ++ "(" ++ show_nat maLength ++ ") at "
               ++ toFixed_string 4 currentMA)%string;
            priceChange := currentPrice - prevPrice;
            maChange := currentMA - prevMA;
            crossoverGap := currentMA - currentPrice |}
  else None.

Definition validateSignalStrength (baseConfidence : Q) (crossoverResult : Crossover) : Q :=
  let adjustedConfidence := baseConfidence in
  let adjustedConfidence :=
    if truthy (strength crossoverResult)
    then adjustedConfidence * (0.5 + strength crossoverResult * 0.5)
    else adjustedConfidence in
  let adjustedConfidence :=
    if truthy (crossoverGap crossoverResult) then
      let gapFactor := Math_min 1 (Math_abs (crossoverGap crossoverResult) / 100) in
      adjustedConfidence * (0.8 + gapFactor * 0.2)
    else adjustedConfidence in
  Math_max 0 (Math_min 100 (Math_round adjustedConfidence)).

Definition calculateSignalConfidence (prices maValues : list Q) : Q :=
  if (List.length prices <? 10)%nat then 0
  else
    let recentPrices := slice_last 10 prices in
    let recentMA := slice_last 10 maValues in
    let alignment :=
      fold_left
        (fun alignment i =>
           if ltb (at_index recentMA i) (at_index recentPrices i)
           then S alignment else alignment)
        (seq 0 (Nat.min (List.length recentPrices) (List.length recentMA))) O in
    let confidence :=
      Math_min 100
        (Math_max 0 ((of_nat alignment / of_nat (List.length recentPrices)) * 100)) in
    Math_round confidence.

Definition hold (reason : string) (valid : bool) : Signal :=
  mkSignal HOLD 0 reason valid false None None.

Definition calculateSignals `{TechnicalIndicators} (this_timeframe : string) (now : Z)
    (prices : list Q) (maType : string) (maLength : nat) (candleData : option Candle)
  : Signal :=
  if (List.length prices <? maLength + 2)%nat then
    hold ("Insufficient data: " ++ show_nat (List.length prices) ++ " < "
          ++ show_nat (maLength + 2))%string false
  else if String.eqb maType "" || (maLength =? 0)%nat then
    hold "Invalid MA parameters" false
  else
    match calculateMA prices maType maLength with
    | None => hold "Invalid MA calculation" false
    | Some maValues =>
      if (List.length maValues <? 2)%nat then hold "Invalid MA calculation" false
      else
        let currentPrice := at_index prices (List.length prices - 1) in
        let prevPrice := at_index prices (List.length prices - 2) in
        let currentMA := at_index maValues (List.length maValues - 1) in
        let prevMA := at_index maValues (List.length maValues - 2) in
        if negb (validatePriceData [currentPrice; prevPrice; currentMA; prevMA]) then
          hold "Invalid price or MA values" false
        else
          let candleCloseConfirmed :=
            validateCandleClose this_timeframe now candleData currentPrice in
          if (match candleData with Some _ => true | None => false end)
             && negb candleCloseConfirmed then
            mkSignal HOLD 0 "Waiting for candle close confirmation" true true None None
          else
            match detectCrossover prevPrice currentPrice prevMA currentMA maType maLength with
            | Some crossoverResult =>
                let confidence := calculateSignalConfidence prices maValues in
                mkSignal (direction crossoverResult)
                         (validateSignalStrength confidence crossoverResult)
                         (crossover_reason crossoverResult) true false
                         (Some crossoverResult) None
            | None =>
                mkSignal HOLD 0 "No crossover detected" true false None
                         (Some (if ltb currentMA currentPrice then "BULLISH" else "BEARISH"))
            end
    end.

End StrategyOptimizer.

(** ** The trading loop ([BitFlowBot], the main orchestrator) *)

Module BitFlowBot.

Import StrategyOptimizer.

(** The values of [previousPriceVsMA]: ['above'], ['below'], ['at']. *)
Inductive PriceVsMA := above | below | at_ma.

Definition PriceVsMA_eqb (a b : PriceVsMA) : bool :=
  match a, b with
  | above, above | below, below | at_ma, at_ma => true
  | _, _ => false
  end.

(** The open position; the wall-clock [entryTime] is left out. *)
Record Position := mkPosition {
  entryPrice : Q;
  quantity : Q;
  stopLoss : Q;
  takeProfit : Q;
  orderId : nat;
  bracketOrder : bool
}.

(** The fields of the bot the loop reads; none is written by the loop. *)
Record t := mk {
  currentSymbol : string;
  currentTimeframe : string;
  optimizedStrategy : Config;
  historicalData : list Bar;
  useMLRisk : bool;
  positionSizing : string;
  stopLossPercent : Q;
  riskRewardRatio : Q;
  accountInfo : AccountInfo;
  mlRiskManager : MLRiskManager.t
}.

(** The variables of [startTrading] that live across iterations. *)
Record LoopState := mkLoop {
  isRunning : bool;
  position : option Position;
  priceHistory : list Q;
  checkCount : nat;
  previousPriceVsMA : option PriceVsMA;
  initializationWaitTicks : nat;
  initializationComplete : bool
}.

(** What the order manager answers: [{ success, orderId }]. *)
Record OrderResult := mkOrderResult { success : bool; result_orderId : nat }.

(** What the outside world answers during one iteration: the outcome of
    each attempt to fetch the price, and of the order if one is sent. *)
Record TickEnv := mkEnv {
  priceAttempt : nat -> result Q;
  buyResult : OrderResult;
  sellResult : OrderResult
}.

(** What one iteration does that is visible outside. *)
Inductive Event :=
| Sleep (ms : N)
| RetryLog (retries : nat)
| ReadyLog (currentState : PriceVsMA)
| HighVolatilityLog (volatility : Q) (timeframe : string)
| BuySignalLog (currentPrice : Q)
| ExecuteBuyOrder (symbol : string) (quantity : Q)
| BuyExecutedLog
| BuyFailedLog
| ExitHitLog (exitReason : string) (currentPrice : Q)
| ExecuteSellOrder (symbol : string) (quantity : Q)
| SellExecutedLog
| SellFailedLog
| TradingErrorLog (message : string)
| ProcessExit (code : nat).

Definition isBuyOrder (e : Event) : bool :=
  match e with ExecuteBuyOrder _ _ => true | _ => false end.

Definition isSellOrder (e : Event) : bool :=
  match e with ExecuteSellOrder _ _ => true | _ => false end.

(** The calls of the order manager. *)
Definition isOrder (e : Event) : bool := isBuyOrder e || isSellOrder e.



(** [message.includes(part)]. *)
Definition includes (message part : string) : bool :=
  match String.index 0 part message with
  | Some _ => true
  | None => false
  end.

(** The retry loop around [getRealTimePrice]: [remaining] attempts left
    out of three. *)
Fixpoint fetchWithRetry (env : TickEnv) (retries remaining : nat)
  : result Q * list Event :=
  match remaining with
  | O => (Throw "", [])
  | S remaining' =>
      match priceAttempt env retries with
      | Ok price => (Ok price, [])
      | Throw message =>
          let retries := S retries in
          if (3 <=? retries)%nat then (Throw message, [])
          else
            let '(r, events) := fetchWithRetry env retries remaining' in
            (r, RetryLog retries :: Sleep 2000%N :: events)
      end
  end.

Definition calculateCurrentMA `{TechnicalIndicators} (this : t) (priceHistory : list Q) : Q :=
  match calculateMA priceHistory (type (optimizedStrategy this))
                    (length (optimizedStrategy this)) with
  | Some maValues =>
      if (0 <? List.length maValues)%nat
      then at_index maValues (List.length maValues - 1)
      else at_index priceHistory (List.length priceHistory - 1)
  | None => at_index priceHistory (List.length priceHistory - 1)
  end.

(** The bot's own copy of the volatility computation. *)
Definition calculateVolatility `{MathLib} (priceData : list Bar) : Q :=
  let returns := MLRiskManager.returns priceData in
  let mean := sum returns / of_nat (List.length returns) in
  let variance :=
    fold_left (fun s r => s + Math_pow2 (r - mean)) returns 0
    / of_nat (List.length returns) in
  Math_sqrt variance.

Definition relation (isAbove isBelow : bool) : PriceVsMA :=
  if isAbove then above else if isBelow then below else at_ma.

Definition maxVolatilityThreshold (timeframe : string) : Q :=
  if String.eqb timeframe "1m" then 0.05
  else if String.eqb timeframe "5m" then 0.03
  else 0.02.

(** Stop loss, take profit and size chosen for a buy; the [TypeError]
    of [calculateOptimalTPSL] passes through. *)
Definition buyParameters `{MathLib} (this : t) (currentPrice : Q) : result (Q * Q * Q) :=
  if useMLRisk this && String.eqb (positionSizing this) "ml" then
    match
      MLRiskManager.calculateOptimalTPSL (mlRiskManager this) (historicalData this)
        currentPrice (type (optimizedStrategy this)) (length (optimizedStrategy this))
        0.001 0 (currentTimeframe this)
    with
    | Throw message => Throw message
    | Ok mlResult =>
        let stopLoss := MLRiskManager.stopLoss mlResult in
        let takeProfit := MLRiskManager.takeProfit mlResult in
        let positionResult :=
          MLRiskManager.calculatePositionSize (mlRiskManager this) (accountInfo this)
            1.0 currentPrice stopLoss
            (calculateVolatility (slice_last 50 (historicalData this)))
            0 (currentTimeframe this) in
        Ok (stopLoss, takeProfit, MLRiskManager.size positionResult)
    end
  else
    let slMultiplier := 1 - (stopLossPercent this / 100) in
    let tpMultiplier := 1 + ((stopLossPercent this * riskRewardRatio this) / 100) in
    Ok (currentPrice * slMultiplier, currentPrice * tpMultiplier, 0.001).

(** The part of an iteration after the initialization countdown: the
    crossover test, the volatility filter, the buy and the exit.  The
    outcome is the position afterwards, or the message of the error
    thrown on the way; the events are those up to there. *)
Definition trade `{MathLib} (this : t) (env : TickEnv) (signal : Signal)
    (currentPrice : Q) (isAbove : bool)
    (position : option Position) (previousPriceVsMA : option PriceVsMA)
  : result (option Position) * list Event :=
  let crossedAbove :=
    match previousPriceVsMA with Some below => isAbove | _ => false end in
  let volatility := calculateVolatility (slice_last 50 (historicalData this)) in
  let isHighVolatility :=
    ltb (maxVolatilityThreshold (currentTimeframe this)) volatility in
  let noPosition := match position with None => true | Some _ => false end in
  let buyWanted := Action_eqb (action signal) BUY && noPosition && crossedAbove in
  if isHighVolatility
     && (String.eqb (currentTimeframe this) "1m" || String.eqb (currentTimeframe this) "5m")
  then
    (Ok position,
     if buyWanted then [HighVolatilityLog volatility (currentTimeframe this)] else [])
  else if buyWanted then
    match buyParameters this currentPrice with
    | Throw message => (Throw message, [BuySignalLog currentPrice])
    | Ok (stopLoss, takeProfit, positionSize) =>
        let result := buyResult env in
        if success result then
          (Ok (Some (mkPosition currentPrice positionSize stopLoss takeProfit
                                (result_orderId result) false)),
           [BuySignalLog currentPrice;
            ExecuteBuyOrder (currentSymbol this) positionSize; BuyExecutedLog])
        else
          (Ok position,
           [BuySignalLog currentPrice;
            ExecuteBuyOrder (currentSymbol this) positionSize; BuyFailedLog])
    end
  else
    match position with
    | Some pos =>
        let hitTP := leb (takeProfit pos) currentPrice in
        let hitSL := leb currentPrice (stopLoss pos) in
        if hitTP || hitSL then
          let exitReason := if hitTP then "TAKE PROFIT" else "STOP LOSS" in
          let result := sellResult env in
          if success result then
            (Ok None,
             [ExitHitLog exitReason currentPrice;
              ExecuteSellOrder (currentSymbol this) (quantity pos); SellExecutedLog])
          else
            (Ok position,
             [ExitHitLog exitReason currentPrice;
              ExecuteSellOrder (currentSymbol this) (quantity pos); SellFailedLog])
        else (Ok position, [])
    | None => (Ok position, [])
    end.

(** The [catch] of the loop: the error is logged; a message with
    ['Failed to get'] or ['Request failed'] ends the process, any other
    is followed by five seconds of sleep.  [st] holds the variables as
    they were when the error was thrown. *)
Definition catch (st : LoopState) (message : string) : LoopState * list Event :=
  if includes message "Failed to get" || includes message "Request failed" then
    (mkLoop false (position st) (priceHistory st) (checkCount st)
            (previousPriceVsMA st) (initializationWaitTicks st)
            (initializationComplete st),
     [TradingErrorLog message; ProcessExit 1])
  else (st, [TradingErrorLog message; Sleep 5000%N]).

(** One iteration of the [while] loop once a price has been fetched: the
    variables at its end, or at the [throw]; what it did; the message
    thrown, if any. *)
Definition iteration `{MathLib} `{TechnicalIndicators}
    (this : t) (env : TickEnv) (st : LoopState) (currentPrice : Q)
  : LoopState * list Event * option string :=
  let sleepInterval :=
    match position st with Some _ => 1000%N | None => 30000%N end in
  let priceHistory := priceHistory st ++ [currentPrice] in
  let priceHistory :=
    if (1000 <? List.length priceHistory)%nat then tl priceHistory else priceHistory in
  let signal :=
    calculateSignals (currentTimeframe this) 0 priceHistory
      (type (optimizedStrategy this)) (length (optimizedStrategy this)) None in
  let currentMA := calculateCurrentMA this priceHistory in
  let isAbove := ltb currentMA currentPrice in
  let isBelow := ltb currentPrice currentMA in
  match previousPriceVsMA st with
  | None =>
      (mkLoop (isRunning st) (position st) priceHistory (checkCount st)
              (Some (relation isAbove isBelow))
              (initializationWaitTicks st) (initializationComplete st),
       [Sleep sleepInterval], None)
  | Some previous =>
      let waiting := (0 <? initializationWaitTicks st)%nat in
      let ticks :=
        if waiting then (initializationWaitTicks st - 1)%nat
        else initializationWaitTicks st in
      if waiting && (0 <? ticks)%nat then
        (mkLoop (isRunning st) (position st) priceHistory (checkCount st)
                (Some (relation isAbove isBelow)) ticks (initializationComplete st),
         [Sleep sleepInterval], None)
      else
        let complete := if waiting then true else initializationComplete st in
        let previous := if waiting then relation isAbove isBelow else previous in
        let readyLog := if waiting then [ReadyLog (relation isAbove isBelow)] else [] in
        match trade this env signal currentPrice isAbove (position st) (Some previous) with
        | (Ok position, events) =>
            (mkLoop (isRunning st) position priceHistory (checkCount st)
                    (Some (relation isAbove isBelow)) ticks complete,
             readyLog ++ events ++ [Sleep sleepInterval], None)
        | (Throw message, events) =>
            (mkLoop (isRunning st) (position st) priceHistory (checkCount st)
                    (Some previous) ticks complete,
             readyLog ++ events, Some message)
        end
  end.

(** One pass through the [while (this.isRunning)] loop, with its
    [try]/[catch]. *)
Definition tick `{MathLib} `{TechnicalIndicators}
    (this : t) (st : LoopState) (env : TickEnv) : LoopState * list Event :=
  if negb (isRunning st) then (st, [])
  else
    let st := mkLoop (isRunning st) (position st) (priceHistory st) (S (checkCount st))
                     (previousPriceVsMA st) (initializationWaitTicks st)
                     (initializationComplete st) in
    match fetchWithRetry env 0 3 with
    | (Ok currentPrice, events) =>
        match iteration this env st currentPrice with
        | (st', events', None) => (st', events ++ events')
        | (st', events', Some message) =>
            let '(st'', events'') := catch st' message in
            (st'', events ++ events' ++ events'')
        end
    | (Throw message, events) =>
        let '(st', events') := catch st message in
        (st', events ++ events')
    end.

(** The state on entry to the loop. *)
Definition start (this : t) : LoopState :=
  mkLoop true None (map close (historicalData this)) 0 None 10 false.

(** The loop run against a finite sequence of answers of the world. *)
Fixpoint run `{MathLib} `{TechnicalIndicators}
    (this : t) (st : LoopState) (envs : list TickEnv) : LoopState * list Event :=
  match envs with
  | [] => (st, [])
  | env :: rest =>
      let '(st', events) := tick this st env in
      let '(st'', events') := run this st' rest in
      (st'', events ++ events')
  end.

(** The states the loop can be in. *)
Inductive reachable `{MathLib} `{TechnicalIndicators} (this : t) : LoopState -> Prop :=
| reachable_start : reachable this (start this)
| reachable_tick st env :
    reachable this st -> reachable this (fst (tick this st env)).

(** *** Optimization before trading ([optimizeStrategy]) *)

(** What [optimizeStrategy] does that is visible outside. *)
Inductive OptimizeEvent :=
| GetHistoricalData (symbol : string) (barCount : N) (timeframe : string)
| LoadedLog (bars attempts : nat)
| OptimizeSleep (ms : N)
| WinRateWarningLog (maxAttempts : nat)
| OptimizationCompleteLog (maxScore : Q)
| OptimizationFailedLog (message : string)
| OptimizeExit (code : nat).

Definition isOptimizeExit (e : OptimizeEvent) : bool :=
  match e with OptimizeExit _ => true | _ => false end.

(** The bar counts asked of the data manager, in order. *)
Definition fetchedBarCounts (events : list OptimizeEvent) : list N :=
  flat_map (fun e => match e with GetHistoricalData _ barCount _ => [barCount] | _ => [] end)
           events.

(** [this.historicalData = allData]. *)
Definition set_historicalData (this : t) (allData : list Bar) : t :=
  mk (currentSymbol this) (currentTimeframe this) (optimizedStrategy this) allData
     (useMLRisk this) (positionSizing this) (stopLossPercent this) (riskRewardRatio this)
     (accountInfo this) (mlRiskManager this).

(** [this.optimizedStrategy = ...]. *)
Definition set_optimizedStrategy (this : t) (strategy : Config) : t :=
  mk (currentSymbol this) (currentTimeframe this) strategy (historicalData this)
     (useMLRisk this) (positionSizing this) (stopLossPercent this) (riskRewardRatio this)
     (accountInfo this) (mlRiskManager this).

Definition maxAttempts : nat := 3.

(** The [while (winRate < 0.60 && attempts < maxAttempts)] loop of
    [optimizeStrategy]; [getHistoricalData] is the data manager's answer
    to a request for so many bars, [fuel] bounds the number of passes.
    A [Throw] is an exception on its way to the [catch]. *)
Fixpoint optimizeStrategy_loop `{MathLib} `{TechnicalIndicators}
    (getHistoricalData : string -> N -> string -> result (list Bar))
    (fuel : nat) (this : t) (barCount : N) (attempts : nat) (winRate maxScore : Q)
  : t * result Q * list OptimizeEvent :=
  match fuel with
  | O => (this, Ok maxScore, [])
  | S fuel' =>
      if ltb winRate 0.60 && (attempts <? maxAttempts)%nat then
        let attempts := S attempts in
        let request :=
          GetHistoricalData (currentSymbol this) barCount (currentTimeframe this) in
        match getHistoricalData (currentSymbol this) barCount (currentTimeframe this) with
        | Throw message => (this, Throw message, [request])
        | Ok allData =>
            let this := set_historicalData this allData in
            let loaded := LoadedLog (List.length allData) attempts in
            match optimizeMAParameters allData (currentTimeframe this) with
            | Throw message => (this, Throw message, [request; loaded])
            | Ok (best, allResults) =>
                let this := set_optimizedStrategy this best in
                let winRate := StrategyOptimizer.winRate (performance (optimizedStrategy this)) in
                let maxScore := score (optimizedStrategy this) in
                if ltb winRate 0.60 then
                  if (attempts <? maxAttempts)%nat then
                    let barCount :=
                      if (attempts =? 1)%nat then 1500%N
                      else if (attempts =? 2)%nat then 3500%N
                      else barCount in
                    let '(this, outcome, events) :=
                      optimizeStrategy_loop getHistoricalData fuel' this barCount attempts
                                            winRate maxScore in
                    (this, outcome, request :: loaded :: OptimizeSleep 5000%N :: events)
                  else
                    (this, Ok maxScore, [request; loaded; WinRateWarningLog maxAttempts])
                else (this, Ok maxScore, [request; loaded])
            end
        end
      else (this, Ok maxScore, [])
  end.

(** [optimizeStrategy]: the bot after it, and what it did.  Three passes
    are all the loop can make. *)
Definition optimizeStrategy `{MathLib} `{TechnicalIndicators}
    (getHistoricalData : string -> N -> string -> result (list Bar)) (this : t)
  : t * list OptimizeEvent :=
  let '(this, outcome, events) :=
    optimizeStrategy_loop getHistoricalData maxAttempts this 500%N 0 0 0 in
  match outcome with
  | Ok maxScore => (this, events ++ [OptimizationCompleteLog maxScore])
  | Throw message => (this, events ++ [OptimizationFailedLog message; OptimizeExit 1])
  end.

End BitFlowBot.

(** ** Executable stand-ins for the external functions

    Used only to run the model on concrete inputs; every general theorem
    below is stated for arbitrary [MathLib] and [TechnicalIndicators]. *)

Module Reference.

(** Square root to twelve decimals, taken on the argument cut to the
    64 leading bits of its denominator; exact on the square of a
    rational whose denominator fits. *)
Definition sqrt (q : Q) : Q :=
  if Qle_bool q 0 then 0
  else
    let n := Qnum q in
    let d := Z.pos (Qden q) in
    let s := Z.max 0 (Z.log2 d - 64) in
    let n := Z.shiftr n s in
    let d := Z.shiftr d s in
    Qred (inject_Z (Z.sqrt (n * d * 10 ^ 24)) / inject_Z (d * 10 ^ 12)).

(** Simple moving average: the mean of every window of [period] values. *)
Definition sma (period : nat) (values : list Q) : list Q :=
  match period with
  | O => []
  | _ =>
      map (fun i => Qred (sum (slice i (i + period) values) / of_nat period))
          (seq 0 (List.length values + 1 - period))
  end.

(** Exponential moving average, seeded with the mean of the first
    window, smoothing factor [2 / (period + 1)]. *)
Fixpoint ema_from (k prev : Q) (values : list Q) : list Q :=
  match values with
  | [] => []
  | v :: rest =>
      let next := Qred ((v - prev) * k + prev) in
      next :: ema_from k next rest
  end.

Definition ema (period : nat) (values : list Q) : list Q :=
  match period with
  | O => []
  | _ =>
      if (List.length values <? period)%nat then []
      else
        let seed := Qred (sum (firstn period values) / of_nat period) in
        seed :: ema_from (2 / of_nat (period + 1)) seed (skipn period values)
  end.

(** Linearly weighted moving average: weights [1 .. period]. *)
Definition wma_window (window : list Q) : Q :=
  let n := List.length window in
  Qred (sum (StrategyOptimizer.mapi (fun v i => v * of_nat (i + 1)) window)
        / of_nat (n * (n + 1) / 2)).

Definition wma (period : nat) (values : list Q) : list Q :=
  match period with
  | O => []
  | _ =>
      map (fun i => wma_window (slice i (i + period) values))
          (seq 0 (List.length values + 1 - period))
  end.

Definition math : MathLib := {| Math_sqrt := sqrt |}.

Definition indicators : TechnicalIndicators :=
  {| SMA_calculate := sma; EMA_calculate := ema; WMA_calculate := wma |}.

End Reference.


(** ** Concrete inputs used by the examples *)

Module Examples.

(** [n] identical bars: high 101, low 99, close 100. *)
Definition steadyBars (n : nat) : list Bar := repeat (mkBar 100 101 99 100 10) n.

(** [n] bars without any range: open, high, low and close all 100. *)
Definition flatBars (n : nat) : list Bar := repeat (mkBar 100 100 100 100 10) n.

(** The account of the sizing scenario. *)
Definition account : AccountInfo := mkAccount 10000 10000 20000 10000.

(** Fifty bars, flat at 1 until the last five closes 2, 1, 3, 1, 2. *)
Definition lateMoveBars : list Bar :=
  map (fun i => let p := nth (i - 44) [1; 2; 1; 3; 1; 2] 1 in mkBar p p p p 10)
      (seq 0 50).


(** A bot trading SMA(5) with manual TP/SL. *)
Definition demoBot (timeframe : string) (bars : list Bar) : BitFlowBot.t :=
  BitFlowBot.mk "BTC/USD" timeframe
    (StrategyOptimizer.mkConfig "SMA" 5 0 0 0
       (StrategyOptimizer.mkPerformance 0 0 0 0 0 0 0) timeframe)
    bars false "manual" 1.5 2.0 account MLRiskManager.constructor.


(** A tick at which the price is [p] and every order is filled. *)
Definition priceTick (p : Q) : BitFlowBot.TickEnv :=
  BitFlowBot.mkEnv (fun _ => Ok p)
    (BitFlowBot.mkOrderResult true 1) (BitFlowBot.mkOrderResult true 2).

(** Eleven ticks of a falling price: the baseline tick and the ten ticks
    of the countdown, each under the SMA(5). *)
Definition descent : list BitFlowBot.TickEnv :=
  map priceTick [99; 98; 97; 96; 95; 94; 93; 92; 91; 90; 89].

End Examples.

(** ** The scoring rule in the words of the specification *)

Module Spec.

Import StrategyOptimizer.

(** [clamp x lo hi]: [x] brought into [[lo, hi]]. *)
Definition clamp (x lo hi : Q) : Q :=
  if ltb x lo then lo else if ltb hi x then hi else x.

(** The weighted sum of the five normalised sub-scores. *)
Definition weightedSum (crossoverScore rSquared winRate profitFactor maxDrawdown : Q) : Q :=
  0.4 * clamp ((crossoverScore + 100) / 200) 0 1
  + 0.2 * clamp rSquared 0 1
  + 0.2 * clamp winRate 0 1
  + 0.1 * clamp (profitFactor / 1000) 0 1
  + 0.1 * clamp (1 - maxDrawdown / 1000) 0 1.

(** A candidate that is scored rather than skipped: its MA series has
    more than 20 points.  This is the body of the inner loop of
    [optimizeMAParameters] up to [results.push(config)]. *)
Definition scoreCandidate `{MathLib} `{TechnicalIndicators}
    (prices : list Q) (timeframe : string) (candidate : string * nat) : option Config :=
  let '(maType, length) := candidate in
  match calculateMA prices maType length with
  | Some maValues =>
      if (20 <? List.length maValues)%nat then
        let crossoverScore := scoreMA prices maValues length 20 in
        let rSquared :=
          calculateRSquared (slice_last (List.length maValues) prices) maValues
                            (List.length maValues) in
        let performance := evaluatePerformance prices maValues in
        Some (mkConfig maType length
                (calculateCompositeScore crossoverScore rSquared performance timeframe)
                crossoverScore rSquared performance timeframe)
      else None
  | None => None
  end.

(** The combinations in iteration order: MA type major, lengths ascending. *)
Definition combinations : list (string * nat) := list_prod maTypes lengths.

(** All successfully scored candidates, in iteration order. *)
Definition scoredCandidates `{MathLib} `{TechnicalIndicators}
    (prices : list Q) (timeframe : string) : list Config :=
  flat_map (fun candidate =>
              match scoreCandidate prices timeframe candidate with
              | Some config => [config]
              | None => []
              end)
           combinations.

(** One pass through the body of the inner loop, for one combination. *)
Definition loopStep `{MathLib} `{TechnicalIndicators}
    (prices : list Q) (timeframe : string)
    (st : OptState) (candidate : string * nat) : OptState :=
  tryCombination prices timeframe (fst candidate) st (snd candidate).

(** What the loop knows after some combinations: [results] holds the
    candidates scored so far, and the best one is the first of them to
    reach the highest score. *)
Definition firstMaximum (best : Config) (all : list Config) : Prop :=
  exists earlier later,
    all = earlier ++ best :: later
    /\ (forall c, In c earlier -> score c < score best)
    /\ (forall c, In c later -> score c <= score best).

Definition loopInvariant (st : OptState) : Prop :=
  bestScore st = option_map score (bestConfig st)
  /\ match bestConfig st with
     | None => results st = []
     | Some best => firstMaximum best (results st)
     end.

End Spec.

(** * Properties *)

(** ** Arithmetic of the primitives *)

Lemma ltb_true (a b : Q) : ltb a b = true <-> a < b.
Proof.
  unfold ltb. rewrite negb_true_iff. split; intro H.
  - apply Qnot_le_lt. intro L. apply Qle_bool_iff in L. congruence.
  - destruct (Qle_bool b a) eqn:E; [|reflexivity].
    apply Qle_bool_iff in E. exfalso. apply (Qlt_not_le _ _ H E).
Qed.

Lemma ltb_false (a b : Q) : ltb a b = false <-> b <= a.
Proof.
  unfold ltb. rewrite negb_false_iff. apply Qle_bool_iff.
Qed.

Lemma leb_true (a b : Q) : leb a b = true <-> a <= b.
Proof. apply Qle_bool_iff. Qed.

Lemma truthy_true (a : Q) : truthy a = true <-> ~ a == 0.
Proof.
  unfold truthy. rewrite negb_true_iff. split; intro H.
  - now apply Qeq_bool_neq.
  - destruct (Qeq_bool a 0) eqn:E; [|reflexivity].
    apply Qeq_bool_iff in E. contradiction.
Qed.

(** [Math.max(lo, Math.min(hi, x))] lands in [[lo, hi]]. *)
Lemma clamp_bounds (lo hi x : Q) :
  lo <= hi -> lo <= Math_max lo (Math_min hi x) <= hi.
Proof.
  intro H. unfold Math_max, Math_min. split.
  - apply Q.le_max_l.
  - apply Q.max_lub; [exact H | apply Q.le_min_l].
Qed.

Lemma clamp_inside (lo hi x : Q) :
  lo <= x <= hi -> Math_max lo (Math_min hi x) == x.
Proof.
  intros [H1 H2]. unfold Math_max, Math_min.
  rewrite (Q.min_r hi x H2). apply Q.max_r. exact H1.
Qed.

(** Rounding to [d] decimals keeps a non-negative number between two
    bounds that are themselves multiples of [10^-d]. *)
Lemma toFixed_between (d : nat) (a b : Z) (x : Q) :
  (0 <= a)%Z ->
  inject_Z a / inject_Z (10 ^ Z.of_nat d) <= x ->
  x <= inject_Z b / inject_Z (10 ^ Z.of_nat d) ->
  inject_Z a / inject_Z (10 ^ Z.of_nat d) <= toFixed d x
  /\ toFixed d x <= inject_Z b / inject_Z (10 ^ Z.of_nat d).
Proof.
  intros Ha Hlo Hhi.
  assert (Hs : 0 < inject_Z (10 ^ Z.of_nat d)).
  { change 0 with (inject_Z 0). rewrite <- Zlt_Qlt.
    apply Z.pow_pos_nonneg; lia. }
  set (s := inject_Z (10 ^ Z.of_nat d)) in *.
  assert (Hx : 0 <= x).
  { eapply Qle_trans; [|exact Hlo].
    apply Qle_shift_div_l; [exact Hs|].
    rewrite Qmult_0_l. change 0 with (inject_Z 0). rewrite <- Zle_Qle. exact Ha. }
  unfold toFixed. fold s.
  assert (E : ltb x 0 = false) by (apply ltb_false; exact Hx).
  rewrite E. rewrite (Qabs_pos x Hx).
  assert (Hs0 : ~ s == 0).
  { intro Z0. rewrite Z0 in Hs. apply (Qlt_irrefl _ Hs). }
  assert (Hxa : inject_Z a <= x * s).
  { assert (Ea : inject_Z a == (inject_Z a / s) * s) by (field; exact Hs0).
    rewrite Ea. apply Qmult_le_compat_r; [exact Hlo | apply Qlt_le_weak, Hs]. }
  assert (Hxb : x * s <= inject_Z b).
  { assert (Eb : inject_Z b == (inject_Z b / s) * s) by (field; exact Hs0).
    rewrite Eb. apply Qmult_le_compat_r; [exact Hhi | apply Qlt_le_weak, Hs]. }
  assert (Fa : (a <= Qfloor (x * s + (1 # 2)))%Z).
  { rewrite <- (Qfloor_Z a). apply Qfloor_resp_le. lra. }
  assert (Fb : (Qfloor (x * s + (1 # 2)) <= b)%Z).
  { assert (L : (Qfloor (x * s + (1 # 2)) < b + 1)%Z).
    { rewrite Zlt_Qlt. eapply Qle_lt_trans; [apply Qfloor_le|].
      rewrite inject_Z_plus. change (inject_Z 1) with 1. lra. }
    lia. }
  assert (Hi : 0 <= / s) by (apply Qlt_le_weak, Qinv_lt_0_compat, Hs).
  split; unfold Qdiv; apply Qmult_le_compat_r; try exact Hi;
    rewrite <- Zle_Qle; assumption.
Qed.

Lemma Qabs_pos_of_ne (a b : Q) : ~ a == b -> 0 < Qabs (a - b).
Proof.
  intro Hne. destruct (Qlt_le_dec 0 (Qabs (a - b))) as [P|N]; [exact P|].
  exfalso. apply Hne.
  assert (Z : Qabs (a - b) == 0) by (apply Qle_antisym; [exact N | apply Qabs_nonneg]).
  revert Z. apply Qabs_case; intros; lra.
Qed.

(** The arithmetic behind the fee adjustment of the position size: a
    size that is at most [(R - fee (R / d)) / d] costs at most [R]. *)
Lemma budget_arithmetic (R d rate entry stop maxSize floor : Q) :
  0 < R -> 0 < d -> 0 <= rate -> 0 <= entry + stop ->
  R / d * rate * entry + R / d * stop * rate < R ->
  floor <= Qmin maxSize ((R - (R / d * rate * entry + R / d * stop * rate)) / d) ->
  let sz := Qmax floor (Qmin maxSize ((R - (R / d * rate * entry + R / d * stop * rate)) / d)) in
  d * sz + (sz * rate * entry + sz * stop * rate) <= R.
Proof.
  intros HR Hd Hrate Hsum Hfit Hfloor sz.
  set (s1 := (R - (R / d * rate * entry + R / d * stop * rate)) / d) in *.
  set (k := rate * (entry + stop)).
  assert (Hk : 0 <= k) by (unfold k; apply Qmult_le_0_compat; assumption).
  assert (Hsz : sz <= s1).
  { unfold sz. rewrite (Q.max_r _ _ Hfloor). apply Q.le_min_r. }
  assert (E1 : s1 * (d + k) == R - R * (k * k) / (d * d)).
  { unfold s1, k. field. lra. }
  assert (P : 0 <= R * (k * k) / (d * d)).
  { apply Qle_shift_div_l.
    - apply Qmult_lt_0_compat; exact Hd.
    - rewrite Qmult_0_l. apply Qmult_le_0_compat; [lra|].
      apply Qmult_le_0_compat; exact Hk. }
  assert (M : sz * (d + k) <= s1 * (d + k)).
  { apply Qmult_le_compat_r; [exact Hsz | lra]. }
  assert (G : d * sz + (sz * rate * entry + sz * stop * rate) == sz * (d + k)).
  { unfold k. ring. }
  rewrite G. lra.
Qed.

(** ** Risk engine *)

Section RiskEngine.

Import MLRiskManager.
Context `{MathLib}.

(** C7.  With fewer than [period + 1 = 15] bars there is no ATR, and
    [calculateOptimalTPSL] returns ([Ok]: nothing is thrown on this
    path) the fixed fallback: stop loss 1.5% under the current price,
    take profit 3% over it, confidence 0.5. *)
Theorem calculateOptimalTPSL_fallback (this : t) (priceData : list Bar)
    (currentPrice : Q) (maType : string) (maLength : nat)
    (positionSize volume30Day : Q) (timeframe : string) :
  (List.length priceData < 15)%nat ->
  calculateATR priceData 14 = None
  /\ calculateOptimalTPSL this priceData currentPrice maType maLength
       positionSize volume30Day timeframe
     = Ok {| stopLoss := currentPrice * 0.985;
             takeProfit := currentPrice * 1.03;
             method := "fallback";
             confidence := 0.5;
             details := None |}.
Proof.
  intro Hlen.
  assert (E : calculateATR priceData 14 = None).
  { unfold calculateATR.
    destruct (List.length priceData <? 14 + 1)%nat eqn:L; [reflexivity|].
    apply Nat.ltb_ge in L. lia. }
  split; [exact E|].
  unfold calculateOptimalTPSL. rewrite E. reflexivity.
Qed.

(** The taker rate of the constructor's fee table, whatever the volume. *)
Lemma getFeeRate_taker_bounds (volume30Day : Q) :
  0.001 <= getFeeRate constructor volume30Day false <= 0.0025.
Proof.
  unfold getFeeRate. cbn [feeTiers constructor rev app hd getFeeRate_loop tier_volume].
  repeat match goal with
         | |- context [if ?c then _ else _] => destruct c
         end; cbn [taker]; split; discriminate.
Qed.

Lemma totalFees_eq (this : t) (positionSize entryPrice exitPrice volume30Day : Q) :
  totalFees (calculateTradeFees this positionSize entryPrice exitPrice volume30Day)
  == positionSize * getFeeRate this volume30Day false * (entryPrice + exitPrice).
Proof. unfold calculateTradeFees. cbn [totalFees]. ring. Qed.

(** The percentages after the timeframe adjustment: the 1m timeframe
    widens the stop-loss window by the factor 1.2. *)
Lemma percentsBeforeFees_bounds (atr volatility trend currentPrice : Q) (timeframe : string) :
  let '(sl, tp) :=
    percentsBeforeFees constructor atr volatility trend currentPrice timeframe in
  (timeframe = "1m" -> 0.24 <= sl <= 0.6)
  /\ (timeframe <> "1m" -> 0.2 <= sl <= 0.5)
  /\ 0.3 <= tp <= 0.65.
Proof.
  unfold percentsBeforeFees.
  cbn [minStopLossPercent maxStopLossPercent minTakeProfitPercent
       maxTakeProfitPercent constructor].
  set (sl := Math_max 0.2 (Math_min 0.5 _)).
  set (tp := Math_max 0.3 (Math_min 0.5 _)).
  assert (Hsl : 0.2 <= sl <= 0.5) by (apply clamp_bounds; discriminate).
  assert (Htp : 0.3 <= tp <= 0.5) by (apply clamp_bounds; discriminate).
  destruct Hsl as [Hsl1 Hsl2]. destruct Htp as [Htp1 Htp2].
  destruct (String.eqb timeframe "1m") eqn:E1.
  - apply String.eqb_eq in E1. unfold Math_min.
    split; [intros _|split; [intro N; contradiction|]].
    + split.
      * apply Q.min_glb; [discriminate | lra].
      * eapply Qle_trans; [apply Q.le_min_l | discriminate].
    + split.
      * apply Q.min_glb; [discriminate | lra].
      * eapply Qle_trans; [apply Q.le_min_l | discriminate].
  - apply String.eqb_neq in E1.
    destruct (String.eqb timeframe "5m") eqn:E5.
    + split; [intro N; contradiction|split; [intros _; split; assumption|]].
      unfold Math_min. split.
      * apply Q.min_glb; [discriminate | lra].
      * eapply Qle_trans; [apply Q.le_min_l | discriminate].
    + split; [intro N; contradiction|split; [intros _; split; assumption|]].
      split; lra.
Qed.

Lemma calculateATR_enough (priceData : list Bar) :
  (15 <= List.length priceData)%nat -> exists atr, calculateATR priceData 14 = Some atr.
Proof.
  intro Hlen. unfold calculateATR.
  destruct (List.length priceData <? 14 + 1)%nat eqn:L.
  - apply Nat.ltb_lt in L. lia.
  - eexists. reflexivity.
Qed.

(** C1.  The code does not get as far as the claim.  With at least 15
    bars and an ATR that is not zero, [calculateOptimalTPSL] computes the
    clamped percentages and then throws the [TypeError] of line 187, the
    assignment to the [const stopLoss] of line 161: no result, and so no
    [stopLossPercent] or [takeProfitPercent], is returned, whatever the
    price, the position size, the fee tier and the timeframe. *)
Theorem calculateOptimalTPSL_throws (this : t) (priceData : list Bar) (currentPrice : Q)
    (maType : string) (maLength : nat) (positionSize volume30Day : Q)
    (timeframe : string) :
  (15 <= List.length priceData)%nat ->
  (forall atr, calculateATR priceData 14 = Some atr -> ~ atr == 0) ->
  calculateOptimalTPSL this priceData currentPrice maType maLength
    positionSize volume30Day timeframe
  = Throw "Assignment to constant variable.".
Proof.
  intros Hlen Hatr.
  destruct (calculateATR_enough priceData Hlen) as [atr E].
  specialize (Hatr atr E). apply truthy_true in Hatr.
  unfold calculateOptimalTPSL. rewrite E, Hatr. cbn [negb]. cbv zeta.
  destruct (percentsBeforeFees _ _ _ _ _ _) as [sl tp]. reflexivity.
Qed.

(** The volatility adjustment as a rational: [1 / 0] is [Infinity], so a
    volatility of zero gives the upper end 1.5. *)
Lemma volatilityAdjustment_rational (volatility : Q) :
  Number.max (Number.Finite 0.5)
    (Number.min (Number.Finite 1.5)
       (Number.div (Number.Finite 1) (Number.Finite (volatility * 50))))
  = Number.Finite
      (if eqb (volatility * 50) 0 then Math_max 0.5 1.5
       else Math_max 0.5 (Math_min 1.5 (1 / (volatility * 50)))).
Proof.
  cbn [Number.div]. destruct (eqb (volatility * 50) 0); reflexivity.
Qed.

(** [calculateTradeFees_numbers] on a rational size is [calculateTradeFees]. *)
Lemma calculateTradeFees_numbers_rational (this : t)
    (positionSize entryPrice exitPrice volume30Day : Q) :
  number_totalFees
    (calculateTradeFees_numbers this (Number.Finite positionSize) entryPrice exitPrice
                                volume30Day)
  = Number.Finite
      (totalFees (calculateTradeFees this positionSize entryPrice exitPrice volume30Day)).
Proof. reflexivity. Qed.

(** Where neither the stop distance nor the entry price is zero no
    number leaves the rationals, and size, risk amount, cap and actual
    risk are what the arithmetic on rationals gives. *)
Lemma calculatePositionSize_rational (this : t) (accountInfo : AccountInfo)
    (riskPercent entryPrice stopLoss volatility volume30Day : Q) (timeframe : string) :
  ~ entryPrice == stopLoss ->
  ~ entryPrice == 0 ->
  let n := calculatePositionSize_numbers this accountInfo riskPercent entryPrice stopLoss
             volatility volume30Day timeframe in
  let r := calculatePositionSize this accountInfo riskPercent entryPrice stopLoss
             volatility volume30Day timeframe in
  let stopDistance := Math_abs (entryPrice - stopLoss) in
  let firstFees :=
    totalFees (calculateTradeFees this (riskAmount r / stopDistance)
                 entryPrice stopLoss volume30Day) in
  number_size n = Number.Finite (size r)
  /\ number_maxAllowed n = Number.Finite (maxAllowed r)
  /\ maxAllowed r
     = Math_min (buyingPower accountInfo * (maxPositionPercent this / 100) / entryPrice)
                (equity accountInfo * 0.15 / entryPrice)
  /\ size r
     = Math_max (minPositionSize this)
         (Math_min (maxAllowed r)
            (if ltb 0 (riskAmount r - firstFees)
             then (riskAmount r - firstFees) / stopDistance
             else riskAmount r / stopDistance))
  /\ actualRisk r
     = stopDistance * size r
       + totalFees (calculateTradeFees this (size r) entryPrice stopLoss volume30Day).
Proof.
  intros Hstop Hentry.
  assert (Hd : eqb (Math_abs (entryPrice - stopLoss)) 0 = false).
  { pose proof (Qabs_pos_of_ne _ _ Hstop) as P.
    unfold eqb, Math_abs. destruct (Qeq_bool _ 0) eqn:E; [|reflexivity].
    apply Qeq_bool_iff in E. rewrite E in P. inversion P. }
  assert (He : eqb entryPrice 0 = false).
  { unfold eqb. destruct (Qeq_bool entryPrice 0) eqn:E; [|reflexivity].
    apply Qeq_bool_iff in E. contradiction. }
  unfold calculatePositionSize, calculatePositionSize_numbers. cbv zeta.
  rewrite volatilityAdjustment_rational.
  cbn [Number.mul Number.div Number.sub Number.gtb Number.min Number.max Number.add
       Number.rational number_size number_riskAmount number_actualRisk
       number_maxAllowed size riskAmount actualRisk maxAllowed].
  rewrite Hd, He. cbv iota. rewrite calculateTradeFees_numbers_rational.
  cbn [Number.sub Number.gtb Number.min].
  match goal with
  | |- context [if ltb 0 ?x then _ else _] => destruct (ltb 0 x)
  end;
    cbn [Number.div]; rewrite ?Hd; cbv iota;
    cbn [Number.min Number.max Number.rational];
    rewrite calculateTradeFees_numbers_rational;
    cbn [Number.add Number.mul Number.rational];
    repeat split; reflexivity.
Qed.

(** Where the entry price is zero the cap is no rational. *)
Lemma calculatePositionSize_no_cap (this : t) (accountInfo : AccountInfo)
    (riskPercent entryPrice stopLoss volatility volume30Day : Q) (timeframe : string) :
  entryPrice == 0 ->
  maxAllowed (calculatePositionSize this accountInfo riskPercent entryPrice stopLoss
                volatility volume30Day timeframe) = 0.
Proof.
  intro Hentry. apply Qeq_bool_iff in Hentry.
  unfold calculatePositionSize, calculatePositionSize_numbers. cbv zeta.
  cbn [maxAllowed number_maxAllowed Number.div]. unfold eqb. rewrite Hentry.
  unfold Number.of_sign.
  destruct (_ ?= 0); destruct (_ ?= 0); reflexivity.
Qed.

(** X7.  Where the fees of the first size estimate stay under the budget, the
    size is re-derived from what the fees leave, and the budget holds
    for the final size unless the floor raised it. *)
Lemma calculatePositionSize_budget_when_fees_fit (accountInfo : AccountInfo)
    (riskPercent entryPrice stopLoss volatility volume30Day : Q) (timeframe : string) :
  let r := calculatePositionSize constructor accountInfo riskPercent entryPrice stopLoss
             volatility volume30Day timeframe in
  let stopDistance := Math_abs (entryPrice - stopLoss) in
  let firstFees :=
    totalFees (calculateTradeFees constructor (riskAmount r / stopDistance)
                 entryPrice stopLoss volume30Day) in
  0 < riskAmount r ->
  0 <= entryPrice + stopLoss ->
  ~ entryPrice == stopLoss ->
  firstFees < riskAmount r ->
  minPositionSize constructor
    <= Math_min (maxAllowed r) ((riskAmount r - firstFees) / stopDistance) ->
  stopDistance * size r
  + totalFees (calculateTradeFees constructor (size r) entryPrice stopLoss volume30Day)
  <= riskAmount r
  /\ actualRisk r <= riskAmount r.
Proof.
  cbv zeta. intros HR Hsum Hne Hfit Hfloor.
  destruct (Qeq_dec entryPrice 0) as [Hzero|Hentry].
  { exfalso.
    rewrite (calculatePositionSize_no_cap constructor accountInfo riskPercent entryPrice
               stopLoss volatility volume30Day timeframe Hzero) in Hfloor.
    pose proof (Q.le_min_l 0 ((riskAmount (calculatePositionSize constructor accountInfo
                   riskPercent entryPrice stopLoss volatility volume30Day timeframe)
                 - totalFees (calculateTradeFees constructor
                     (riskAmount (calculatePositionSize constructor accountInfo
                        riskPercent entryPrice stopLoss volatility volume30Day timeframe)
                      / Math_abs (entryPrice - stopLoss)) entryPrice stopLoss volume30Day))
                / Math_abs (entryPrice - stopLoss))) as M.
    unfold Math_min in Hfloor. cbn [minPositionSize constructor] in Hfloor.
    assert (0.001 <= 0) as Habs by (eapply Qle_trans; [exact Hfloor | exact M]).
    apply Habs. reflexivity. }
  destruct (calculatePositionSize_rational constructor accountInfo riskPercent entryPrice
              stopLoss volatility volume30Day timeframe Hne Hentry)
    as (_ & _ & _ & Hsize & Hrisk).
  cbv zeta in Hsize, Hrisk.
  set (r := calculatePositionSize constructor accountInfo riskPercent entryPrice stopLoss
              volatility volume30Day timeframe) in *.
  set (R := riskAmount r) in *.
  set (d := Math_abs (entryPrice - stopLoss)) in *.
  set (maxSize := maxAllowed r) in *.
  rewrite Hrisk, Hsize. clear Hrisk Hsize.
  destruct (ltb 0 (R - totalFees (calculateTradeFees constructor (R / d) entryPrice
                                    stopLoss volume30Day))) eqn:Hb.
  2:{ apply ltb_false in Hb. exfalso. lra. }
  clear Hb.
  pose proof (getFeeRate_taker_bounds volume30Day) as [R1 _].
  pose proof (Qabs_pos_of_ne _ _ Hne) as Hd. fold (Math_abs (entryPrice - stopLoss)) in Hd.
  fold d in Hd.
  unfold calculateTradeFees in *. cbn [totalFees] in *.
  set (rate := getFeeRate constructor volume30Day false) in *.
  assert (Hrate : 0 <= rate) by lra.
  pose proof (budget_arithmetic R d rate entryPrice stopLoss maxSize
                (minPositionSize constructor) HR Hd Hrate Hsum Hfit Hfloor) as B.
  cbv zeta in B. split; exact B.
Qed.

End RiskEngine.

Section RiskEngineExamples.

Import MLRiskManager Examples.

(** Fourteen bars: the fallback of C7 is what comes back. *)
Lemma calculateOptimalTPSL_fallback_witness :
  @calculateOptimalTPSL Reference.math constructor (steadyBars 14) 100 "SMA" 5 0.001 0 "5m"
  = Ok (mkTPSL (100 * 0.985) (100 * 1.03) "fallback" 0.5 None).
Proof.
  apply (@calculateOptimalTPSL_fallback Reference.math constructor (steadyBars 14)
           100 "SMA" 5 0.001 0 "5m").
  simpl. lia.
Defined.

(** C1 on fifteen steady bars, whose ATR is 2, at the price 100 on 5m:
    the [TypeError] instead of a result. *)
Lemma calculateOptimalTPSL_throws_witness :
  @calculateOptimalTPSL Reference.math constructor (steadyBars 15) 100 "SMA" 5 0.001 0 "5m"
  = Throw "Assignment to constant variable.".
Proof.
  apply (@calculateOptimalTPSL_throws Reference.math constructor (steadyBars 15)
           100 "SMA" 5 0.001 0 "5m").
  - simpl. lia.
  - intros atr E. vm_compute in E. injection E as <-. discriminate.
Defined.

(** The ATR of steady bars with high 101 and low 99 is 2. *)
Example calculateATR_steady :
  exists atr, calculateATR (steadyBars 15) 14 = Some atr /\ atr == 2.
Proof. eexists. split; reflexivity. Qed.

(** An ATR of exactly zero is falsy for [if (!atr)]: fifteen bars without
    range also get the fallback. *)
Example calculateOptimalTPSL_zero_atr_fallback :
  calculateATR (flatBars 15) 14 = Some (0 / of_nat 14)
  /\ @calculateOptimalTPSL Reference.math constructor (flatBars 15) 100 "SMA" 5 0.001 0 "5m"
     = Ok (mkTPSL (100 * 0.985) (100 * 1.03) "fallback" 0.5 None).
Proof. split; reflexivity. Qed.

(** C3 fails where the fees of the first size estimate reach the risk
    budget: the branch that shrinks the size is then skipped and the
    first estimate stays.  Equity 10000, risk 0.01%, entry 100, stop
    99.9, volatility 0.02, 5m: the budget is 1, the size stays
    [1 / 0.1 = 10] (below the cap 15, above the floor 0.001), and stop
    distance times size plus fees is 5.9975. *)
Theorem calculatePositionSize_budget_exceeded :
  let r := calculatePositionSize constructor account 0.01 100 99.9 0.02 0 "5m" in
  let stopDistance := Math_abs (100 - 99.9) in
  let fees := totalFees (calculateTradeFees constructor (size r) 100 99.9 0) in
  riskAmount r == 1
  /\ size r == 10
  /\ minPositionSize constructor < size r
  /\ size r < maxAllowed r
  /\ size r * stopDistance + fees == 5.9975
  /\ actualRisk r == 5.9975
  /\ ~ (size r * stopDistance + fees <= riskAmount r).
Proof.
  vm_compute. repeat split; try reflexivity; try discriminate.
  intro Hle. apply Hle. reflexivity.
Qed.

(** C9 as stated fails on "close to 1.1%": the size is cut to the cap of
    15% of equity, and the risk actually taken is 0.224625% of equity,
    reported as 0.22, more than half a point under 1.1. *)
Lemma calculatePositionSize_scenario_not_close :
  let r := calculatePositionSize constructor account 1 100 99 0.02 0 "5m" in
  actualRisk r / equity account * 100 == 0.224625
  /\ actualRiskPercent r == 0.22
  /\ ~ (Qabs (actualRiskPercent r - 1.1) <= 0.5).
Proof.
  vm_compute. repeat split; try reflexivity.
  intro Hle. apply Hle. reflexivity.
Defined.

(** C9, as the code has it: in the scenario the size is the cap 15, so
    it is positive and [size * 100 = 1500 <= 1500]; the reported
    [actualRiskPercent] is 0.22, which does not exceed 1.1. *)
Theorem calculatePositionSize_scenario :
  let r := calculatePositionSize constructor account 1 100 99 0.02 0 "5m" in
  size r == 15
  /\ 0 < size r
  /\ size r * 100 <= 1500
  /\ size r * 100 <= equity account * 0.15
  /\ maxAllowed r == 15
  /\ actualRisk r == 22.4625
  /\ actualRiskPercent r == 0.22
  /\ actualRiskPercent r <= 1.1.
Proof.
  vm_compute. repeat split; try reflexivity; discriminate.
Qed.

End RiskEngineExamples.

(** ** Strategy optimizer *)

Section Optimizer.

Import StrategyOptimizer Spec.
Context `{MathLib} `{TechnicalIndicators}.

Lemma clamp01_spec (x : Q) : Math_max 0 (Math_min 1 x) == clamp x 0 1.
Proof.
  unfold clamp, Math_max, Math_min.
  destruct (ltb x 0) eqn:E0.
  - apply ltb_true in E0. apply Q.max_l.
    eapply Qle_trans; [apply Q.le_min_r | apply Qlt_le_weak, E0].
  - apply ltb_false in E0. destruct (ltb 1 x) eqn:E1.
    + apply ltb_true in E1.
      rewrite (Q.min_l 1 x) by (apply Qlt_le_weak, E1). apply Q.max_r. discriminate.
    + apply ltb_false in E1. rewrite (Q.min_r 1 x E1). apply Q.max_r. exact E0.
Qed.

(** C4.  The composite score is the weighted sum of the specification
    times 0.9 on 1m, 1.0 on 5m and 0.95 on 15m. *)
Theorem calculateCompositeScore_formula (crossoverScore rSquared : Q)
    (performance : Performance) :
  let sum :=
    weightedSum crossoverScore rSquared (winRate performance)
                (profitFactor performance) (maxDrawdown performance) in
  calculateCompositeScore crossoverScore rSquared performance "1m" == sum * 0.9
  /\ calculateCompositeScore crossoverScore rSquared performance "5m" == sum * 1.0
  /\ calculateCompositeScore crossoverScore rSquared performance "15m" == sum * 0.95.
Proof.
  unfold calculateCompositeScore, weightedSum. cbv zeta.
  rewrite !clamp01_spec. cbn [String.eqb Ascii.eqb Bool.eqb].
  repeat split; reflexivity.
Qed.

(** The score of any input, on any timeframe, lies in [[0, 1]]. *)
Lemma calculateCompositeScore_range (crossoverScore rSquared : Q)
    (performance : Performance) (timeframe : string) :
  0 <= calculateCompositeScore crossoverScore rSquared performance timeframe <= 1.
Proof.
  unfold calculateCompositeScore. cbv zeta.
  pose proof (clamp_bounds 0 1 ((crossoverScore + 100) / 200)) as [A1 A2]; [discriminate|].
  pose proof (clamp_bounds 0 1 rSquared) as [B1 B2]; [discriminate|].
  pose proof (clamp_bounds 0 1 (winRate performance)) as [C1 C2]; [discriminate|].
  pose proof (clamp_bounds 0 1 (profitFactor performance / 1000)) as [D1 D2]; [discriminate|].
  pose proof (clamp_bounds 0 1 (1 - maxDrawdown performance / 1000)) as [E1 E2];
    [discriminate|].
  set (a := Math_max 0 (Math_min 1 ((crossoverScore + 100) / 200))) in *.
  set (b := Math_max 0 (Math_min 1 rSquared)) in *.
  set (c := Math_max 0 (Math_min 1 (winRate performance))) in *.
  set (d := Math_max 0 (Math_min 1 (profitFactor performance / 1000))) in *.
  set (e := Math_max 0 (Math_min 1 (1 - maxDrawdown performance / 1000))) in *.
  destruct (String.eqb timeframe "1m"); [split; lra|].
  destruct (String.eqb timeframe "5m"); [split; lra|].
  destruct (String.eqb timeframe "15m"); split; lra.
Qed.

(** *** The two nested loops as one pass over the combinations *)

Lemma fold_left_map_pair {S A B : Type} (f : A -> S -> B -> S) (a : A)
    (l2 : list B) (init : S) :
  fold_left (f a) l2 init
  = fold_left (fun st ab => f (fst ab) st (snd ab)) (map (fun b => (a, b)) l2) init.
Proof.
  revert init. induction l2 as [|b l2 IH]; intro init; [reflexivity|].
  cbn [map fold_left fst snd]. apply IH.
Qed.

Lemma fold_left_list_prod {S A B : Type} (f : A -> S -> B -> S)
    (l1 : list A) (l2 : list B) (init : S) :
  fold_left (fun st a => fold_left (f a) l2 st) l1 init
  = fold_left (fun st ab => f (fst ab) st (snd ab)) (list_prod l1 l2) init.
Proof.
  revert init. induction l1 as [|a l1 IH]; intro init; [reflexivity|].
  cbn [fold_left list_prod]. rewrite fold_left_app, <- IH. f_equal.
  apply fold_left_map_pair.
Qed.

Lemma optimize_loops_flat (prices : list Q) (timeframe : string) :
  optimize_loops prices timeframe
  = fold_left (loopStep prices timeframe) combinations (mkOpt None None [] 0 []).
Proof.
  unfold optimize_loops, combinations, loopStep.
  apply (fold_left_list_prod (tryCombination prices timeframe)).
Qed.

(** A scored candidate carries the composite score of its own sub-scores. *)
Lemma scoreCandidate_score (prices : list Q) (timeframe : string)
    (candidate : string * nat) (config : Config) :
  scoreCandidate prices timeframe candidate = Some config ->
  score config
  = calculateCompositeScore (crossoverScore config) (rSquared config)
      (performance config) timeframe
  /\ (type config, length config) = candidate.
Proof.
  unfold scoreCandidate. destruct candidate as [maType len].
  destruct (calculateMA prices maType len) as [maValues|]; [|discriminate].
  destruct (20 <? List.length maValues)%nat; [|discriminate].
  intro E. injection E as <-. split; reflexivity.
Qed.

Lemma loopStep_results (prices : list Q) (timeframe : string)
    (st : OptState) (candidate : string * nat) :
  results (loopStep prices timeframe st candidate)
  = results st ++ match scoreCandidate prices timeframe candidate with
                  | Some config => [config]
                  | None => []
                  end.
Proof.
  unfold loopStep, tryCombination, scoreCandidate. destruct candidate as [maType len].
  cbn [fst snd].
  destruct (calculateMA prices maType len) as [maValues|];
    [|cbn [results]; now rewrite app_nil_r].
  destruct (20 <? List.length maValues)%nat; [|cbn [results]; now rewrite app_nil_r].
  cbv zeta. destruct (bestScore st) as [b|]; [destruct (ltb b _)|]; reflexivity.
Qed.

Lemma loopStep_invariant (prices : list Q) (timeframe : string)
    (st : OptState) (candidate : string * nat) :
  loopInvariant st -> loopInvariant (loopStep prices timeframe st candidate).
Proof.
  intros [Hscore Hbest].
  unfold loopStep, tryCombination. destruct candidate as [maType len]. cbn [fst snd].
  destruct (calculateMA prices maType len) as [maValues|]; [|split; assumption].
  destruct (20 <? List.length maValues)%nat; [|split; assumption].
  cbv zeta.
  set (config := mkConfig _ _ _ _ _ _ _).
  set (s := calculateCompositeScore _ _ _ _).
  assert (Es : score config = s) by reflexivity.
  destruct (bestConfig st) as [best|] eqn:Eb.
  - cbn [option_map] in Hscore. rewrite Hscore.
    destruct Hbest as (earlier & later & Hall & Hearlier & Hlater).
    destruct (ltb (score best) s) eqn:L.
    + apply ltb_true in L. split; [reflexivity|].
      cbn [bestConfig results]. exists (results st), []. split; [reflexivity|].
      split; [|intros c []].
      intros c Hc. rewrite Es. rewrite Hall in Hc.
      apply in_app_or in Hc. destruct Hc as [Hc|[<-|Hc]].
      * eapply Qlt_trans; [apply Hearlier, Hc | exact L].
      * exact L.
      * eapply Qle_lt_trans; [apply Hlater, Hc | exact L].
    + apply ltb_false in L. split; [reflexivity|].
      cbn [bestConfig results].
      exists earlier, (later ++ [config]). split.
      * rewrite Hall, <- app_assoc. reflexivity.
      * split; [exact Hearlier|].
        intros c Hc. apply in_app_or in Hc. destruct Hc as [Hc|[<-|[]]].
        -- apply Hlater, Hc.
        -- rewrite Es. exact L.
  - cbn [option_map] in Hscore. rewrite Hscore. split; [reflexivity|].
    cbn [bestConfig results]. rewrite Hbest.
    exists [], []. split; [reflexivity|]. split; intros c [].
Qed.

Lemma loop_fold (prices : list Q) (timeframe : string)
    (candidates : list (string * nat)) (st : OptState) :
  loopInvariant st ->
  let st' := fold_left (loopStep prices timeframe) candidates st in
  loopInvariant st'
  /\ results st'
     = results st ++ flat_map (fun candidate =>
                                 match scoreCandidate prices timeframe candidate with
                                 | Some config => [config]
                                 | None => []
                                 end) candidates.
Proof.
  revert st. induction candidates as [|candidate rest IH]; intros st Hinv.
  - cbn. split; [exact Hinv | now rewrite app_nil_r].
  - cbn [fold_left flat_map].
    destruct (IH _ (loopStep_invariant prices timeframe st candidate Hinv)) as [I R].
    split; [exact I|]. cbv zeta in R. rewrite R, loopStep_results, <- app_assoc.
    reflexivity.
Qed.

(** What a successful optimization returns. *)
Lemma optimizeMAParameters_ok (historicalData : list Bar) (timeframe : string)
    (best : Config) (all : list Config) :
  optimizeMAParameters historicalData timeframe = Ok (best, all) ->
  (50 <= List.length historicalData)%nat
  /\ all = scoredCandidates (map close historicalData) timeframe
  /\ firstMaximum best all.
Proof.
  unfold optimizeMAParameters.
  destruct (List.length historicalData <? 50)%nat eqn:L; [discriminate|].
  apply Nat.ltb_ge in L. cbv zeta. rewrite optimize_loops_flat.
  destruct (loop_fold (map close historicalData) timeframe combinations
              (mkOpt None None [] 0 [])) as [[_ Hbest] Hres].
  { split; reflexivity. }
  cbv zeta in Hres. cbn [results app] in Hres.
  destruct (bestConfig _) as [b|]; [|discriminate].
  intro E. injection E as <- <-.
  split; [exact L|]. split; [exact Hres | exact Hbest].
Qed.

Lemma firstMaximum_max (best : Config) (all : list Config) :
  firstMaximum best all -> In best all /\ forall c, In c all -> score c <= score best.
Proof.
  intros (earlier & later & -> & He & Hl). split.
  - apply in_or_app. right. left. reflexivity.
  - intros c Hc. apply in_app_or in Hc. destruct Hc as [Hc|[<-|Hc]].
    + apply Qlt_le_weak, He, Hc.
    + apply Qle_refl.
    + apply Hl, Hc.
Qed.

Lemma scoredCandidates_score (prices : list Q) (timeframe : string) (c : Config) :
  In c (scoredCandidates prices timeframe) ->
  In (type c, length c) combinations
  /\ scoreCandidate prices timeframe (type c, length c) = Some c.
Proof.
  unfold scoredCandidates. intro Hc. apply in_flat_map in Hc.
  destruct Hc as (candidate & Hin & Hc).
  destruct (scoreCandidate prices timeframe candidate) as [config|] eqn:E; [|destruct Hc].
  destruct Hc as [<-|[]].
  destruct (scoreCandidate_score _ _ _ _ E) as [_ <-]. split; assumption.
Qed.

(** C5.  When [optimizeMAParameters] succeeds there were at least 50
    bars; [allResults] is the list of the successfully scored candidates
    in iteration order (MA type major, lengths ascending); the returned
    configuration is one of them, no candidate scores higher, and every
    candidate before it in iteration order scores strictly lower (the
    first to reach the maximum wins); and the outcome is a function of the
    bars and the timeframe: any other run returns the same winner with the
    same [allResults]. *)
Theorem optimizeMAParameters_first_maximum (historicalData : list Bar)
    (timeframe : string) (best : Config) (all : list Config) :
  optimizeMAParameters historicalData timeframe = Ok (best, all) ->
  (50 <= List.length historicalData)%nat
  /\ all = scoredCandidates (map close historicalData) timeframe
  /\ In best all
  /\ (forall c, In c all -> score c <= score best)
  /\ (exists earlier later,
        all = earlier ++ best :: later
        /\ forall c, In c earlier -> score c < score best)
  /\ (forall best' all',
        optimizeMAParameters historicalData timeframe = Ok (best', all') ->
        best' = best /\ all' = all).
Proof.
  intro E. destruct (optimizeMAParameters_ok _ _ _ _ E) as (Hlen & Hall & Hfirst).
  destruct (firstMaximum_max _ _ Hfirst) as [Hin Hmax].
  split; [exact Hlen|]. split; [exact Hall|]. split; [exact Hin|].
  split; [exact Hmax|]. split.
  - destruct Hfirst as (earlier & later & Ha & He & _).
    exists earlier, later. split; assumption.
  - intros best' all' E'. rewrite E in E'. injection E' as <- <-. split; reflexivity.
Qed.

(** C10.  Every composite score lies in [[0, 1]], whatever the
    sub-scores and the timeframe; hence so do the score of the winning
    configuration and the score of every entry of [allResults]. *)
Theorem compositeScore_unit_interval :
  (forall (crossoverScore rSquared : Q) (performance : Performance) (timeframe : string),
      0 <= calculateCompositeScore crossoverScore rSquared performance timeframe <= 1)
  /\ (forall (historicalData : list Bar) (timeframe : string)
             (best : Config) (all : list Config),
         optimizeMAParameters historicalData timeframe = Ok (best, all) ->
         0 <= score best <= 1
         /\ forall c, In c all -> 0 <= score c <= 1).
Proof.
  split; [apply calculateCompositeScore_range|].
  intros historicalData timeframe best all E.
  destruct (optimizeMAParameters_ok _ _ _ _ E) as (_ & Hall & Hfirst).
  assert (R : forall c, In c all -> 0 <= score c <= 1).
  { intros c Hc. rewrite Hall in Hc.
    destruct (scoredCandidates_score _ _ _ Hc) as [_ Hs].
    destruct (scoreCandidate_score _ _ _ _ Hs) as [-> _].
    apply calculateCompositeScore_range. }
  split; [|exact R]. apply R. apply (firstMaximum_max _ _ Hfirst).
Qed.

End Optimizer.

(** 182 combinations, the 26 lengths of one MA type before the next type. *)
Example combinations_order :
  List.length Spec.combinations = 182%nat
  /\ nth_error Spec.combinations 0 = Some ("SMA", 5%nat)
  /\ nth_error Spec.combinations 1 = Some ("SMA", 6%nat)
  /\ nth_error Spec.combinations 25 = Some ("SMA", 30%nat)
  /\ nth_error Spec.combinations 26 = Some ("EMA", 5%nat)
  /\ nth_error Spec.combinations 181 = Some ("VWAP", 30%nat).
Proof. repeat split; reflexivity. Qed.

Section OptimizerExamples.

Import StrategyOptimizer Spec Examples.

(** C5 on fifty bars with a late move: 143 candidates are scored and the
    winner is the first to reach the highest score. *)
Lemma optimizeMAParameters_first_maximum_witness :
  exists best all,
    @optimizeMAParameters Reference.math Reference.indicators lateMoveBars "5m"
    = Ok (best, all)
    /\ List.length all = 143%nat
    /\ (type best, length best) = ("TEMA", 5%nat)
    /\ In best all
    /\ (forall c, In c all -> score c <= score best)
    /\ exists earlier later,
         all = earlier ++ best :: later
         /\ forall c, In c earlier -> score c < score best.
Proof.
  assert (R : match @optimizeMAParameters Reference.math Reference.indicators
                      lateMoveBars "5m" with
              | Ok (b, a) =>
                  (String.eqb (type b) "TEMA" && Nat.eqb (length b) 5
                   && Nat.eqb (List.length a) 143)%bool
              | Throw _ => false
              end = true) by (vm_compute; reflexivity).
  destruct (@optimizeMAParameters Reference.math Reference.indicators lateMoveBars "5m")
    as [[best all]|message] eqn:E; [|discriminate R].
  exists best, all. split; [reflexivity|].
  destruct (@optimizeMAParameters_first_maximum Reference.math Reference.indicators
              lateMoveBars "5m" best all E) as (_ & _ & Hin & Hmax & Hfirst & _).
  apply andb_prop in R. destruct R as [R Rall].
  apply andb_prop in R. destruct R as [Rtype Rlen].
  apply String.eqb_eq in Rtype. apply Nat.eqb_eq in Rlen. apply Nat.eqb_eq in Rall.
  split; [exact Rall|].
  split; [rewrite Rtype, Rlen; reflexivity|].
  split; [exact Hin|]. split; [exact Hmax | exact Hfirst].
Defined.

(** C10 on the same bars: every score of the run lies in [[0, 1]]. *)
Lemma compositeScore_unit_interval_witness :
  exists best all,
    @optimizeMAParameters Reference.math Reference.indicators lateMoveBars "5m"
    = Ok (best, all)
    /\ 0 <= score best <= 1
    /\ forall c, In c all -> 0 <= score c <= 1.
Proof.
  assert (R : match @optimizeMAParameters Reference.math Reference.indicators
                      lateMoveBars "5m" with
              | Ok _ => true
              | Throw _ => false
              end = true) by (vm_compute; reflexivity).
  destruct (@optimizeMAParameters Reference.math Reference.indicators lateMoveBars "5m")
    as [[best all]|message] eqn:E; [|discriminate R].
  exists best, all. split; [reflexivity|].
  destruct (@compositeScore_unit_interval Reference.math Reference.indicators)
    as [_ Hrun].
  exact (Hrun lateMoveBars "5m" best all E).
Defined.

End OptimizerExamples.

(** ** Signal engine *)

Section Signals.

Import StrategyOptimizer.
Context `{TechnicalIndicators}.

(** C8.  With fewer than [maLength + 2] prices [calculateSignals]
    returns (it is a total function: nothing is thrown) a HOLD that is
    not valid, with confidence 0 and the reason
    ["Insufficient data: <have> < <need>"]. *)
Theorem calculateSignals_insufficient_data (this_timeframe : string) (now : Z)
    (prices : list Q) (maType : string) (maLength : nat) (candleData : option Candle) :
  (List.length prices < maLength + 2)%nat ->
  let signal := calculateSignals this_timeframe now prices maType maLength candleData in
  action signal = HOLD
  /\ valid signal = false
  /\ signal_confidence signal = 0
  /\ crossover signal = None
  /\ reason signal
     = ("Insufficient data: " ++ show_nat (List.length prices) ++ " < "
        ++ show_nat (maLength + 2))%string
  /\ reason signal <> "".
Proof.
  intros Hlen signal. subst signal. unfold calculateSignals.
  apply Nat.ltb_lt in Hlen. rewrite Hlen. unfold hold.
  cbn [action valid signal_confidence crossover reason].
  repeat split; try reflexivity. discriminate.
Qed.

End Signals.

(** Three prices against an MA of length 5. *)
Lemma calculateSignals_insufficient_data_witness :
  let signal :=
    @StrategyOptimizer.calculateSignals Reference.indicators "5m" 0
      [100; 101; 102] "SMA" 5 None in
  StrategyOptimizer.action signal = StrategyOptimizer.HOLD
  /\ StrategyOptimizer.valid signal = false
  /\ StrategyOptimizer.reason signal = "Insufficient data: 3 < 7".
Proof.
  destruct (@calculateSignals_insufficient_data Reference.indicators "5m" 0%Z
              [100; 101; 102] "SMA" 5%nat None) as (Ha & Hv & _ & _ & Hr & _).
  - simpl. lia.
  - split; [exact Ha|]. split; [exact Hv|]. exact Hr.
Defined.

(** ** Trading loop *)

Section TradingLoop.

Import StrategyOptimizer BitFlowBot.
Context `{MathLib} `{TechnicalIndicators}.

Lemma fetchWithRetry_no_order (env : TickEnv) (remaining retries : nat) :
  existsb isBuyOrder (snd (fetchWithRetry env retries remaining)) = false.
Proof.
  revert retries. induction remaining as [|remaining IH]; intro retries; [reflexivity|].
  cbn [fetchWithRetry]. destruct (priceAttempt env retries) as [price|message];
    [reflexivity|].
  destruct (3 <=? S retries)%nat; [reflexivity|].
  specialize (IH (S retries)).
  destruct (fetchWithRetry env (S retries) remaining) as [r events].
  cbn [snd existsb isBuyOrder orb] in *. exact IH.
Qed.

(** The buy branch of an iteration is entered only with a BUY signal, no
    position, a recorded relation ['below'] and a price now above the MA. *)
Lemma trade_buy (this : t) (env : TickEnv) (signal : Signal) (currentPrice : Q)
    (isAbove : bool) (position : option Position) (previous : option PriceVsMA) :
  existsb isBuyOrder (snd (trade this env signal currentPrice isAbove position previous))
  = true ->
  action signal = BUY /\ position = None /\ previous = Some below /\ isAbove = true.
Proof.
  unfold trade. cbv zeta.
  set (crossedAbove := match previous with Some below => isAbove | _ => false end).
  set (noPosition := match position with None => true | Some _ => false end).
  destruct (Action_eqb (action signal) BUY && noPosition && crossedAbove) eqn:W.
  - intros _.
    apply andb_prop in W. destruct W as [W Hcross].
    apply andb_prop in W. destruct W as [Hact Hnone].
    split; [destruct (action signal); (reflexivity || discriminate)|].
    split; [destruct position; [discriminate | reflexivity]|].
    subst crossedAbove. destruct previous as [[| |]|]; try discriminate.
    split; [reflexivity | exact Hcross].
  - destruct (_ && (_ || _)); [discriminate|].
    destruct position as [pos|]; [|discriminate].
    destruct (_ || _); [|discriminate].
    destruct (success (sellResult env)); discriminate.
Qed.

(** The [catch] keeps the variables of the loop, [isRunning] apart, and
    submits no order. *)
Lemma catch_keeps (st : LoopState) (message : string) :
  position (fst (catch st message)) = position st
  /\ priceHistory (fst (catch st message)) = priceHistory st
  /\ checkCount (fst (catch st message)) = checkCount st
  /\ previousPriceVsMA (fst (catch st message)) = previousPriceVsMA st
  /\ initializationWaitTicks (fst (catch st message)) = initializationWaitTicks st
  /\ initializationComplete (fst (catch st message)) = initializationComplete st
  /\ existsb isBuyOrder (snd (catch st message)) = false
  /\ existsb isSellOrder (snd (catch st message)) = false.
Proof.
  unfold catch.
  destruct (includes message "Failed to get" || includes message "Request failed");
    repeat split; reflexivity.
Qed.

(** One pass through the loop, case by case, in source order: the loop
    has stopped; the price could not be fetched; the baseline tick; a
    tick of the countdown; a tick that trades, to its end or to a
    [throw]. *)
Lemma tick_cases (P : LoopState -> list Event -> Prop)
    (this : t) (st : LoopState) (env : TickEnv) :
  let counted :=
    mkLoop (isRunning st) (position st) (priceHistory st) (S (checkCount st))
           (previousPriceVsMA st) (initializationWaitTicks st)
           (initializationComplete st) in
  (isRunning st = false -> P st []) ->
  (forall message fetchEvents,
      isRunning st = true ->
      fetchWithRetry env 0 3 = (Throw message, fetchEvents) ->
      P (fst (catch counted message)) (fetchEvents ++ snd (catch counted message))) ->
  (forall currentPrice fetchEvents,
      isRunning st = true ->
      fetchWithRetry env 0 3 = (Ok currentPrice, fetchEvents) ->
      let sleepInterval :=
        match position st with Some _ => 1000%N | None => 30000%N end in
      let pushed := priceHistory st ++ [currentPrice] in
      let window := if (1000 <? List.length pushed)%nat then tl pushed else pushed in
      let signal :=
        calculateSignals (currentTimeframe this) 0 window
          (type (optimizedStrategy this)) (length (optimizedStrategy this)) None in
      let currentMA := calculateCurrentMA this window in
      let isAbove := ltb currentMA currentPrice in
      let isBelow := ltb currentPrice currentMA in
      let waiting := (0 <? initializationWaitTicks st)%nat in
      let ticks :=
        if waiting then (initializationWaitTicks st - 1)%nat
        else initializationWaitTicks st in
      let complete := if waiting then true else initializationComplete st in
      let readyLog := if waiting then [ReadyLog (relation isAbove isBelow)] else [] in
      (previousPriceVsMA st = None ->
       P (mkLoop (isRunning st) (position st) window (S (checkCount st))
                 (Some (relation isAbove isBelow))
                 (initializationWaitTicks st) (initializationComplete st))
         (fetchEvents ++ [Sleep sleepInterval]))
      /\ (forall recorded,
             previousPriceVsMA st = Some recorded ->
             (waiting && (0 <? ticks)%nat)%bool = true ->
             P (mkLoop (isRunning st) (position st) window (S (checkCount st))
                       (Some (relation isAbove isBelow)) ticks
                       (initializationComplete st))
               (fetchEvents ++ [Sleep sleepInterval]))
      /\ (forall recorded,
             previousPriceVsMA st = Some recorded ->
             (waiting && (0 <? ticks)%nat)%bool = false ->
             let previous := if waiting then relation isAbove isBelow else recorded in
             (forall position' events',
                 trade this env signal currentPrice isAbove (position st) (Some previous)
                 = (Ok position', events') ->
                 P (mkLoop (isRunning st) position' window (S (checkCount st))
                           (Some (relation isAbove isBelow)) ticks complete)
                   (fetchEvents ++ readyLog ++ events' ++ [Sleep sleepInterval]))
             /\ (forall message events',
                    trade this env signal currentPrice isAbove (position st) (Some previous)
                    = (Throw message, events') ->
                    let thrown :=
                      mkLoop (isRunning st) (position st) window (S (checkCount st))
                             (Some previous) ticks complete in
                    P (fst (catch thrown message))
                      (fetchEvents ++ (readyLog ++ events') ++ snd (catch thrown message))))) ->
  P (fst (tick this st env)) (snd (tick this st env)).
Proof.
  intros counted Hstopped Hfetch Hpass. unfold tick.
  destruct (isRunning st) eqn:Hrun; cbn [negb]; [|apply Hstopped; reflexivity].
  fold counted.
  destruct (fetchWithRetry env 0 3) as [[currentPrice|message] fetchEvents] eqn:F.
  2:{ specialize (Hfetch message fetchEvents eq_refl eq_refl).
      destruct (catch counted message) as [st' events']. exact Hfetch. }
  specialize (Hpass currentPrice fetchEvents eq_refl eq_refl). cbv zeta in Hpass.
  destruct Hpass as (Hbase & Hwait & Htrade).
  unfold iteration. cbv zeta. subst counted.
  cbn [previousPriceVsMA initializationWaitTicks initializationComplete position
       priceHistory checkCount isRunning].
  destruct (previousPriceVsMA st) as [recorded|]; [|apply Hbase; reflexivity].
  specialize (Hwait recorded eq_refl). specialize (Htrade recorded eq_refl).
  destruct (_ && _)%bool; [apply Hwait; reflexivity|].
  destruct (Htrade eq_refl) as [Hok Hthrow].
  destruct (trade _ _ _ _ _ _ _) as [[position'|message] events'].
  - apply Hok. reflexivity.
  - specialize (Hthrow message events' eq_refl). cbv zeta in Hthrow.
    destruct (catch _ message) as [st' events'']. exact Hthrow.
Qed.

(** The buy branch ends in a [throw] only before the order is sent. *)
Lemma trade_throw (this : t) (env : TickEnv) (signal : Signal) (currentPrice : Q)
    (isAbove : bool) (position : option Position) (previous : option PriceVsMA)
    (message : string) (events : list Event) :
  trade this env signal currentPrice isAbove position previous = (Throw message, events) ->
  events = [BuySignalLog currentPrice]
  /\ buyParameters this currentPrice = Throw message
  /\ position = None
  /\ previous = Some below
  /\ isAbove = true.
Proof.
  unfold trade. cbv zeta.
  destruct (_ && (_ || _))%bool; [discriminate|].
  destruct (_ && match position with None => true | Some _ => false end && _)%bool eqn:W.
  - apply andb_prop in W. destruct W as [W Hc]. apply andb_prop in W. destruct W as [_ Hn].
    destruct (buyParameters this currentPrice) as [[[sl tp] ps]|thrown].
    + destruct (success (buyResult env)); discriminate.
    + intro E. injection E as <- <-.
      split; [reflexivity|]. split; [reflexivity|].
      split; [destruct position; [discriminate | reflexivity]|].
      destruct previous as [[| |]|]; try discriminate Hc. split; [reflexivity | exact Hc].
  - destruct position as [pos|]; [|discriminate].
    destruct (_ || _)%bool; [|discriminate].
    destruct (success (sellResult env)); discriminate.
Qed.

(** Once the countdown is over, initialization is flagged complete. *)
Lemma countdown_over (this : t) (st : LoopState) :
  reachable this st ->
  initializationWaitTicks st = 0%nat -> initializationComplete st = true.
Proof.
  induction 1 as [|st env Hr IH]; [discriminate|].
  pattern (fst (tick this st env)), (snd (tick this st env)).
  apply tick_cases; cbv zeta.
  - intros _. exact IH.
  - intros message fetchEvents _ _.
    destruct (catch_keeps (mkLoop (isRunning st) (position st) (priceHistory st)
                (S (checkCount st)) (previousPriceVsMA st) (initializationWaitTicks st)
                (initializationComplete st)) message)
      as (_ & _ & _ & _ & -> & -> & _).
    exact IH.
  - intros currentPrice fetchEvents _ _. split; [intros _; exact IH|]. split.
    + intros recorded _ W. cbn [initializationWaitTicks initializationComplete].
      apply andb_prop in W. destruct W as [W W']. rewrite W in *.
      apply Nat.ltb_lt in W'. lia.
    + intros recorded _ W.
      assert (Hdone : (if (0 <? initializationWaitTicks st)%nat then true
                       else initializationComplete st) = true).
      { destruct (0 <? initializationWaitTicks st)%nat eqn:E; [reflexivity|].
        apply IH. apply Nat.ltb_ge in E. lia. }
      split.
      * intros position' events' _. cbn [initializationWaitTicks initializationComplete].
        intros _. exact Hdone.
      * intros message events' _.
        match goal with
        | |- context [catch ?s message] =>
            destruct (catch_keeps s message) as (_ & _ & _ & _ & -> & -> & _)
        end.
        cbn [initializationWaitTicks initializationComplete]. intros _. exact Hdone.
Qed.

(** C2.  In every state the loop can reach, an iteration that submits a
    buy order started with initialization complete and the countdown at
    zero, with ['below'] recorded as the previous relation and no open
    position, and it records ['above'] as the current relation.  Hence no
    buy is submitted while countdown ticks remain, nor when the recorded
    relation is ['above'] or ['at']. *)
Theorem buy_only_on_confirmed_crossover (this : t) (st : LoopState) (env : TickEnv) :
  reachable this st ->
  (existsb isBuyOrder (snd (tick this st env)) = true ->
   initializationComplete st = true
   /\ initializationWaitTicks st = 0%nat
   /\ previousPriceVsMA st = Some below
   /\ previousPriceVsMA (fst (tick this st env)) = Some above
   /\ position st = None)
  /\ ((0 < initializationWaitTicks st)%nat ->
      existsb isBuyOrder (snd (tick this st env)) = false)
  /\ (previousPriceVsMA st = Some above \/ previousPriceVsMA st = Some at_ma ->
      existsb isBuyOrder (snd (tick this st env)) = false).
Proof.
  intro Hr.
  assert (Main :
    existsb isBuyOrder (snd (tick this st env)) = true ->
    initializationComplete st = true
    /\ initializationWaitTicks st = 0%nat
    /\ previousPriceVsMA st = Some below
    /\ previousPriceVsMA (fst (tick this st env)) = Some above
    /\ position st = None).
  { pose proof (countdown_over this st Hr) as Hdone.
    pose proof (fetchWithRetry_no_order env 3 0) as Hfetch.
    pattern (fst (tick this st env)), (snd (tick this st env)).
    apply tick_cases; cbv zeta.
    - intros _. discriminate.
    - intros message fetchEvents _ F. rewrite F in Hfetch. cbn [snd] in Hfetch.
      match goal with
      | |- context [catch ?s message] =>
          destruct (catch_keeps s message) as (_ & _ & _ & _ & _ & _ & Hb & _)
      end.
      rewrite existsb_app, Hfetch, Hb. discriminate.
    - intros currentPrice fetchEvents _ F. rewrite F in Hfetch. cbn [snd] in Hfetch.
      split; [intros _; rewrite existsb_app, Hfetch; discriminate|].
      split; [intros recorded _ _; rewrite existsb_app, Hfetch; discriminate|].
      intros recorded Hrec W. split.
      + intros position' events' T.
        match type of T with
        | trade ?a ?b ?c ?d ?e ?f ?g = _ => pose proof (trade_buy a b c d e f g) as Hbuy
        end.
        rewrite T in Hbuy. cbn [snd] in Hbuy.
        rewrite !existsb_app, Hfetch. cbn [orb].
        destruct (0 <? initializationWaitTicks st)%nat eqn:E;
          cbn [existsb isBuyOrder orb app]; rewrite orb_false_r; intro B;
          destruct (Hbuy B) as (_ & Hpos & Hprev & Habove).
        * injection Hprev as Hrel. unfold relation in Hrel. rewrite Habove in Hrel.
          discriminate.
        * injection Hprev as ->. apply Nat.ltb_ge in E.
          assert (Z0 : initializationWaitTicks st = 0%nat) by lia.
          split; [exact (Hdone Z0)|]. split; [exact Z0|]. split; [exact Hrec|].
          cbn [previousPriceVsMA]. unfold relation. rewrite Habove.
          split; [reflexivity | exact Hpos].
      + intros message events' T.
        destruct (trade_throw _ _ _ _ _ _ _ _ _ T) as (-> & _ & _).
        match goal with
        | |- context [catch ?s message] =>
            destruct (catch_keeps s message) as (_ & _ & _ & _ & _ & _ & Hb & _)
        end.
        rewrite !existsb_app, Hfetch, Hb.
        destruct (0 <? initializationWaitTicks st)%nat; discriminate. }
  split; [exact Main|]. split.
  - intro W. destruct (existsb isBuyOrder (snd (tick this st env))); [|reflexivity].
    destruct (Main eq_refl) as (_ & Z0 & _). lia.
  - intro P. destruct (existsb isBuyOrder (snd (tick this st env))); [|reflexivity].
    destruct (Main eq_refl) as (_ & _ & B & _). rewrite B in P.
    destruct P; discriminate.
Qed.

Lemma reachable_run (this : t) (envs : list TickEnv) (st : LoopState) :
  reachable this st -> reachable this (fst (run this st envs)).
Proof.
  revert st. induction envs as [|env rest IH]; intros st Hr; [exact Hr|].
  cbn [run]. pose proof (reachable_tick this st env Hr) as Hr'.
  destruct (tick this st env) as [st' events]. cbn [fst] in Hr'.
  specialize (IH st' Hr'). destruct (run this st' rest) as [st'' events'].
  exact IH.
Qed.

Lemma maxVolatilityThreshold_values :
  maxVolatilityThreshold "1m" = 0.05
  /\ maxVolatilityThreshold "5m" = 0.03
  /\ maxVolatilityThreshold "15m" = 0.02.
Proof. repeat split; reflexivity. Qed.


End TradingLoop.

Section TradingLoopExamples.

Import StrategyOptimizer BitFlowBot Examples.

(** C2 on a run: after the baseline tick and the ten countdown ticks of
    [descent] the loop is armed with ['below'] recorded; the next price,
    95, is above the SMA(5) of 91.4, and the buy order goes out. *)
Lemma buy_only_on_confirmed_crossover_witness :
  let this := demoBot "5m" (steadyBars 20) in
  let st := fst (@run Reference.math Reference.indicators this (start this) descent) in
  let next := @tick Reference.math Reference.indicators this st (priceTick 95) in
  existsb isBuyOrder (snd next) = true
  /\ initializationComplete st = true
  /\ initializationWaitTicks st = 0%nat
  /\ previousPriceVsMA st = Some below
  /\ previousPriceVsMA (fst next) = Some above
  /\ position st = None.
Proof.
  intros this st next.
  assert (B : existsb isBuyOrder (snd next) = true) by (vm_compute; reflexivity).
  split; [exact B|].
  destruct (@buy_only_on_confirmed_crossover Reference.math Reference.indicators
              this st (priceTick 95)) as [Main _].
  - apply reachable_run, reachable_start.
  - exact (Main B).
Defined.



End TradingLoopExamples.

(** * Further properties *)

(** ** Further properties of the risk engine *)

Lemma sum_from_nonneg (l : list Q) (init : Q) :
  0 <= init -> Forall (fun x => 0 <= x) l -> 0 <= fold_left Qplus l init.
Proof.
  revert init. induction l as [|x l IH]; intros init Hi Hl; [exact Hi|].
  inversion Hl as [|? ? Hx Hl']; subst. cbn [fold_left]. apply IH; [lra | exact Hl'].
Qed.

Lemma Forall_slice_last {A} (P : A -> Prop) (k : nat) (l : list A) :
  Forall P l -> Forall P (slice_last k l).
Proof.
  intro Hl. unfold slice_last. destruct k; [exact Hl|].
  rewrite <- (firstn_skipn (List.length l - S k) l) in Hl.
  apply Forall_app in Hl. apply Hl.
Qed.

Lemma of_nat_pos (n : nat) : (0 < n)%nat -> 0 < of_nat n.
Proof.
  intro Hn. unfold of_nat. change 0 with (inject_Z 0). rewrite <- Zlt_Qlt. lia.
Qed.

Lemma of_nat_nonneg (n : nat) : 0 <= of_nat n.
Proof.
  unfold of_nat. change 0 with (inject_Z 0). rewrite <- Zle_Qle. lia.
Qed.

Lemma leb_false (a b : Q) : leb a b = false -> b < a.
Proof.
  intro E. apply Qnot_le_lt. intro L. apply leb_true in L. congruence.
Qed.

Section RiskEngineMore.

Import MLRiskManager.
Context `{MathLib}.

(** X1.  Fee tiers.  A larger 30-day volume never costs a higher rate, maker
    or taker. *)
Theorem getFeeRate_monotone (volume1 volume2 : Q) (isMaker : bool) :
  volume1 <= volume2 ->
  getFeeRate constructor volume2 isMaker <= getFeeRate constructor volume1 isMaker.
Proof.
  intro Hle. unfold getFeeRate.
  cbn [feeTiers constructor rev app hd getFeeRate_loop tier_volume].
  repeat match goal with
         | |- context [if leb ?a ?b then _ else _] =>
             let E := fresh "E" in
             destruct (leb a b) eqn:E;
             [apply leb_true in E | apply leb_false in E]
         end;
    destruct isMaker; cbn [maker taker];
    first [discriminate | exfalso; lra].
Qed.

Lemma trueRange_nonneg (prev cur : Bar) : 0 <= trueRange prev cur.
Proof.
  unfold trueRange, Math_max3, Math_abs. cbv zeta.
  eapply Qle_trans; [apply Qabs_nonneg | apply Q.le_max_r].
Qed.

Lemma trueRanges_nonneg (priceData : list Bar) :
  Forall (fun tr => 0 <= tr) (trueRanges priceData).
Proof.
  induction priceData as [|prev rest IH]; [constructor|].
  destruct rest as [|cur rest']; [constructor|].
  cbn [trueRanges]. constructor; [apply trueRange_nonneg | exact IH].
Qed.

(** X2.  The ATR, when there is one, is never negative, whatever the bars
    (also bars with high below low or without high and low). *)
Theorem calculateATR_nonneg (priceData : list Bar) (period : nat) (atr : Q) :
  (0 < period)%nat ->
  calculateATR priceData period = Some atr ->
  (period + 1 <= List.length priceData)%nat /\ 0 <= atr.
Proof.
  intros Hp. unfold calculateATR.
  destruct (List.length priceData <? period + 1)%nat eqn:L; [discriminate|].
  apply Nat.ltb_ge in L. intro E. injection E as <-. split; [exact L|].
  apply Qle_shift_div_l; [apply of_nat_pos, Hp|]. rewrite Qmult_0_l.
  apply sum_from_nonneg; [apply Qle_refl|].
  apply Forall_slice_last, trueRanges_nonneg.
Qed.

Lemma calculateConfidence_range (volatility trend maDistance : Q) :
  0 <= calculateConfidence volatility trend maDistance <= 1.
Proof. unfold calculateConfidence. cbv zeta. apply clamp_bounds. discriminate. Qed.

(** What [calculateOptimalTPSL] returns, when it returns: the fallback. *)
Lemma calculateOptimalTPSL_returns (this : t) (priceData : list Bar)
    (currentPrice : Q) (maType : string) (maLength : nat)
    (positionSize volume30Day : Q) (timeframe : string) (r : TPSLResult) :
  calculateOptimalTPSL this priceData currentPrice maType maLength positionSize
                       volume30Day timeframe = Ok r ->
  r = mkTPSL (currentPrice * 0.985) (currentPrice * 1.03) "fallback" 0.5 None.
Proof.
  unfold calculateOptimalTPSL.
  destruct (calculateATR priceData 14) as [atr|]; [|intro E; injection E as <-; reflexivity].
  destruct (truthy atr); cbn [negb]; [|intro E; injection E as <-; reflexivity].
  cbv zeta. destruct (percentsBeforeFees _ _ _ _ _ _) as [sl tp]. discriminate.
Qed.

(** X3.  [calculateConfidence] gives a number in [[0, 1]] on every input.
    A call of [calculateOptimalTPSL] that returns has not come to it: it
    returns the fallback, with the confidence 0.5 and no details. *)
Theorem calculateOptimalTPSL_confidence_range (this : t) (priceData : list Bar)
    (currentPrice : Q) (maType : string) (maLength : nat)
    (positionSize volume30Day : Q) (timeframe : string) :
  (forall volatility trend maDistance,
      0 <= calculateConfidence volatility trend maDistance <= 1)
  /\ (forall r,
         calculateOptimalTPSL this priceData currentPrice maType maLength positionSize
                              volume30Day timeframe = Ok r ->
         method r = "fallback" /\ confidence r = 0.5 /\ details r = None).
Proof.
  split; [apply calculateConfidence_range|].
  intros r E. apply calculateOptimalTPSL_returns in E. subst r.
  repeat split; reflexivity.
Qed.

(** X4.  Where [calculateOptimalTPSL] returns, the stop loss is strictly
    below the current price and the take profit strictly above it. *)
Theorem calculateOptimalTPSL_brackets_price (this : t) (priceData : list Bar)
    (currentPrice : Q) (maType : string) (maLength : nat)
    (positionSize volume30Day : Q) (timeframe : string) (r : TPSLResult) :
  0 < currentPrice ->
  calculateOptimalTPSL this priceData currentPrice maType maLength positionSize
                       volume30Day timeframe = Ok r ->
  stopLoss r < currentPrice /\ currentPrice < takeProfit r.
Proof.
  intros Hprice E. apply calculateOptimalTPSL_returns in E. subst r.
  cbn [stopLoss takeProfit]. split; lra.
Qed.

Lemma getFeeRate_first_tier (volume30Day : Q) :
  volume30Day < 100000 -> getFeeRate constructor volume30Day false = 0.0025.
Proof.
  intro Hv. unfold getFeeRate.
  cbn [feeTiers constructor rev app hd getFeeRate_loop tier_volume].
  repeat match goal with
         | |- context [if leb ?a ?b then _ else _] =>
             let E := fresh "E" in
             destruct (leb a b) eqn:E;
             [apply leb_true in E | apply leb_false in E]
         end; cbn [taker]; first [reflexivity | exfalso; lra].
Qed.

(** X5.  In the first fee tier (30-day volume under 100000) the round-trip
    fees [calculateTradeFees] reports outweigh any exit within the take
    profit cap of 0.5% above the entry price: what the price move earns
    less the fees is negative. *)
Theorem calculateTradeFees_first_tier_no_net_profit
    (positionSize entryPrice exitPrice volume30Day : Q) :
  0 < entryPrice ->
  0 < positionSize ->
  volume30Day < 100000 ->
  exitPrice <= entryPrice * (1 + maxTakeProfitPercent constructor / 100) ->
  (exitPrice - entryPrice) * positionSize
  - totalFees (calculateTradeFees constructor positionSize entryPrice exitPrice volume30Day)
  < 0.
Proof.
  intros Hprice Hsize Hvol Hexit.
  rewrite totalFees_eq, (getFeeRate_first_tier _ Hvol).
  cbn [maxTakeProfitPercent constructor] in Hexit.
  assert (Eq : (exitPrice - entryPrice) * positionSize
               - positionSize * 0.0025 * (entryPrice + exitPrice)
               == - (positionSize * (1.0025 * entryPrice - 0.9975 * exitPrice))) by ring.
  rewrite Eq.
  assert (0 < positionSize * (1.0025 * entryPrice - 0.9975 * exitPrice)).
  { apply Qmult_lt_0_compat; [exact Hsize|].
    assert (E5 : entryPrice * (1 + 0.5 / 100) == 1.005 * entryPrice) by field.
    rewrite E5 in Hexit. lra. }
  lra.
Qed.

End RiskEngineMore.

Section PositionSizeLimits.

Import MLRiskManager.

Lemma compare_pos (x : Q) : 0 < x -> (x ?= 0) = Gt.
Proof. intro Hx. apply Qgt_alt. exact Hx. Qed.

Lemma eqb_pos (x : Q) : 0 < x -> eqb x 0 = false.
Proof.
  intro Hx. unfold eqb. destruct (Qeq_bool x 0) eqn:E; [|reflexivity].
  apply Qeq_bool_iff in E. rewrite E in Hx. inversion Hx.
Qed.

(** A size that is the larger of the floor and something under the cap. *)
Lemma size_limits (floor maxSize x entryPrice E B : Q) :
  0 < entryPrice ->
  maxSize <= B / entryPrice ->
  maxSize <= E / entryPrice ->
  x <= maxSize ->
  let s := Math_max floor x in
  floor <= s
  /\ ((floor <= maxSize /\ s <= maxSize /\ s * entryPrice <= E /\ s * entryPrice <= B)
      \/ (maxSize < floor /\ s == floor)).
Proof.
  intros Hentry HB HE Hx s. subst s. split; [apply Q.le_max_l|].
  destruct (Qlt_le_dec maxSize floor) as [Lt|Le].
  - right. split; [exact Lt|]. unfold Math_max. apply Q.max_l.
    eapply Qle_trans; [exact Hx | apply Qlt_le_weak, Lt].
  - left. split; [exact Le|].
    assert (Hsz : Math_max floor x <= maxSize).
    { unfold Math_max. apply Q.max_lub; assumption. }
    split; [exact Hsz|].
    assert (Hmul : Math_max floor x * entryPrice <= maxSize * entryPrice).
    { apply Qmult_le_compat_r; [exact Hsz | apply Qlt_le_weak, Hentry]. }
    assert (Hne : ~ entryPrice == 0) by lra.
    split.
    + eapply Qle_trans; [exact Hmul|].
      assert (Eq : E == E / entryPrice * entryPrice) by (field; exact Hne).
      rewrite Eq. apply Qmult_le_compat_r; [exact HE | apply Qlt_le_weak, Hentry].
    + eapply Qle_trans; [exact Hmul|].
      assert (Eq : B == B / entryPrice * entryPrice) by (field; exact Hne).
      rewrite Eq. apply Qmult_le_compat_r; [exact HB | apply Qlt_le_weak, Hentry].
Qed.

Lemma sizeTimeframeMultiplier_pos (timeframe : string) :
  0 < sizeTimeframeMultiplier timeframe.
Proof.
  unfold sizeTimeframeMultiplier.
  repeat match goal with
         | |- context [if ?b then _ else _] => destruct b
         end; reflexivity.
Qed.

(** With the stop on a positive entry price the first estimate is a
    division by zero: [NaN] where the risk amount is zero, an infinity
    otherwise, which the cap then cuts down. *)
Lemma calculatePositionSize_zero_distance (accountInfo : AccountInfo)
    (riskPercent entryPrice stopLoss volatility volume30Day : Q) (timeframe : string) :
  0 < entryPrice ->
  entryPrice == stopLoss ->
  let n := calculatePositionSize_numbers constructor accountInfo riskPercent entryPrice
             stopLoss volatility volume30Day timeframe in
  let cap :=
    Math_min (buyingPower accountInfo * (maxPositionPercent constructor / 100) / entryPrice)
             (equity accountInfo * 0.15 / entryPrice) in
  number_maxAllowed n = Number.Finite cap
  /\ ((equity accountInfo * (riskPercent / 100) == 0 /\ number_size n = Number.NaN)
      \/ (~ equity accountInfo * (riskPercent / 100) == 0
          /\ number_size n = Number.Finite (Math_max (minPositionSize constructor) cap))).
Proof.
  intros Hentry Hstop n cap. subst n cap.
  assert (Hs : 0 < stopLoss) by (rewrite <- Hstop; exact Hentry).
  assert (Hd : eqb (Math_abs (entryPrice - stopLoss)) 0 = true).
  { unfold eqb, Math_abs. apply Qeq_bool_iff. rewrite Hstop.
    setoid_replace (stopLoss - stopLoss) with 0 by ring. reflexivity. }
  pose proof (eqb_pos _ Hentry) as He.
  pose proof (compare_pos _ Hentry) as Ce.
  pose proof (compare_pos _ Hs) as Cs.
  pose proof (getFeeRate_taker_bounds volume30Day) as [R1 _].
  assert (Cr : (getFeeRate constructor volume30Day false ?= 0) = Gt)
    by (apply compare_pos; lra).
  unfold calculatePositionSize_numbers. cbv zeta.
  rewrite volatilityAdjustment_rational.
  set (v := if eqb (volatility * 50) 0 then _ else _).
  assert (Hv : 0 < v).
  { subst v. destruct (eqb (volatility * 50) 0);
      (eapply Qlt_le_trans; [|apply Q.le_max_l]); reflexivity. }
  pose proof (sizeTimeframeMultiplier_pos timeframe) as Hm.
  set (m := sizeTimeframeMultiplier timeframe) in *.
  set (A := equity accountInfo * (riskPercent / 100)).
  cbn [Number.mul number_maxAllowed number_size].
  cbn [Number.div]. rewrite Hd, He. cbv iota.
  split; [reflexivity|].
  unfold calculateTradeFees_numbers. cbv zeta.
  set (rate := getFeeRate constructor volume30Day false) in *.
  assert (Hl : ltb (Math_abs (entryPrice - stopLoss)) 0 = false).
  { apply ltb_false. unfold Math_abs. apply Qabs_nonneg. }
  assert (Se : Number.of_sign entryPrice = Number.Infinity)
    by (unfold Number.of_sign; rewrite Ce; reflexivity).
  assert (Ss : Number.of_sign stopLoss = Number.Infinity)
    by (unfold Number.of_sign; rewrite Cs; reflexivity).
  assert (Sr : Number.of_sign rate = Number.Infinity)
    by (unfold Number.of_sign; rewrite Cr; reflexivity).
  destruct (Qcompare_spec (A * v * m) 0) as [C|C|C].
  - left. split.
    + destruct (Qmult_integral _ _ C) as [C'|C']; [|lra].
      destruct (Qmult_integral _ _ C') as [C''|C'']; [exact C''|lra].
    + assert (C' : (A * v * m ?= 0) = Eq) by (apply Qeq_alt; exact C).
      unfold Number.of_sign. rewrite C'. reflexivity.
  - right. split.
    + intro Z. fold A in Z. rewrite Z in C.
      setoid_replace (0 * v * m) with 0 in C by ring. inversion C.
    + assert (C' : (A * v * m ?= 0) = Lt) by (apply Qlt_alt; exact C).
      unfold Number.of_sign. rewrite C'. cbv iota.
      repeat (cbn [Number.opp Number.mul Number.add Number.sub Number.gtb Number.div
                   Number.min Number.max number_totalFees];
              rewrite ?Se, ?Ss, ?Sr, ?Hl).
      reflexivity.
  - right. split.
    + intro Z. fold A in Z. rewrite Z in C.
      setoid_replace (0 * v * m) with 0 in C by ring. inversion C.
    + assert (C' : (A * v * m ?= 0) = Gt) by (apply Qgt_alt; exact C).
      unfold Number.of_sign. rewrite C'. cbv iota.
      repeat (cbn [Number.opp Number.mul Number.add Number.sub Number.gtb Number.div
                   Number.min Number.max number_totalFees];
              rewrite ?Se, ?Ss, ?Sr, ?Hl).
      reflexivity.
Qed.

(** X6.  For a positive entry price.  The size is a number except in one
    case: with the stop on the entry price and a risk amount of zero
    (no equity, or a risk percent of zero) it is [NaN].  In every other
    case it is never below the floor; where the floor fits under the cap
    the size respects the cap, so the position is worth at most 15% of
    equity and at most 10% of buying power; where the cap is below the
    floor the floor wins and the size is exactly the floor. *)
Theorem calculatePositionSize_limits (accountInfo : AccountInfo)
    (riskPercent entryPrice stopLoss volatility volume30Day : Q) (timeframe : string) :
  0 < entryPrice ->
  let n := calculatePositionSize_numbers constructor accountInfo riskPercent entryPrice
             stopLoss volatility volume30Day timeframe in
  let r := calculatePositionSize constructor accountInfo riskPercent entryPrice stopLoss
             volatility volume30Day timeframe in
  let undefined :=
    entryPrice == stopLoss /\ equity accountInfo * (riskPercent / 100) == 0 in
  (undefined /\ number_size n = Number.NaN)
  \/ (~ undefined
      /\ number_size n = Number.Finite (size r)
      /\ minPositionSize constructor <= size r
      /\ ((minPositionSize constructor <= maxAllowed r
           /\ size r <= maxAllowed r
           /\ size r * entryPrice <= equity accountInfo * 0.15
           /\ size r * entryPrice <= buyingPower accountInfo * 0.10)
          \/ (maxAllowed r < minPositionSize constructor
              /\ size r == minPositionSize constructor))).
Proof.
  intros Hentry n r undefined. subst undefined.
  assert (Hne : ~ entryPrice == 0) by lra.
  assert (Hcap : forall cap,
             cap = Math_min (buyingPower accountInfo
                             * (maxPositionPercent constructor / 100) / entryPrice)
                            (equity accountInfo * 0.15 / entryPrice) ->
             cap <= buyingPower accountInfo * 0.10 / entryPrice
             /\ cap <= equity accountInfo * 0.15 / entryPrice).
  { intros cap ->. split; [|apply Q.le_min_r].
    eapply Qle_trans; [apply Q.le_min_l|].
    cbn [maxPositionPercent constructor].
    assert (E : buyingPower accountInfo * (10 / 100) / entryPrice
                == buyingPower accountInfo * 0.10 / entryPrice) by (field; exact Hne).
    rewrite E. apply Qle_refl. }
  destruct (Qeq_dec entryPrice stopLoss) as [Hstop|Hstop].
  - destruct (calculatePositionSize_zero_distance accountInfo riskPercent entryPrice
                stopLoss volatility volume30Day timeframe Hentry Hstop)
      as (Hmax & [[HA Hnan] | [HA Hsize]]).
    + left. split; [split; assumption | exact Hnan].
    + right. split; [intros [_ Z]; exact (HA Z)|].
      assert (Es : size r = Math_max (minPositionSize constructor) (maxAllowed r)).
      { subst r. unfold calculatePositionSize. cbv zeta. cbn [size maxAllowed].
        fold n. cbv zeta in Hsize, Hmax. fold n in Hsize, Hmax.
        rewrite Hsize, Hmax. reflexivity. }
      assert (Em : maxAllowed r
                   = Math_min (buyingPower accountInfo
                               * (maxPositionPercent constructor / 100) / entryPrice)
                              (equity accountInfo * 0.15 / entryPrice)).
      { subst r. unfold calculatePositionSize. cbv zeta. cbn [maxAllowed].
        cbv zeta in Hmax. fold n in Hmax. fold n. rewrite Hmax. reflexivity. }
      split.
      { subst r. unfold calculatePositionSize. cbv zeta. cbn [size].
        fold n. cbv zeta in Hsize. fold n in Hsize. rewrite Hsize. reflexivity. }
      rewrite Es. destruct (Hcap _ Em) as [HB HE].
      apply (size_limits (minPositionSize constructor) (maxAllowed r) (maxAllowed r)
               entryPrice (equity accountInfo * 0.15) (buyingPower accountInfo * 0.10)
               Hentry HB HE). apply Qle_refl.
  - right. split; [intros [Z _]; exact (Hstop Z)|].
    destruct (calculatePositionSize_rational constructor accountInfo riskPercent
                entryPrice stopLoss volatility volume30Day timeframe Hstop Hne)
      as (Hn & _ & Em & Es & _).
    cbv zeta in Hn, Em, Es. fold n r in Hn, Em, Es.
    split; [exact Hn|]. rewrite Es. destruct (Hcap _ Em) as [HB HE].
    apply (size_limits (minPositionSize constructor) (maxAllowed r) _
             entryPrice (equity accountInfo * 0.15) (buyingPower accountInfo * 0.10)
             Hentry HB HE). apply Q.le_min_l.
Qed.

End PositionSizeLimits.

Section RiskEngineMoreExamples.

Import MLRiskManager Examples.

Lemma getFeeRate_monotone_witness :
  getFeeRate constructor 200000 false <= getFeeRate constructor 0 false
  /\ getFeeRate constructor 200000 false == 0.0022
  /\ getFeeRate constructor 0 false == 0.0025.
Proof.
  split; [|split; reflexivity].
  apply (getFeeRate_monotone 0 200000 false). discriminate.
Defined.

Lemma calculateATR_nonneg_witness :
  exists atr, calculateATR (steadyBars 15) 14 = Some atr /\ 0 <= atr.
Proof.
  eexists. split; [reflexivity|].
  apply (calculateATR_nonneg (steadyBars 15) 14 _); [lia | reflexivity].
Defined.

Lemma calculateOptimalTPSL_brackets_price_witness :
  exists r,
    @calculateOptimalTPSL Reference.math constructor (flatBars 15)
      100 "SMA" 5 0.001 0 "5m" = Ok r
    /\ stopLoss r < 100 /\ 100 < takeProfit r.
Proof.
  eexists. split; [reflexivity|].
  apply (@calculateOptimalTPSL_brackets_price Reference.math constructor (flatBars 15)
           100 "SMA" 5 0.001 0 "5m"); reflexivity.
Defined.

Lemma calculateTradeFees_first_tier_no_net_profit_witness :
  (100.5 - 100) * 0.001 - totalFees (calculateTradeFees constructor 0.001 100 100.5 0) < 0.
Proof.
  apply (calculateTradeFees_first_tier_no_net_profit 0.001 100 100.5 0);
    [reflexivity | reflexivity | reflexivity | discriminate].
Defined.

(** Equity 10000, risk 1%, stop 1 under the entry of 100: the size is
    cut to the cap of 15. *)
Lemma calculatePositionSize_limits_witness :
  let n := calculatePositionSize_numbers constructor account 1 100 99 0.02 0 "5m" in
  let r := calculatePositionSize constructor account 1 100 99 0.02 0 "5m" in
  number_size n = Number.Finite (size r)
  /\ minPositionSize constructor <= size r
  /\ size r <= maxAllowed r
  /\ size r * 100 <= equity account * 0.15.
Proof.
  destruct (calculatePositionSize_limits account 1 100 99 0.02 0 "5m")
    as [[[Hstop _] _] | (_ & Hn & Hfloor & [(_ & Hcap & Hequity & _) | [Hlow _]])].
  - reflexivity.
  - exfalso. revert Hstop. discriminate.
  - repeat split; assumption.
  - exfalso. revert Hlow. vm_compute. discriminate.
Defined.

(** With a risk percent of zero and the stop on the entry price the size
    is [NaN]. *)
Example calculatePositionSize_nan :
  number_size (calculatePositionSize_numbers constructor account 0 100 100 0.02 0 "5m")
  = Number.NaN.
Proof. reflexivity. Qed.

Lemma calculatePositionSize_budget_when_fees_fit_witness :
  let r := calculatePositionSize constructor account 1 100 99 0.02 0 "5m" in
  actualRisk r <= riskAmount r.
Proof.
  apply (calculatePositionSize_budget_when_fees_fit account 1 100 99 0.02 0 "5m").
  - reflexivity.
  - discriminate.
  - discriminate.
  - reflexivity.
  - vm_compute. discriminate.
Defined.

End RiskEngineMoreExamples.

(** ** Further properties of the strategy optimizer *)

Lemma fold_left_invariant {S A : Type} (P : S -> Prop) (f : S -> A -> S)
    (l : list A) (init : S) :
  P init -> (forall s a, P s -> P (f s a)) -> P (fold_left f l init).
Proof.
  intros Hi Hstep. revert init Hi.
  induction l as [|a l IH]; intros init Hi; [exact Hi|].
  cbn [fold_left]. apply IH, Hstep, Hi.
Qed.

Lemma pow2_nonneg (a : Q) : 0 <= Math_pow2 a.
Proof.
  unfold Math_pow2. destruct (Qlt_le_dec a 0) as [N|P].
  - assert (E : a * a == (- a) * (- a)) by ring. rewrite E.
    apply Qmult_le_0_compat; lra.
  - apply Qmult_le_0_compat; exact P.
Qed.

Section OptimizerMore.

Import StrategyOptimizer Spec.
Context `{MathLib} `{TechnicalIndicators}.

(** [calculateMA] without its [try]/[catch]: the tests on an empty price
    array and on a length above the array length are subsumed by the
    test on the number of positive prices. *)
Lemma calculateMA_eq (prices : list Q) (type : string) (length : nat) :
  let validPrices := filter (fun price => ltb 0 price) prices in
  calculateMA prices type length
  = if String.eqb type ""
       || (length =? 0)%nat
       || (List.length validPrices <? length)%nat
       || (List.length (calculateMA_switch type length validPrices) =? 0)%nat
    then None
    else Some (finite_values (calculateMA_switch type length validPrices)).
Proof.
  intro validPrices. unfold calculateMA. fold validPrices.
  assert (Hv : (List.length validPrices <= List.length prices)%nat)
    by apply filter_length_le.
  destruct (List.length prices =? 0)%nat eqn:E0.
  - apply Nat.eqb_eq in E0.
    destruct (String.eqb type ""); [reflexivity|].
    destruct (length =? 0)%nat eqn:L0; [reflexivity|]. apply Nat.eqb_neq in L0.
    assert (Lt : (List.length validPrices <? length)%nat = true)
      by (apply Nat.ltb_lt; lia).
    rewrite Lt. reflexivity.
  - destruct (String.eqb type ""); [reflexivity|]. cbn [orb].
    destruct (length =? 0)%nat eqn:L0; [reflexivity|]. apply Nat.eqb_neq in L0.
    cbn [orb].
    assert (L1 : (length <? 1)%nat = false) by (apply Nat.ltb_ge; lia). rewrite L1.
    cbn [orb].
    destruct (List.length prices <? length)%nat eqn:Lp.
    + apply Nat.ltb_lt in Lp.
      assert (Lt : (List.length validPrices <? length)%nat = true)
        by (apply Nat.ltb_lt; lia).
      rewrite Lt. reflexivity.
    + destruct (List.length validPrices <? length)%nat; [reflexivity|].
      cbn [orb]. reflexivity.
Qed.

(** X8.  [calculateMA] returns [null] exactly when the type is empty, the
    length is zero, fewer positive prices than the length are available,
    or the indicator produced nothing. *)
Theorem calculateMA_null (prices : list Q) (type : string) (length : nat) :
  let validPrices := filter (fun price => ltb 0 price) prices in
  calculateMA prices type length = None
  <-> type = ""
      \/ length = 0%nat
      \/ (List.length validPrices < length)%nat
      \/ calculateMA_switch type length validPrices = [].
Proof.
  intro validPrices. rewrite calculateMA_eq. fold validPrices.
  destruct (String.eqb_spec type "") as [Et|Et]; cbn [orb];
    [split; [left; exact Et | reflexivity]|].
  destruct (Nat.eqb_spec length 0) as [El|El]; cbn [orb];
    [split; [right; left; exact El | reflexivity]|].
  destruct (Nat.ltb_spec (List.length validPrices) length) as [Ev|Ev]; cbn [orb];
    [split; [right; right; left; exact Ev | reflexivity]|].
  destruct (calculateMA_switch type length validPrices) as [|v result] eqn:Es;
    cbn [List.length Nat.eqb].
  - split; [right; right; right; reflexivity | reflexivity].
  - split; [discriminate|].
    intros [E|[E|[E|E]]]; [contradiction | contradiction | lia | discriminate].
Qed.


Lemma toUpperCase_empty (s : string) : toUpperCase s = "" -> s = "".
Proof. destruct s; [reflexivity | discriminate]. Qed.

(** X9.  The MA type is matched without regard to case: two type strings
    with the same upper-case form give the same series. *)
Theorem calculateMA_case_insensitive (prices : list Q) (type1 type2 : string)
    (length : nat) :
  toUpperCase type1 = toUpperCase type2 ->
  calculateMA prices type1 length = calculateMA prices type2 length.
Proof.
  intro E.
  assert (Eempty : String.eqb type1 "" = String.eqb type2 "").
  { destruct type1, type2; try reflexivity; discriminate. }
  assert (Esw : forall vp, calculateMA_switch type1 length vp
                           = calculateMA_switch type2 length vp).
  { intro vp. unfold calculateMA_switch. cbv zeta. rewrite E. reflexivity. }
  rewrite !calculateMA_eq. cbv zeta. rewrite Eempty, Esw. reflexivity.
Qed.

(** X10.  A type that is none of the seven known ones is not rejected: the
    series computed is the SMA. *)
Theorem calculateMA_unknown_type_is_SMA (prices : list Q) (type : string) (length : nat) :
  type <> "" ->
  ~ In (toUpperCase type) maTypes ->
  calculateMA prices type length = calculateMA prices "SMA" length.
Proof.
  intros Hne Hin.
  assert (Esw : forall vp, calculateMA_switch type length vp
                           = calculateMA_switch "SMA" length vp).
  { intro vp. unfold calculateMA_switch. cbv zeta.
    change (toUpperCase "SMA") with "SMA". cbn [String.eqb Ascii.eqb Bool.eqb].
    repeat match goal with
           | |- context [String.eqb (toUpperCase type) ?s] =>
               let E := fresh "E" in
               destruct (String.eqb (toUpperCase type) s) eqn:E;
               [apply String.eqb_eq in E; exfalso; apply Hin; rewrite E;
                cbn; tauto
               |]
           end.
    reflexivity. }
  rewrite !calculateMA_eq. cbv zeta. rewrite Esw.
  apply String.eqb_neq in Hne. rewrite Hne. reflexivity.
Qed.

(** X11.  R squared never exceeds 1: both sums of squares are non-negative,
    and a zero total gives 0. *)
Theorem calculateRSquared_le_1 (prices maValues : list Q) (length : nat) :
  calculateRSquared prices maValues length <= 1.
Proof.
  unfold calculateRSquared.
  destruct (List.length prices =? List.length maValues)%nat; cbn [negb]; [|discriminate].
  cbv zeta.
  match goal with
  | |- context [fold_left ?f ?l ?i] =>
      assert (Inv : 0 <= fst (fold_left f l i) /\ 0 <= snd (fold_left f l i))
  end.
  { apply fold_left_invariant; [split; apply Qle_refl|].
    intros [ssRes ssTot] i [H1 H2]. cbn [fst snd] in *.
    split; [pose proof (pow2_nonneg (at_index (slice_last (Nat.min (Datatypes.length prices) length) prices) i
                                      - at_index (slice_last (Nat.min (Datatypes.length prices) length) maValues) i))
           |pose proof (pow2_nonneg (at_index (slice_last (Nat.min (Datatypes.length prices) length) prices) i
                                      - sum (slice_last (Nat.min (Datatypes.length prices) length) prices)
                                        / of_nat (Nat.min (Datatypes.length prices) length)))];
      lra. }
  destruct (fold_left _ _ _) as [ssRes ssTot]. cbn [fst snd] in Inv.
  destruct Inv as [Hres Htot].
  destruct (JS.eqb ssTot 0) eqn:E; [discriminate|].
  apply Qeq_bool_neq in E.
  assert (P : 0 < ssTot).
  { destruct (Qlt_le_dec 0 ssTot) as [P|N]; [exact P|]. exfalso. apply E. lra. }
  assert (0 <= ssRes / ssTot) by (apply Qle_shift_div_l; lra).
  lra.
Qed.

(** Every trade the simulation closes is marked a win exactly when its
    profit is positive. *)
Lemma simulate_trades_marked (prices maValues : list Q) (indices : list nat)
    (st : list Trade * bool * Q) :
  Forall (fun t => win t = ltb 0 (profit t)) (fst (fst st)) ->
  Forall (fun t => win t = ltb 0 (profit t))
         (fst (fst (fold_left (simulate_step prices maValues) indices st))).
Proof.
  intro Hi.
  apply (fold_left_invariant
           (fun st => Forall (fun t => win t = ltb 0 (profit t)) (fst (fst st))));
    [exact Hi|].
  intros [[trades inPosition] entryPrice] i Hinv. cbn [fst] in Hinv.
  unfold simulate_step.
  destruct (_ && _)%bool; [|exact Hinv].
  cbv zeta.
  destruct (negb inPosition && _ && _)%bool; [exact Hinv|].
  destruct (inPosition && _ && _)%bool; [|exact Hinv].
  cbn [fst]. apply Forall_app. split; [exact Hinv|].
  constructor; [reflexivity | constructor].
Qed.

Lemma drawdown_nonneg (trades : list Trade) :
  0 <= fst (fst (fold_left drawdown_step trades (0, 0, 0))).
Proof.
  apply (fold_left_invariant (fun st => 0 <= fst (fst st))); [apply Qle_refl|].
  intros [[maxDrawdown peak] runningTotal] t Hinv. cbn [fst] in Hinv.
  unfold drawdown_step. cbv zeta. cbn [fst].
  match goal with
  | |- context [if ltb maxDrawdown ?d then _ else _] =>
      destruct (ltb maxDrawdown d) eqn:L; [apply ltb_true in L; lra | exact Hinv]
  end.
Qed.

Lemma sum_wins_nonneg (trades : list Trade) (init : Q) :
  Forall (fun t => win t = ltb 0 (profit t)) trades ->
  0 <= init ->
  0 <= fold_left (fun s t => s + (if win t then profit t else 0)) trades init.
Proof.
  revert init. induction trades as [|t trades IH]; intros init Hm Hi; [exact Hi|].
  inversion Hm as [|? ? Ht Hm']; subst. cbn [fold_left]. apply IH; [exact Hm'|].
  destruct (win t); [|lra].
  symmetry in Ht. apply ltb_true in Ht. lra.
Qed.

(** X12.  The metrics of the simulated trades are consistent: wins and losses
    add up to the number of trades, the win rate is a fraction in
    [[0, 1]], and neither the maximum drawdown nor the profit factor is
    negative. *)
Theorem evaluatePerformance_consistent (prices maValues : list Q) :
  let p := evaluatePerformance prices maValues in
  (wins p + losses p = totalTrades p)%nat
  /\ 0 <= winRate p <= 1
  /\ 0 <= maxDrawdown p
  /\ 0 <= profitFactor p.
Proof.
  unfold evaluatePerformance.
  pose proof (simulate_trades_marked prices maValues
                (seq 1 (List.length maValues - 1)) ([], false, 0)) as Hm.
  destruct (fold_left (simulate_step prices maValues) _ _) as [[trades inPosition] entry].
  cbn [fst] in Hm. specialize (Hm (Forall_nil _)).
  pose proof (drawdown_nonneg trades) as Hd.
  destruct (fold_left drawdown_step trades (0, 0, 0)) as [[deepest peak] total].
  cbn [fst] in Hd. cbv zeta. cbn [wins losses totalTrades winRate maxDrawdown profitFactor].
  split; [apply filter_length|]. split; [|split; [exact Hd|]].
  - destruct (0 <? List.length trades)%nat eqn:L; [|split; discriminate].
    apply Nat.ltb_lt in L.
    pose proof (of_nat_pos _ L) as Hpos.
    pose proof (of_nat_nonneg (List.length (filter win trades))) as Hw.
    assert (Hle : of_nat (List.length (filter win trades)) <= of_nat (List.length trades)).
    { unfold of_nat. rewrite <- Zle_Qle. pose proof (filter_length_le win trades). lia. }
    split.
    + apply Qle_shift_div_l; [exact Hpos | lra].
    + apply Qle_shift_div_r; [exact Hpos | lra].
  - pose proof (sum_wins_nonneg trades 0 Hm (Qle_refl 0)) as Hp.
    match goal with
    | |- context [if ltb 0 ?l then _ else _] =>
        destruct (ltb 0 l) eqn:L; [apply ltb_true in L|exact Hp]
    end.
    apply Qle_shift_div_l; [exact L | lra].
Qed.

Lemma loopStep_progress (prices : list Q) (timeframe : string)
    (st : OptState) (candidate : string * nat) :
  tested (loopStep prices timeframe st candidate) = S (tested st)
  /\ progress (loopStep prices timeframe st candidate)
     = progress st ++ [of_nat (S (tested st)) / of_nat totalCombinations].
Proof.
  unfold loopStep, tryCombination. destruct candidate as [maType len]. cbn [fst snd].
  destruct (calculateMA prices maType len) as [maValues|]; [|split; reflexivity].
  destruct (20 <? List.length maValues)%nat; [|split; reflexivity].
  cbv zeta. destruct (bestScore st) as [b|]; [destruct (ltb b _)|]; split; reflexivity.
Qed.

Lemma loop_progress (prices : list Q) (timeframe : string)
    (candidates : list (string * nat)) (st : OptState) :
  let st' := fold_left (loopStep prices timeframe) candidates st in
  tested st' = (tested st + List.length candidates)%nat
  /\ progress st'
     = progress st
       ++ map (fun k => of_nat k / of_nat totalCombinations)
              (seq (S (tested st)) (List.length candidates)).
Proof.
  revert st. induction candidates as [|candidate rest IH]; intro st.
  - cbn. split; [lia | now rewrite app_nil_r].
  - cbn [fold_left List.length seq map].
    destruct (loopStep_progress prices timeframe st candidate) as [Ht Hp].
    destruct (IH (loopStep prices timeframe st candidate)) as [It Ip].
    cbv zeta in It, Ip. rewrite It, Ip, Ht, Hp, <- app_assoc.
    split; [lia | reflexivity].
Qed.

(** X13.  The progress callback is called once per combination, skipped or
    scored: 182 times, with the fractions 1/182, 2/182, ..., 182/182, in
    this order, whatever the prices. *)
Theorem optimize_progress (prices : list Q) (timeframe : string) :
  tested (optimize_loops prices timeframe) = 182%nat
  /\ progress (optimize_loops prices timeframe)
     = map (fun k => of_nat k / of_nat 182) (seq 1 182).
Proof.
  rewrite optimize_loops_flat.
  destruct (loop_progress prices timeframe combinations (mkOpt None None [] 0 []))
    as [Ht Hp].
  cbv zeta in Ht, Hp. rewrite Ht, Hp. split; reflexivity.
Qed.

Lemma scoredCandidates_length (prices : list Q) (timeframe : string) :
  (List.length (scoredCandidates prices timeframe) <= 182)%nat.
Proof.
  unfold scoredCandidates.
  change 182%nat with (List.length combinations).
  induction combinations as [|c rest IH]; [apply Nat.le_refl|].
  cbn [flat_map List.length]. rewrite length_app.
  destruct (scoreCandidate prices timeframe c); cbn [List.length]; lia.
Qed.

(** X14.  What [optimizeMAParameters] throws and when: with fewer than 50 bars
    the "insufficient data" error; with enough bars the "no valid
    configuration" error exactly when no combination could be scored;
    otherwise it returns, with between 1 and 182 scored candidates. *)
Theorem optimizeMAParameters_outcome (historicalData : list Bar) (timeframe : string) :
  match optimizeMAParameters historicalData timeframe with
  | Throw message =>
      ((List.length historicalData < 50)%nat
       /\ message = "Insufficient historical data for optimization")
      \/ ((50 <= List.length historicalData)%nat
          /\ scoredCandidates (map close historicalData) timeframe = []
          /\ message = "No valid MA configuration found")
  | Ok (best, all) =>
      (50 <= List.length historicalData)%nat
      /\ all = scoredCandidates (map close historicalData) timeframe
      /\ (1 <= List.length all <= 182)%nat
  end.
Proof.
  unfold optimizeMAParameters.
  destruct (List.length historicalData <? 50)%nat eqn:L.
  - apply Nat.ltb_lt in L. left. split; [exact L | reflexivity].
  - apply Nat.ltb_ge in L. cbv zeta. rewrite optimize_loops_flat.
    destruct (loop_fold (map close historicalData) timeframe combinations
                (mkOpt None None [] 0 [])) as [[_ Hbest] Hres].
    { split; reflexivity. }
    cbv zeta in Hres. cbn [results app] in Hres.
    destruct (bestConfig _) as [b|].
    + split; [exact L|]. split; [exact Hres|].
      destruct Hbest as (earlier & later & Hall & _).
      split.
      * rewrite Hall, length_app. cbn [List.length]. lia.
      * rewrite Hres. apply scoredCandidates_length.
    + right. split; [exact L|]. split; [|reflexivity].
      fold (scoredCandidates (map close historicalData) timeframe) in Hres.
      rewrite <- Hres. exact Hbest.
Qed.

End OptimizerMore.

Section OptimizerMoreExamples.

Import StrategyOptimizer.

Lemma calculateMA_null_witness :
  @calculateMA Reference.indicators [1; 2; 0; 3] "SMA" 4 = None.
Proof.
  apply (@calculateMA_null Reference.indicators [1; 2; 0; 3] "SMA" 4%nat).
  right. right. left. cbn. lia.
Defined.

Lemma calculateMA_case_insensitive_witness :
  @calculateMA Reference.indicators [1; 2; 3] "ema" 2
  = @calculateMA Reference.indicators [1; 2; 3] "EMA" 2.
Proof.
  apply (@calculateMA_case_insensitive Reference.indicators [1; 2; 3] "ema" "EMA" 2).
  reflexivity.
Defined.

Lemma calculateMA_unknown_type_is_SMA_witness :
  @calculateMA Reference.indicators [1; 2; 3] "ALMA" 2
  = @calculateMA Reference.indicators [1; 2; 3] "SMA" 2.
Proof.
  apply (@calculateMA_unknown_type_is_SMA Reference.indicators [1; 2; 3] "ALMA" 2).
  - discriminate.
  - cbn. intuition discriminate.
Defined.

End OptimizerMoreExamples.

(** ** Further properties of the signal engine *)

Section SignalsMore.

Import StrategyOptimizer.
Context `{TechnicalIndicators}.

Lemma detectCrossover_some (prevPrice currentPrice prevMA currentMA : Q)
    (maType : string) (maLength : nat) (c : Crossover) :
  detectCrossover prevPrice currentPrice prevMA currentMA maType maLength = Some c ->
  0 <= strength c <= 1
  /\ ((direction c = BUY /\ prevPrice <= prevMA /\ currentMA < currentPrice)
      \/ (direction c = SELL /\ prevMA <= prevPrice /\ currentPrice < currentMA)).
Proof.
  unfold detectCrossover. cbv zeta.
  destruct (leb prevPrice prevMA && ltb currentMA currentPrice)%bool eqn:B.
  - intro E. injection E as <-. cbn [strength direction].
    apply andb_prop in B. destruct B as [B1 B2].
    apply leb_true in B1. apply ltb_true in B2.
    split; [apply clamp_bounds; discriminate|]. left. repeat split; assumption.
  - destruct (leb prevMA prevPrice && ltb currentPrice currentMA)%bool eqn:S;
      [|discriminate].
    intro E. injection E as <-. cbn [strength direction].
    apply andb_prop in S. destruct S as [S1 S2].
    apply leb_true in S1. apply ltb_true in S2.
    split; [apply clamp_bounds; discriminate|]. right. repeat split; assumption.
Qed.

Lemma validateSignalStrength_range (baseConfidence : Q) (c : Crossover) :
  0 <= validateSignalStrength baseConfidence c <= 100.
Proof. unfold validateSignalStrength. cbv zeta. apply clamp_bounds. discriminate. Qed.

(** X15.  Every signal is well formed: the confidence lies in [[0, 100]]; a
    signal that is not valid is a HOLD with confidence 0; a BUY or SELL is
    valid, not pending, and carries the crossover it was derived from,
    with the same direction and a strength in [[0, 1]]. *)
Theorem calculateSignals_well_formed (this_timeframe : string) (now : Z)
    (prices : list Q) (maType : string) (maLength : nat) (candleData : option Candle) :
  let signal := calculateSignals this_timeframe now prices maType maLength candleData in
  0 <= signal_confidence signal <= 100
  /\ (valid signal = false -> action signal = HOLD /\ signal_confidence signal = 0)
  /\ (action signal <> HOLD ->
      valid signal = true /\ pending signal = false
      /\ exists c, crossover signal = Some c /\ direction c = action signal
                   /\ 0 <= strength c <= 1).
Proof.
  assert (Hold : forall reason v p t,
             let signal := mkSignal HOLD 0 reason v p None t in
             0 <= signal_confidence signal <= 100
             /\ (valid signal = false -> action signal = HOLD /\ signal_confidence signal = 0)
             /\ (action signal <> HOLD ->
                 valid signal = true /\ pending signal = false
                 /\ exists c, crossover signal = Some c /\ direction c = action signal
                              /\ 0 <= strength c <= 1)).
  { intros. subst signal. cbn. split; [split; discriminate|].
    split; [intros _; split; reflexivity | intro N; exfalso; apply N; reflexivity]. }
  unfold calculateSignals, hold.
  destruct (List.length prices <? maLength + 2)%nat; [apply Hold|].
  destruct (String.eqb maType "" || (maLength =? 0)%nat)%bool; [apply Hold|].
  destruct (calculateMA prices maType maLength) as [maValues|]; [|apply Hold].
  destruct (List.length maValues <? 2)%nat; [apply Hold|].
  cbv zeta.
  destruct (negb (validatePriceData _)); [apply Hold|].
  destruct (_ && negb _)%bool; [apply Hold|].
  destruct (detectCrossover _ _ _ _ _ _) as [c|] eqn:D; [|apply Hold].
  destruct (detectCrossover_some _ _ _ _ _ _ _ D) as [Hs Hdir].
  cbn [signal_confidence valid action pending crossover].
  split; [apply validateSignalStrength_range|].
  split; [discriminate|].
  intros _. split; [reflexivity|]. split; [reflexivity|].
  exists c. split; [reflexivity|]. split; [reflexivity | exact Hs].
Qed.

(** X16.  A BUY or SELL reports a crossover of the last two prices over the
    last two MA values: there were at least [maLength + 2] prices, the MA
    series exists with at least two values, the four numbers are
    positive, and BUY means previous price at or under the previous MA
    and current price over the current MA, SELL the mirror image. *)
Theorem calculateSignals_crossover (this_timeframe : string) (now : Z)
    (prices : list Q) (maType : string) (maLength : nat) (candleData : option Candle) :
  action (calculateSignals this_timeframe now prices maType maLength candleData) <> HOLD ->
  exists maValues,
    calculateMA prices maType maLength = Some maValues
    /\ (maLength + 2 <= List.length prices)%nat
    /\ (2 <= List.length maValues)%nat
    /\ let currentPrice := at_index prices (List.length prices - 1) in
       let prevPrice := at_index prices (List.length prices - 2) in
       let currentMA := at_index maValues (List.length maValues - 1) in
       let prevMA := at_index maValues (List.length maValues - 2) in
       0 < currentPrice /\ 0 < prevPrice /\ 0 < currentMA /\ 0 < prevMA
       /\ ((action (calculateSignals this_timeframe now prices maType maLength candleData)
            = BUY /\ prevPrice <= prevMA /\ currentMA < currentPrice)
           \/ (action (calculateSignals this_timeframe now prices maType maLength candleData)
               = SELL /\ prevMA <= prevPrice /\ currentPrice < currentMA)).
Proof.
  unfold calculateSignals, hold.
  destruct (List.length prices <? maLength + 2)%nat eqn:L;
    [intro N; exfalso; apply N; reflexivity|].
  apply Nat.ltb_ge in L.
  destruct (String.eqb maType "" || (maLength =? 0)%nat)%bool;
    [intro N; exfalso; apply N; reflexivity|].
  destruct (calculateMA prices maType maLength) as [maValues|];
    [|intro N; exfalso; apply N; reflexivity].
  destruct (List.length maValues <? 2)%nat eqn:L2;
    [intro N; exfalso; apply N; reflexivity|].
  apply Nat.ltb_ge in L2.
  cbv zeta.
  destruct (validatePriceData _) eqn:V; cbn [negb];
    [|intro N; exfalso; apply N; reflexivity].
  destruct (_ && negb _)%bool; [intro N; exfalso; apply N; reflexivity|].
  destruct (detectCrossover _ _ _ _ _ _) as [c|] eqn:D;
    [|intro N; exfalso; apply N; reflexivity].
  intros _. exists maValues. split; [reflexivity|]. split; [exact L|]. split; [exact L2|].
  unfold validatePriceData in V. cbn [forallb] in V.
  repeat (apply andb_prop in V; destruct V as [?V V]).
  repeat match goal with
         | Hx : ltb 0 _ = true |- _ => apply ltb_true in Hx
         end.
  destruct (detectCrossover_some _ _ _ _ _ _ _ D) as [_ Hdir].
  cbn [action]. repeat split; assumption.
Qed.

(** X17.  With candle data, nothing is signalled before the candle has
    closed on the clock, nor when the last price is 0.1% or more away
    from the candle's close: the signal is a HOLD without a crossover,
    whatever the prices did. *)
Theorem calculateSignals_waits_for_candle_close (this_timeframe : string) (now : Z)
    (prices : list Q) (maType : string) (maLength : nat) (candle : Candle) :
  let currentPrice := at_index prices (List.length prices - 1) in
  let signal :=
    calculateSignals this_timeframe now prices maType maLength (Some candle) in
  (now < getCandleEndTime this_timeframe (startTime candle))%Z
  \/ 0.001 <= Math_abs (currentPrice - candle_close candle) / currentPrice ->
  action signal = HOLD /\ signal_confidence signal = 0 /\ crossover signal = None.
Proof.
  cbv zeta. intro Hopen.
  assert (Hnot : validateCandleClose this_timeframe now (Some candle)
                   (at_index prices (List.length prices - 1)) = false).
  { unfold validateCandleClose. cbv zeta.
    destruct (getCandleEndTime this_timeframe (startTime candle) <=? now)%Z eqn:E;
      [|reflexivity].
    apply Z.leb_le in E. destruct Hopen as [Hopen|Hfar]; [lia|].
    apply ltb_false. exact Hfar. }
  unfold calculateSignals, hold.
  destruct (List.length prices <? maLength + 2)%nat; [repeat split|].
  destruct (String.eqb maType "" || (maLength =? 0)%nat)%bool; [repeat split|].
  destruct (calculateMA prices maType maLength) as [maValues|]; [|repeat split].
  destruct (List.length maValues <? 2)%nat; [repeat split|].
  cbv zeta.
  destruct (negb (validatePriceData _)); [repeat split|].
  rewrite Hnot. cbn [negb andb]. repeat split.
Qed.

End SignalsMore.

Lemma calculateSignals_crossover_witness :
  let prices := [10; 10; 10; 10; 10; 9; 8; 12] in
  let signal :=
    @StrategyOptimizer.calculateSignals Reference.indicators "5m" 0 prices "SMA" 5 None in
  StrategyOptimizer.action signal = StrategyOptimizer.BUY
  /\ exists maValues,
       @StrategyOptimizer.calculateMA Reference.indicators prices "SMA" 5 = Some maValues
       /\ StrategyOptimizer.at_index maValues (List.length maValues - 1) < 12.
Proof.
  intros prices signal.
  assert (B : StrategyOptimizer.action signal = StrategyOptimizer.BUY)
    by (vm_compute; reflexivity).
  split; [exact B|].
  destruct (@calculateSignals_crossover Reference.indicators "5m" 0%Z prices "SMA" 5%nat None)
    as (maValues & Hma & _ & _ & Hrel).
  - fold signal. rewrite B. discriminate.
  - exists maValues. split; [exact Hma|].
    cbv zeta in Hrel. destruct Hrel as (_ & _ & _ & _ & [(_ & _ & Hup)|(Hs & _)]).
    + exact Hup.
    + fold signal in Hs. rewrite B in Hs. discriminate.
Defined.

Lemma calculateSignals_well_formed_witness :
  let signal :=
    @StrategyOptimizer.calculateSignals Reference.indicators "5m" 0
      [10; 10; 10; 10; 10; 9; 8; 12] "SMA" 5 None in
  0 <= StrategyOptimizer.signal_confidence signal <= 100
  /\ StrategyOptimizer.valid signal = true.
Proof.
  intro signal.
  destruct (@calculateSignals_well_formed Reference.indicators "5m" 0%Z
              [10; 10; 10; 10; 10; 9; 8; 12] "SMA" 5%nat None) as (Hc & _ & Hv).
  split; [exact Hc|].
  apply Hv. vm_compute. discriminate.
Defined.

(** The prices that give a BUY without candle data give a HOLD while the
    five-minute candle that started at 0 is one second old. *)
Lemma calculateSignals_waits_for_candle_close_witness :
  let prices := [10; 10; 10; 10; 10; 9; 8; 12] in
  let candle := StrategyOptimizer.mkCandle 0 12 in
  StrategyOptimizer.action
    (@StrategyOptimizer.calculateSignals Reference.indicators "5m" 1000 prices "SMA" 5 None)
  = StrategyOptimizer.BUY
  /\ StrategyOptimizer.action
       (@StrategyOptimizer.calculateSignals Reference.indicators "5m" 1000 prices "SMA" 5
          (Some candle))
     = StrategyOptimizer.HOLD.
Proof.
  intros prices candle. split; [vm_compute; reflexivity|].
  apply (@calculateSignals_waits_for_candle_close Reference.indicators "5m" 1000%Z
           prices "SMA" 5%nat candle).
  left. vm_compute. reflexivity.
Defined.

(** ** Further properties of the trading loop *)

Section TradingLoopMore.

Import StrategyOptimizer BitFlowBot.
Context `{MathLib} `{TechnicalIndicators}.

(** The retry loop only logs and sleeps. *)
Lemma fetchWithRetry_quiet (f : Event -> bool) (env : TickEnv) (remaining retries : nat) :
  (forall n, f (RetryLog n) = false) ->
  (forall ms, f (Sleep ms) = false) ->
  existsb f (snd (fetchWithRetry env retries remaining)) = false.
Proof.
  intros Hlog Hsleep.
  revert retries. induction remaining as [|remaining IH]; intro retries; [reflexivity|].
  cbn [fetchWithRetry]. destruct (priceAttempt env retries) as [price|message];
    [reflexivity|].
  destruct (3 <=? S retries)%nat; [reflexivity|].
  specialize (IH (S retries)).
  destruct (fetchWithRetry env (S retries) remaining) as [r events].
  cbn [snd existsb] in *. rewrite Hlog, Hsleep, IH. reflexivity.
Qed.

Lemma fetchWithRetry_no_sell (env : TickEnv) :
  existsb isSellOrder (snd (fetchWithRetry env 0 3)) = false.
Proof. apply fetchWithRetry_quiet; reflexivity. Qed.

(** X18.  What the three attempts amount to: the price of the first attempt
    that succeeds, after one log and one two-second sleep per failure
    before it; or, when all three fail, the error of the third, thrown
    without a further sleep.  A fourth attempt is never made. *)
Theorem fetchWithRetry_three_attempts (env : TickEnv) :
  match fetchWithRetry env 0 3 with
  | (Ok price, events) =>
      exists k, (k < 3)%nat
        /\ priceAttempt env k = Ok price
        /\ (forall j, (j < k)%nat -> exists message, priceAttempt env j = Throw message)
        /\ events = flat_map (fun j => [RetryLog (S j); Sleep 2000%N]) (seq 0 k)
  | (Throw message, events) =>
      priceAttempt env 2 = Throw message
      /\ (forall j, (j < 3)%nat -> exists message', priceAttempt env j = Throw message')
      /\ events = [RetryLog 1; Sleep 2000%N; RetryLog 2; Sleep 2000%N]
  end.
Proof.
  cbn [fetchWithRetry Nat.leb].
  destruct (priceAttempt env 0) as [p0|m0] eqn:E0.
  { exists 0%nat. split; [lia|]. split; [exact E0|]. split; [intros j Hj; lia | reflexivity]. }
  destruct (priceAttempt env 1) as [p1|m1] eqn:E1.
  { exists 1%nat. split; [lia|]. split; [exact E1|]. split; [|reflexivity].
    intros j Hj. assert (j = 0%nat) as -> by lia. eexists; exact E0. }
  destruct (priceAttempt env 2) as [p2|m2] eqn:E2.
  { exists 2%nat. split; [lia|]. split; [exact E2|]. split; [|reflexivity].
    intros j Hj. destruct j as [|[|j]]; [eexists; exact E0 | eexists; exact E1 | lia]. }
  split; [reflexivity|]. split; [|reflexivity].
  intros j Hj. destruct j as [|[|[|j]]];
    [eexists; exact E0 | eexists; exact E1 | eexists; exact E2 | lia].
Qed.

Lemma fetchWithRetry_no_orders (env : TickEnv) :
  existsb isOrder (snd (fetchWithRetry env 0 3)) = false.
Proof. apply fetchWithRetry_quiet; reflexivity. Qed.

Lemma catch_no_orders (st : LoopState) (message : string) :
  existsb isOrder (snd (catch st message)) = false.
Proof.
  unfold catch.
  destruct (includes message "Failed to get" || includes message "Request failed");
    reflexivity.
Qed.

(** Events without an order: no buy, no sell, nothing to count. *)
Lemma no_orders (events : list Event) :
  existsb isOrder events = false ->
  existsb isBuyOrder events = false
  /\ existsb isSellOrder events = false
  /\ filter isOrder events = [].
Proof.
  induction events as [|e events IH]; [repeat split|].
  cbn [existsb filter]. unfold isOrder at 1 3.
  destruct (isBuyOrder e); [discriminate|]. destruct (isSellOrder e); [discriminate|].
  cbn [orb]. exact IH.
Qed.

(** The orders of a pass are those of its trading part. *)
Lemma orders_of_pass (before ready events after : list Event) :
  existsb isOrder before = false ->
  existsb isOrder ready = false ->
  existsb isOrder after = false ->
  filter isOrder (before ++ ready ++ events ++ after) = filter isOrder events
  /\ existsb isBuyOrder (before ++ ready ++ events ++ after) = existsb isBuyOrder events
  /\ existsb isSellOrder (before ++ ready ++ events ++ after) = existsb isSellOrder events.
Proof.
  intros Hb Hr Ha.
  destruct (no_orders _ Hb) as (Hb1 & Hb2 & Hb3).
  destruct (no_orders _ Hr) as (Hr1 & Hr2 & Hr3).
  destruct (no_orders _ Ha) as (Ha1 & Ha2 & Ha3).
  rewrite !filter_app, !existsb_app, Hb1, Hb2, Hb3, Hr1, Hr2, Hr3, Ha1, Ha2, Ha3.
  cbn [app orb]. rewrite app_nil_r, !orb_false_r. repeat split.
Qed.

(** The exit branch: a sell is submitted only for the open position, in
    full, when the price has reached its take profit or its stop loss. *)
Lemma trade_sell (this : t) (env : TickEnv) (signal : Signal) (currentPrice : Q)
    (isAbove : bool) (position : option Position) (previous : option PriceVsMA)
    (symbol : string) (quantity' : Q) :
  In (ExecuteSellOrder symbol quantity')
     (snd (trade this env signal currentPrice isAbove position previous)) ->
  exists pos,
    position = Some pos
    /\ symbol = currentSymbol this
    /\ quantity' = quantity pos
    /\ (takeProfit pos <= currentPrice \/ currentPrice <= stopLoss pos).
Proof.
  unfold trade. cbv zeta.
  destruct (_ && (_ || _))%bool.
  { destruct (_ && _ && _)%bool; cbn [snd In]; intro Hin; exfalso;
      intuition discriminate. }
  destruct (_ && _ && _)%bool.
  { destruct (buyParameters this currentPrice) as [[[sl tp] ps]|thrown];
      [destruct (success (buyResult env))|]; cbn [snd In]; intro Hin; exfalso;
      intuition discriminate. }
  destruct position as [pos|]; [|intros []].
  destruct (leb (takeProfit pos) currentPrice || leb currentPrice (stopLoss pos))%bool eqn:Hit;
    [|intros []].
  assert (Hhit : takeProfit pos <= currentPrice \/ currentPrice <= stopLoss pos).
  { apply orb_prop in Hit. destruct Hit as [Hit|Hit]; apply leb_true in Hit; auto. }
  destruct (success (sellResult env)); cbn [snd In];
    (intros [E|[E|[E|[]]]]; try discriminate E);
    injection E as <- <-; exists pos; repeat split; assumption.
Qed.

(** How [trade] moves the position: it calls the order manager at most
    once; a buy is only attempted from no position and a sell only from
    an open one; the position changes exactly when the order is reported
    filled; a [throw] comes before any order. *)
Lemma trade_position (this : t) (env : TickEnv) (signal : Signal) (currentPrice : Q)
    (isAbove : bool) (position : option Position) (previous : option PriceVsMA) :
  let out := trade this env signal currentPrice isAbove position previous in
  let bought := existsb isBuyOrder (snd out) in
  let sold := existsb isSellOrder (snd out) in
  (List.length (filter isOrder (snd out)) <= 1)%nat
  /\ (bought && sold = false)%bool
  /\ match fst out with
     | Throw _ => bought = false /\ sold = false
     | Ok position' =>
         (bought = false -> sold = false -> position' = position)
         /\ (bought = true ->
             position = None
             /\ if success (buyResult env)
                then exists p, position' = Some p /\ entryPrice p = currentPrice
                               /\ orderId p = result_orderId (buyResult env)
                else position' = None)
         /\ (sold = true ->
             exists pos, position = Some pos
                         /\ position' = if success (sellResult env) then None else Some pos)
     end.
Proof.
  unfold trade. cbv zeta.
  destruct (_ && (_ || _))%bool.
  { destruct (_ && _ && _)%bool;
      cbn [fst snd existsb isBuyOrder isSellOrder isOrder orb andb filter List.length];
      repeat split; try reflexivity; try discriminate; lia. }
  destruct (_ && match position with None => true | Some _ => false end && _)%bool eqn:W.
  { apply andb_prop in W. destruct W as [W _]. apply andb_prop in W. destruct W as [_ Hn].
    assert (position = None) as -> by (destruct position; [discriminate | reflexivity]).
    destruct (buyParameters this currentPrice) as [[[sl tp] ps]|thrown];
      [destruct (success (buyResult env))|];
      cbn [fst snd existsb isBuyOrder isSellOrder isOrder orb andb filter List.length];
      repeat split; try reflexivity; try discriminate; try lia.
    eexists. repeat split; reflexivity. }
  destruct position as [pos|];
    [|cbn; repeat split; try reflexivity; try discriminate; lia].
  destruct (_ || _)%bool;
    [|cbn; repeat split; try reflexivity; try discriminate; lia].
  destruct (success (sellResult env));
    cbn [fst snd existsb isBuyOrder isSellOrder isOrder orb andb filter List.length];
    repeat split; try reflexivity; try discriminate; try lia;
    intros _; exists pos; split; reflexivity.
Qed.

(** Case analysis of one pass through the loop by [tick_cases]. *)
Ltac by_tick_cases this st env :=
  pattern (fst (tick this st env)), (snd (tick this st env));
  apply tick_cases; cbv beta zeta.

(** The variables the [catch] leaves alone. *)
Ltac catch_facts message :=
  match goal with
  | |- context [catch ?s message] =>
      pose proof (catch_no_orders s message) as Korders;
      destruct (catch_keeps s message)
        as (Kposition & Khistory & Kcount & Kprevious & Kticks & Kcomplete & Kbuy & Ksell);
      cbn [position priceHistory checkCount previousPriceVsMA initializationWaitTicks
           initializationComplete] in Kposition, Khistory, Kcount, Kprevious, Kticks,
                                      Kcomplete
  end.

Ltac nat_facts :=
  repeat match goal with
         | H : (_ <? _)%nat = true |- _ => apply Nat.ltb_lt in H
         | H : (_ <? _)%nat = false |- _ => apply Nat.ltb_ge in H
         end.

(** The two tests on the countdown, as facts on numbers. *)
Ltac countdown_facts st :=
  match goal with
  | W : ((0 <? initializationWaitTicks st)%nat && _)%bool = _ |- _ =>
      destruct (0 <? initializationWaitTicks st)%nat eqn:Hwait;
      cbn [andb] in W; nat_facts
  end.

(** No position is held before the countdown is over. *)
Lemma initializing_no_position (this : t) (st : LoopState) :
  reachable this st ->
  (0 < initializationWaitTicks st)%nat -> position st = None.
Proof.
  induction 1 as [|st env Hr IH]; [reflexivity|].
  by_tick_cases this st env.
  - intros _. exact IH.
  - intros message fetchEvents _ _. catch_facts message.
    rewrite Kposition, Kticks. exact IH.
  - intros currentPrice fetchEvents _ _. split; [intros _; exact IH|]. split.
    + intros recorded _ W. cbn [position initializationWaitTicks].
      countdown_facts st; [|discriminate]. intros _. apply IH. exact Hwait.
    + intros recorded _ W. split.
      * intros position' events' _. cbn [position initializationWaitTicks].
        countdown_facts st; lia.
      * intros message events' _. catch_facts message. rewrite Kposition, Kticks.
        countdown_facts st; lia.
Qed.

(** Initialization gating: while countdown ticks remain, or before the
    baseline tick, an iteration submits no order at all, neither buy nor
    sell, whatever the prices. *)
Lemma no_order_while_initializing (this : t) (st : LoopState) (env : TickEnv) :
  reachable this st ->
  (0 < initializationWaitTicks st)%nat \/ previousPriceVsMA st = None ->
  existsb isBuyOrder (snd (tick this st env)) = false
  /\ existsb isSellOrder (snd (tick this st env)) = false.
Proof.
  intros Hr Hinit.
  pose proof (initializing_no_position this st Hr) as Hnone.
  pose proof (fetchWithRetry_no_orders env) as Hfetch.
  assert (Hquiet : forall events,
             existsb isOrder events = false ->
             existsb isBuyOrder events = false /\ existsb isSellOrder events = false).
  { intros events Hno. destruct (no_orders _ Hno) as (Hb & Hs & _). split; assumption. }
  by_tick_cases this st env.
  - intros _. split; reflexivity.
  - intros message fetchEvents _ F. rewrite F in Hfetch. cbn [snd] in Hfetch.
    catch_facts message. apply Hquiet. rewrite existsb_app, Hfetch, Korders. reflexivity.
  - intros currentPrice fetchEvents _ F. rewrite F in Hfetch. cbn [snd] in Hfetch.
    split; [intros _; apply Hquiet; rewrite existsb_app, Hfetch; reflexivity|].
    split; [intros recorded _ _; apply Hquiet; rewrite existsb_app, Hfetch; reflexivity|].
    intros recorded Hrec W.
    destruct Hinit as [Hinit|Hinit]; [|congruence].
    countdown_facts st; [|lia].
    specialize (Hnone Hinit). rewrite Hnone. split.
    + intros position' events' T.
      match type of T with
      | trade ?a ?b ?c ?d ?e ?f ?g = _ =>
          pose proof (trade_buy a b c d e f g) as Hbuy;
          pose proof (trade_position a b c d e f g) as Hpos
      end.
      cbv zeta in Hpos. rewrite T in Hbuy, Hpos. cbn [fst snd] in Hbuy, Hpos.
      destruct Hpos as (_ & _ & _ & _ & Hsold).
      destruct (orders_of_pass fetchEvents [ReadyLog (relation
                  (ltb (calculateCurrentMA this
                          (if (1000 <? List.length (priceHistory st ++ [currentPrice]))%nat
                           then tl (priceHistory st ++ [currentPrice])
                           else priceHistory st ++ [currentPrice])) currentPrice)
                  (ltb currentPrice (calculateCurrentMA this
                          (if (1000 <? List.length (priceHistory st ++ [currentPrice]))%nat
                           then tl (priceHistory st ++ [currentPrice])
                           else priceHistory st ++ [currentPrice]))))]
                  events' [Sleep 30000%N] Hfetch eq_refl eq_refl) as (_ & -> & ->).
      split.
      * destruct (existsb isBuyOrder events'); [|reflexivity].
        destruct (Hbuy eq_refl) as (_ & _ & Hp & Ha). injection Hp as Hrel.
        unfold relation in Hrel. rewrite Ha in Hrel. discriminate Hrel.
      * destruct (existsb isSellOrder events'); [|reflexivity].
        destruct (Hsold eq_refl) as (pos & Hp & _). discriminate Hp.
    + intros message events' T.
      destruct (trade_throw _ _ _ _ _ _ _ _ _ T) as (-> & _ & _).
      catch_facts message. apply Hquiet.
      rewrite !existsb_app, Hfetch, Korders. reflexivity.
Qed.

(** X20.  A sell order is submitted only for the open position and in full,
    in an iteration whose fetched price has reached the position's take
    profit or stop loss. *)
Theorem sell_only_on_exit_hit (this : t) (st : LoopState) (env : TickEnv)
    (symbol : string) (quantity' : Q) :
  In (ExecuteSellOrder symbol quantity') (snd (tick this st env)) ->
  exists pos price,
    position st = Some pos
    /\ fst (fetchWithRetry env 0 3) = Ok price
    /\ symbol = currentSymbol this
    /\ quantity' = quantity pos
    /\ (takeProfit pos <= price \/ price <= stopLoss pos).
Proof.
  pose proof (fetchWithRetry_no_orders env) as Hfetch.
  assert (Hnot : forall events, existsb isOrder events = false ->
                                ~ In (ExecuteSellOrder symbol quantity') events).
  { intros events Hex Hin.
    assert (existsb isOrder events = true)
      by (apply existsb_exists; eexists; split; [exact Hin | reflexivity]).
    congruence. }
  by_tick_cases this st env.
  - intros _ [].
  - intros message fetchEvents _ F. rewrite F in Hfetch. cbn [snd] in Hfetch.
    catch_facts message. intro Hin. exfalso. revert Hin. apply Hnot.
    rewrite existsb_app, Hfetch, Korders. reflexivity.
  - intros currentPrice fetchEvents _ F. rewrite F in Hfetch |- *. cbn [fst snd] in Hfetch |- *.
    split; [intros _ Hin; exfalso; revert Hin; apply Hnot;
            rewrite existsb_app, Hfetch; reflexivity|].
    split; [intros recorded _ _ Hin; exfalso; revert Hin; apply Hnot;
            rewrite existsb_app, Hfetch; reflexivity|].
    intros recorded _ _. split.
    + intros position' events' T Hin.
      match type of T with
      | trade ?a ?b ?c ?d ?e ?f ?g = _ =>
          pose proof (trade_sell a b c d e f g symbol quantity') as Hsell
      end.
      rewrite T in Hsell. cbn [snd] in Hsell.
      apply in_app_or in Hin. destruct Hin as [Hin|Hin];
        [exfalso; exact (Hnot _ Hfetch Hin)|].
      apply in_app_or in Hin. destruct Hin as [Hin|Hin].
      { exfalso. revert Hin. apply Hnot.
        destruct (0 <? initializationWaitTicks st)%nat; reflexivity. }
      apply in_app_or in Hin. destruct Hin as [Hin|Hin];
        [|exfalso; revert Hin; apply Hnot; reflexivity].
      destruct (Hsell Hin) as (pos & Hp & Hs & Hq & Hhit).
      exists pos, currentPrice. repeat split; assumption.
    + intros message events' T.
      destruct (trade_throw _ _ _ _ _ _ _ _ _ T) as (-> & _ & _).
      catch_facts message. intro Hin. exfalso. revert Hin. apply Hnot.
      rewrite !existsb_app, Hfetch, Korders.
      destruct (0 <? initializationWaitTicks st)%nat; reflexivity.
Qed.

(** X21.  The order manager is called at most once per iteration, and the
    position moves only with that call: without an order it stays as it
    was; a buy goes out only from no position, opening one at the fetched
    price when it is filled; a sell goes out only from an open position,
    closing it when it is filled and keeping it otherwise. *)
Theorem one_order_per_tick (this : t) (st : LoopState) (env : TickEnv) :
  let out := tick this st env in
  let orders := filter isOrder (snd out) in
  let bought := existsb isBuyOrder (snd out) in
  let sold := existsb isSellOrder (snd out) in
  (List.length orders <= 1)%nat
  /\ (bought && sold = false)%bool
  /\ (orders = [] -> position (fst out) = position st)
  /\ (bought = false -> sold = false -> position (fst out) = position st)
  /\ (bought = true ->
      position st = None
      /\ if success (buyResult env)
         then exists p, position (fst out) = Some p
                        /\ fst (fetchWithRetry env 0 3) = Ok (entryPrice p)
                        /\ orderId p = result_orderId (buyResult env)
         else position (fst out) = None)
  /\ (sold = true ->
      exists pos, position st = Some pos
                  /\ position (fst out)
                     = if success (sellResult env) then None else Some pos).
Proof.
  pose proof (fetchWithRetry_no_orders env) as Hfetch.
  cbv zeta.
  pattern (fst (tick this st env)), (snd (tick this st env)).
  match goal with |- ?P _ _ => set (claim := P) end.
  assert (Hquiet : forall st' events,
             existsb isOrder events = false -> position st' = position st ->
             claim st' events).
  { intros st' events Hno Hp. subst claim. cbv beta.
    destruct (no_orders _ Hno) as (-> & -> & ->). rewrite Hp. cbn [List.length andb].
    repeat split; try reflexivity; try discriminate. lia. }
  apply tick_cases; cbv zeta.
  - intros _. apply Hquiet; reflexivity.
  - intros message fetchEvents _ F. rewrite F in Hfetch. cbn [snd] in Hfetch.
    catch_facts message. apply Hquiet; [|exact Kposition].
    rewrite existsb_app, Hfetch, Korders. reflexivity.
  - intros currentPrice fetchEvents _ F. rewrite F in Hfetch. cbn [snd] in Hfetch.
    split; [intros _; apply Hquiet; [rewrite existsb_app, Hfetch|]; reflexivity|].
    split; [intros recorded _ _; apply Hquiet; [rewrite existsb_app, Hfetch|];
            reflexivity|].
    intros recorded _ _. split.
    + intros position' events' T.
      match type of T with
      | trade ?a ?b ?c ?d ?e ?f ?g = _ => pose proof (trade_position a b c d e f g) as Hpos
      end.
      cbv zeta in Hpos. rewrite T in Hpos. cbn [fst snd] in Hpos.
      destruct Hpos as (Hone & Hnot & Hkeep & Hbuy & Hsell).
      subst claim. cbv beta. cbn [position].
      match goal with
      | |- context [fetchEvents ++ ?ready ++ events' ++ ?after] =>
          destruct (orders_of_pass fetchEvents ready events' after Hfetch)
            as (-> & -> & ->);
          [destruct (0 <? initializationWaitTicks st)%nat; reflexivity | reflexivity |]
      end.
      split; [exact Hone|]. split; [exact Hnot|].
      split.
      { intro Hnil.
        assert (Hb : existsb isBuyOrder events' = false).
        { destruct (existsb isBuyOrder events') eqn:E; [|reflexivity].
          apply existsb_exists in E. destruct E as (e & Hin & He).
          assert (Hf : In e (filter isOrder events')).
          { apply filter_In. split; [exact Hin|]. unfold isOrder. rewrite He. reflexivity. }
          rewrite Hnil in Hf. destruct Hf. }
        assert (Hs : existsb isSellOrder events' = false).
        { destruct (existsb isSellOrder events') eqn:E; [|reflexivity].
          apply existsb_exists in E. destruct E as (e & Hin & He).
          assert (Hf : In e (filter isOrder events')).
          { apply filter_In. split; [exact Hin|]. unfold isOrder. rewrite He.
            apply orb_true_r. }
          rewrite Hnil in Hf. destruct Hf. }
        exact (Hkeep Hb Hs). }
      split; [exact Hkeep|]. split; [|exact Hsell].
      intro Hb. destruct (Hbuy Hb) as [Hnone Hres]. split; [exact Hnone|].
      rewrite F. cbn [fst].
      destruct (success (buyResult env)); [|exact Hres].
      destruct Hres as (p & Hp & He & Ho). exists p. rewrite He.
      repeat split; assumption.
    + intros message events' T.
      destruct (trade_throw _ _ _ _ _ _ _ _ _ T) as (-> & _ & _).
      catch_facts message. apply Hquiet; [|exact Kposition].
      rewrite !existsb_app, Hfetch, Korders.
      destruct (0 <? initializationWaitTicks st)%nat; reflexivity.
Qed.

(** The rolling window of prices: pushing a price and dropping the oldest
    one when the window then holds more than 1000. *)
Lemma window_length (prices : list Q) (price : Q) :
  List.length (if (1000 <? List.length (prices ++ [price]))%nat
               then tl (prices ++ [price]) else prices ++ [price])
  = if (List.length prices <? 1000)%nat then S (List.length prices)
    else List.length prices.
Proof.
  assert (L : List.length (prices ++ [price]) = S (List.length prices)).
  { rewrite length_app. change (List.length [price]) with 1%nat. lia. }
  destruct (Nat.ltb_spec 1000 (List.length (prices ++ [price]))) as [Hlong|Hshort];
    destruct (Nat.ltb_spec (List.length prices) 1000) as [Hroom|Hfull]; try lia.
  destruct prices as [|p prices];
    [exfalso; change (1000 <= 0)%nat in Hfull; lia|].
  change (List.length (prices ++ [price]) = S (List.length prices)).
  rewrite length_app. change (List.length [price]) with 1%nat. lia.
Qed.

(** X22.  The price window never shrinks and never grows past 1000 entries,
    unless the historical data already held more: then it keeps that
    length for ever. *)
Theorem priceHistory_window (this : t) (st : LoopState) :
  reachable this st ->
  (List.length (historicalData this) <= List.length (priceHistory st)
   <= Nat.max 1000 (List.length (historicalData this)))%nat.
Proof.
  induction 1 as [|st env Hr IH].
  - cbn [start priceHistory]. rewrite length_map. lia.
  - assert (Hwindow : forall price,
               (List.length (historicalData this)
                <= List.length
                     (if (1000 <? List.length (priceHistory st ++ [price]))%nat
                      then tl (priceHistory st ++ [price]) else priceHistory st ++ [price])
                <= Nat.max 1000 (List.length (historicalData this)))%nat).
    { intro price. rewrite window_length.
      destruct (Nat.ltb_spec (List.length (priceHistory st)) 1000); lia. }
    by_tick_cases this st env.
    + intros _. exact IH.
    + intros message fetchEvents _ _. catch_facts message. rewrite Khistory. exact IH.
    + intros currentPrice fetchEvents _ _.
      split; [intros _; apply Hwindow|].
      split; [intros recorded _ _; apply Hwindow|].
      intros recorded _ _. split.
      * intros position' events' _. apply Hwindow.
      * intros message events' _. catch_facts message. rewrite Khistory. apply Hwindow.
Qed.

(** Once [isRunning] is off the loop body is never entered again. *)
Lemma run_stopped (this : t) (st : LoopState) (envs : list TickEnv) :
  isRunning st = false -> run this st envs = (st, []).
Proof.
  intro Hoff. induction envs as [|env rest IH]; [reflexivity|].
  cbn [run]. unfold tick. rewrite Hoff. cbn [negb]. rewrite IH. reflexivity.
Qed.

(** X23.  When the three attempts to fetch the price fail, the pass submits no
    order and leaves position, price window, recorded relation and
    countdown as they were.  A message with 'Failed to get' or 'Request
    failed' ends the run on the spot, an open position staying open;
    any other is followed by a five-second sleep and the next pass. *)
Theorem price_fetch_failure (this : t) (st : LoopState) (env : TickEnv)
    (message : string) :
  isRunning st = true ->
  fst (fetchWithRetry env 0 3) = Throw message ->
  let fatal := (includes message "Failed to get" || includes message "Request failed")%bool in
  let st' := fst (tick this st env) in
  let events := snd (tick this st env) in
  position st' = position st
  /\ priceHistory st' = priceHistory st
  /\ previousPriceVsMA st' = previousPriceVsMA st
  /\ initializationWaitTicks st' = initializationWaitTicks st
  /\ existsb isBuyOrder events = false
  /\ existsb isSellOrder events = false
  /\ last events (Sleep 0) = (if fatal then ProcessExit 1 else Sleep 5000%N)
  /\ (fatal = true -> forall envs, run this st (env :: envs) = (st', events)).
Proof.
  intros Hon Hthrow. cbv zeta.
  pose proof (fetchWithRetry_no_order env 3 0) as Hfb.
  pose proof (fetchWithRetry_no_sell env) as Hfs.
  assert (Hlast : forall (l : list Event) a b d, last (l ++ [a; b]) d = b).
  { intros l a b d. replace (l ++ [a; b]) with ((l ++ [a]) ++ [b])
      by (rewrite <- app_assoc; reflexivity). apply last_last. }
  assert (Hrun : forall envs, isRunning (fst (tick this st env)) = false ->
            run this st (env :: envs) = (fst (tick this st env), snd (tick this st env))).
  { intros envs Hoff. cbn [run]. destruct (tick this st env) as [st' events].
    cbn [fst snd] in *. rewrite (run_stopped this st' envs Hoff).
    rewrite app_nil_r. reflexivity. }
  revert Hrun. unfold tick. rewrite Hon. cbn [negb]. cbv zeta.
  destruct (fetchWithRetry env 0 3) as [[price|message'] fetchEvents];
    cbn [fst snd] in *; [discriminate Hthrow|].
  injection Hthrow as ->. unfold catch.
  destruct (includes message "Failed to get" || includes message "Request failed")%bool;
    cbn [fst snd position priceHistory previousPriceVsMA initializationWaitTicks isRunning];
    intro Hrun; rewrite !existsb_app, Hfb, Hfs, Hlast;
    repeat split; try reflexivity; try discriminate.
  intros _ envs. apply Hrun. reflexivity.
Qed.

(** What is left of the initialization: the baseline tick, if still to
    come, and the countdown.  One pass takes at most one off it. *)
Lemma pending_step (this : t) (st : LoopState) (env : TickEnv) :
  ((match previousPriceVsMA st with None => 1 | Some _ => 0 end
    + initializationWaitTicks st)
   <= S (match previousPriceVsMA (fst (tick this st env)) with None => 1 | Some _ => 0 end
         + initializationWaitTicks (fst (tick this st env))))%nat.
Proof.
  by_tick_cases this st env.
  - intros _. lia.
  - intros message fetchEvents _ _. catch_facts message. rewrite Kprevious, Kticks. lia.
  - intros currentPrice fetchEvents _ _.
    split; [intros ->; cbn [previousPriceVsMA initializationWaitTicks]; lia|].
    split.
    + intros recorded -> W. cbn [previousPriceVsMA initializationWaitTicks].
      countdown_facts st; lia.
    + intros recorded -> W. split.
      * intros position' events' _. cbn [previousPriceVsMA initializationWaitTicks].
        countdown_facts st; lia.
      * intros message events' _. catch_facts message. rewrite Kprevious, Kticks.
        countdown_facts st; lia.
Qed.

Lemma run_no_order_while_pending (this : t) (envs : list TickEnv) (st : LoopState) :
  reachable this st ->
  (List.length envs
   <= match previousPriceVsMA st with None => 1 | Some _ => 0 end
      + initializationWaitTicks st)%nat ->
  existsb isBuyOrder (snd (run this st envs)) = false
  /\ existsb isSellOrder (snd (run this st envs)) = false.
Proof.
  revert st. induction envs as [|env rest IH]; intros st Hr Hlen;
    [split; reflexivity|].
  cbn [List.length] in Hlen. cbn [run].
  pose proof (reachable_tick this st env Hr) as Hr'.
  pose proof (pending_step this st env) as Hstep.
  destruct (no_order_while_initializing this st env Hr) as [Hb Hs].
  { destruct (previousPriceVsMA st); [left; cbn in Hlen; lia | right; reflexivity]. }
  destruct (tick this st env) as [st' events]. cbn [fst snd] in *.
  destruct (IH st' Hr') as [Hb' Hs']; [lia|].
  destruct (run this st' rest) as [st'' events']. cbn [snd] in *.
  rewrite !existsb_app, Hb, Hs, Hb', Hs'. split; reflexivity.
Qed.

(** X19.  The first eleven passes of the loop, the baseline tick and the ten
    ticks of the countdown, submit no order, whatever prices and errors
    the world answers with. *)
Theorem no_order_in_first_eleven_ticks (this : t) (envs : list TickEnv) :
  (List.length envs <= 11)%nat ->
  existsb isBuyOrder (snd (run this (start this) envs)) = false
  /\ existsb isSellOrder (snd (run this (start this) envs)) = false.
Proof.
  intro Hlen. apply run_no_order_while_pending; [apply reachable_start|].
  cbn [start previousPriceVsMA initializationWaitTicks]. lia.
Qed.

(** Under high volatility on 1m and 5m the whole order block is skipped,
    the exit as well as the buy. *)
Lemma trade_high_volatility (this : t) (env : TickEnv) (signal : Signal)
    (currentPrice : Q) (isAbove : bool) (position : option Position)
    (previous : option PriceVsMA) :
  currentTimeframe this = "1m" \/ currentTimeframe this = "5m" ->
  maxVolatilityThreshold (currentTimeframe this)
  < calculateVolatility (slice_last 50 (historicalData this)) ->
  fst (trade this env signal currentPrice isAbove position previous) = Ok position
  /\ existsb isOrder
       (snd (trade this env signal currentPrice isAbove position previous)) = false.
Proof.
  intros Htf Hvol. apply ltb_true in Hvol.
  assert (F : (String.eqb (currentTimeframe this) "1m"
               || String.eqb (currentTimeframe this) "5m")%bool = true).
  { destruct Htf as [-> | ->]; reflexivity. }
  unfold trade. cbv zeta. rewrite Hvol, F. cbn [andb fst snd].
  split; [reflexivity|].
  destruct (_ && _ && _)%bool; reflexivity.
Qed.

(** Under high volatility on 1m and 5m a pass of the loop, from any
    values of its variables, calls the order manager for nothing and
    leaves the position as it is. *)
Lemma tick_high_volatility (this : t) (st : LoopState) (env : TickEnv) :
  currentTimeframe this = "1m" \/ currentTimeframe this = "5m" ->
  maxVolatilityThreshold (currentTimeframe this)
  < calculateVolatility (slice_last 50 (historicalData this)) ->
  position (fst (tick this st env)) = position st
  /\ existsb isOrder (snd (tick this st env)) = false.
Proof.
  intros Htf Hvol.
  pose proof (fetchWithRetry_no_orders env) as Hfetch.
  by_tick_cases this st env.
  - intros _. split; reflexivity.
  - intros message fetchEvents _ F. rewrite F in Hfetch. cbn [snd] in Hfetch.
    catch_facts message. split; [exact Kposition|].
    rewrite existsb_app, Hfetch, Korders. reflexivity.
  - intros currentPrice fetchEvents _ F. rewrite F in Hfetch. cbn [snd] in Hfetch.
    split; [intros _; split; [|rewrite existsb_app, Hfetch]; reflexivity|].
    split; [intros recorded _ _; split; [|rewrite existsb_app, Hfetch]; reflexivity|].
    intros recorded _ _.
    split.
    + intros position' events' T.
      match type of T with
      | trade ?a ?b ?c ?d ?e ?f ?g = _ =>
          destruct (trade_high_volatility a b c d e f g Htf Hvol) as [Hp Hno]
      end.
      rewrite T in Hp, Hno. cbn [fst snd] in Hp, Hno. injection Hp as ->.
      split; [reflexivity|].
      rewrite !existsb_app, Hfetch, Hno.
      destruct (0 <? initializationWaitTicks st)%nat; reflexivity.
    + intros message events' T.
      match type of T with
      | trade ?a ?b ?c ?d ?e ?f ?g = _ =>
          destruct (trade_high_volatility a b c d e f g Htf Hvol) as [Hp _]
      end.
      rewrite T in Hp. discriminate Hp.
Qed.

(** X24.  The volatility filter reads [historicalData], which the loop
    never writes.  On 1m and 5m, where the bars loaded before the loop
    show a volatility above the threshold, the loop therefore never
    trades: however long it runs and whatever the prices, it submits no
    order, neither buy nor sell, and never holds a position. *)
Theorem high_volatility_suspends_trading (this : t) (envs : list TickEnv) :
  currentTimeframe this = "1m" \/ currentTimeframe this = "5m" ->
  maxVolatilityThreshold (currentTimeframe this)
  < calculateVolatility (slice_last 50 (historicalData this)) ->
  let out := run this (start this) envs in
  position (fst out) = None
  /\ existsb isBuyOrder (snd out) = false
  /\ existsb isSellOrder (snd out) = false.
Proof.
  intros Htf Hvol. cbv zeta.
  assert (Hrun : forall st,
             position (fst (run this st envs)) = position st
             /\ existsb isOrder (snd (run this st envs)) = false).
  { induction envs as [|env rest IH]; intro st; [split; reflexivity|].
    cbn [run]. destruct (tick_high_volatility this st env Htf Hvol) as [Hp Hno].
    destruct (tick this st env) as [st' events]. cbn [fst snd] in Hp, Hno.
    destruct (IH st') as [Hp' Hno'].
    destruct (run this st' rest) as [st'' events']. cbn [fst snd] in *.
    split; [congruence|]. rewrite existsb_app, Hno, Hno'. reflexivity. }
  destruct (Hrun (start this)) as [Hp Hno].
  destruct (no_orders _ Hno) as (Hb & Hs & _).
  split; [exact Hp|]. split; assumption.
Qed.



End TradingLoopMore.

Section TradingLoopMoreExamples.

Import StrategyOptimizer BitFlowBot Examples.

(** Two failed attempts, then a price: two logs, two sleeps, the price. *)
Lemma fetchWithRetry_three_attempts_witness :
  let env := mkEnv (fun k => if (k <? 2)%nat then Throw "timeout" else Ok 42)
                   (mkOrderResult true 1) (mkOrderResult true 2) in
  fetchWithRetry env 0 3
  = (Ok 42, [RetryLog 1; Sleep 2000%N; RetryLog 2; Sleep 2000%N])
  /\ exists k, (k < 3)%nat /\ priceAttempt env k = Ok 42.
Proof.
  intro env. split; [reflexivity|].
  pose proof (fetchWithRetry_three_attempts env) as Hthree.
  change (fetchWithRetry env 0 3)
    with (@Ok Q 42, [RetryLog 1; Sleep 2000%N; RetryLog 2; Sleep 2000%N]) in Hthree.
  destruct Hthree as (k & Hk & Hprice & _). exists k. split; assumption.
Defined.

(** The run of [descent], the buy at 95 with its take profit at 97.85,
    then a price of 98: the position is sold in full. *)
Lemma sell_only_on_exit_hit_witness :
  let this := demoBot "5m" (steadyBars 20) in
  let st := fst (@run Reference.math Reference.indicators this (start this)
                      (descent ++ [priceTick 95])) in
  let next := @tick Reference.math Reference.indicators this st (priceTick 98) in
  In (ExecuteSellOrder "BTC/USD" 0.001) (snd next)
  /\ exists pos price,
       position st = Some pos
       /\ fst (fetchWithRetry (priceTick 98) 0 3) = Ok price
       /\ "BTC/USD" = currentSymbol this
       /\ 0.001 = quantity pos
       /\ (takeProfit pos <= price \/ price <= stopLoss pos).
Proof.
  intros this st next.
  assert (Hsold : In (ExecuteSellOrder "BTC/USD" 0.001) (snd next)).
  { vm_compute. right. left. reflexivity. }
  split; [exact Hsold|].
  exact (@sell_only_on_exit_hit Reference.math Reference.indicators
           this st (priceTick 98) "BTC/USD" 0.001 Hsold).
Defined.

(** The same run: the buy is the only order of its tick and opens the
    position at the fetched price. *)
Lemma one_order_per_tick_witness :
  let this := demoBot "5m" (steadyBars 20) in
  let st := fst (@run Reference.math Reference.indicators this (start this) descent) in
  let next := @tick Reference.math Reference.indicators this st (priceTick 95) in
  existsb isBuyOrder (snd next) = true
  /\ (List.length (filter isOrder (snd next)) <= 1)%nat
  /\ existsb isSellOrder (snd next) = false
  /\ position st = None
  /\ exists p, position (fst next) = Some p /\ Ok (entryPrice p) = @Ok Q 95.
Proof.
  intros this st next.
  assert (B : existsb isBuyOrder (snd next) = true) by (vm_compute; reflexivity).
  destruct (@one_order_per_tick Reference.math Reference.indicators
              this st (priceTick 95)) as (Hcount & Hone & _ & _ & Hbuy & _).
  fold next in Hcount, Hone, Hbuy.
  rewrite B in Hone. cbn [andb] in Hone.
  destruct (Hbuy B) as [Hnone Hopen]. cbn [priceTick buyResult success] in Hopen.
  destruct Hopen as (p & Hp & He & _).
  repeat split; try assumption.
  exists p. split; [exact Hp|]. symmetry. exact He.
Defined.

(** After the eleven ticks of [descent], on twenty historical bars, the
    window holds between 20 and 1000 prices. *)
Lemma priceHistory_window_witness :
  let this := demoBot "5m" (steadyBars 20) in
  let st := fst (@run Reference.math Reference.indicators this (start this) descent) in
  (List.length (historicalData this) <= List.length (priceHistory st)
   <= Nat.max 1000 (List.length (historicalData this)))%nat.
Proof.
  intros this st.
  apply (@priceHistory_window Reference.math Reference.indicators this st).
  apply reachable_run, reachable_start.
Defined.

(** A data feed that answers 'Request failed' three times ends the run
    at its first pass: the later answers are never asked for. *)
Lemma price_fetch_failure_witness :
  let this := demoBot "5m" (steadyBars 20) in
  let env := mkEnv (fun _ => Throw "Request failed with status code 500")
                   (mkOrderResult true 1) (mkOrderResult true 2) in
  let out := @tick Reference.math Reference.indicators this (start this) env in
  isRunning (start this) = true
  /\ fst (fetchWithRetry env 0 3) = Throw "Request failed with status code 500"
  /\ position (fst out) = None
  /\ last (snd out) (Sleep 0) = ProcessExit 1
  /\ @run Reference.math Reference.indicators this (start this) (env :: descent) = out.
Proof.
  intros this env out.
  destruct (@price_fetch_failure Reference.math Reference.indicators this (start this) env
              "Request failed with status code 500" eq_refl eq_refl)
    as (Hp & _ & _ & _ & _ & _ & Hlast & Hrun).
  split; [reflexivity|]. split; [reflexivity|].
  split; [exact Hp|]. split; [exact Hlast|].
  rewrite (Hrun eq_refl descent). subst out.
  destruct (@tick Reference.math Reference.indicators this (start this) env).
  reflexivity.
Defined.

(** The eleven ticks of [descent] submit no order. *)
Lemma no_order_in_first_eleven_ticks_witness :
  let this := demoBot "5m" (steadyBars 20) in
  (List.length descent <= 11)%nat
  /\ existsb isBuyOrder
       (snd (@run Reference.math Reference.indicators this (start this) descent)) = false
  /\ existsb isSellOrder
       (snd (@run Reference.math Reference.indicators this (start this) descent)) = false.
Proof.
  intro this.
  assert (Hlen : (List.length descent <= 11)%nat) by (cbn; lia).
  split; [exact Hlen|].
  exact (@no_order_in_first_eleven_ticks Reference.math Reference.indicators
           this descent Hlen).
Defined.

(** On 5m with closes of 100, 110, 100 (a volatility near 0.095): the
    run of [descent] and the crossover at 95, which buys on steady bars,
    submits nothing. *)
Lemma high_volatility_suspends_trading_witness :
  let bars := [mkBar 100 100 100 100 10; mkBar 110 110 110 110 10;
               mkBar 100 100 100 100 10] in
  let this := demoBot "5m" bars in
  let out := @run Reference.math Reference.indicators this (start this)
                  (descent ++ [priceTick 95]) in
  maxVolatilityThreshold "5m"
  < @BitFlowBot.calculateVolatility Reference.math (slice_last 50 (historicalData this))
  /\ position (fst out) = None
  /\ existsb isBuyOrder (snd out) = false
  /\ existsb isSellOrder (snd out) = false.
Proof.
  intros bars this out.
  assert (Hvol : maxVolatilityThreshold (currentTimeframe this)
                 < @BitFlowBot.calculateVolatility Reference.math
                     (slice_last 50 (historicalData this)))
    by (vm_compute; reflexivity).
  split; [exact Hvol|].
  exact (@high_volatility_suspends_trading Reference.math Reference.indicators
           this (descent ++ [priceTick 95]) (or_intror eq_refl) Hvol).
Defined.


End TradingLoopMoreExamples.

(** ** Optimization before trading *)

Section OptimizeStrategy.

Import StrategyOptimizer BitFlowBot Spec.
Context `{MathLib} `{TechnicalIndicators}.
Variable getHistoricalData : string -> N -> string -> result (list Bar).

(** The fuel of the loop is not binding: whatever the data manager and
    the optimizer answer, three passes are all it makes. *)
Lemma optimizeStrategy_loop_three_passes (this : t) (fuel : nat) :
  (3 <= fuel)%nat ->
  optimizeStrategy_loop getHistoricalData fuel this 500%N 0 0 0
  = optimizeStrategy_loop getHistoricalData 3 this 500%N 0 0 0.
Proof.
  intro Hfuel. destruct fuel as [|[|[|fuel]]]; try lia. reflexivity.
Qed.

(** One pass of the loop when it is entered. *)
Lemma optimizeStrategy_loop_pass (fuel : nat) (this : t) (barCount : N) (attempts : nat)
    (winRate maxScore : Q) :
  ltb winRate 0.60 = true -> (attempts < 3)%nat ->
  optimizeStrategy_loop getHistoricalData (S fuel) this barCount attempts winRate maxScore
  = let request :=
      GetHistoricalData (currentSymbol this) barCount (currentTimeframe this) in
    match getHistoricalData (currentSymbol this) barCount (currentTimeframe this) with
    | Throw message => (this, Throw message, [request])
    | Ok allData =>
        let loaded := LoadedLog (List.length allData) (S attempts) in
        match optimizeMAParameters allData (currentTimeframe this) with
        | Throw message =>
            (set_historicalData this allData, Throw message, [request; loaded])
        | Ok (best, _) =>
            let this' := set_optimizedStrategy (set_historicalData this allData) best in
            if ltb (StrategyOptimizer.winRate (performance best)) 0.60 then
              if (S attempts <? 3)%nat then
                let '(this'', outcome, events) :=
                  optimizeStrategy_loop getHistoricalData fuel this'
                    (if (S attempts =? 1)%nat then 1500%N
                     else if (S attempts =? 2)%nat then 3500%N else barCount)
                    (S attempts) (StrategyOptimizer.winRate (performance best))
                    (score best) in
                (this'', outcome, request :: loaded :: OptimizeSleep 5000%N :: events)
              else (this', Ok (score best), [request; loaded; WinRateWarningLog 3])
            else (this', Ok (score best), [request; loaded])
        end
    end.
Proof.
  intros Hlow Hleft. apply Nat.ltb_lt in Hleft.
  cbn [optimizeStrategy_loop]. unfold maxAttempts. rewrite Hlow, Hleft. reflexivity.
Qed.

(** The outcome of the loop entered at its [k]-th pass; what the theorems
    on [optimizeStrategy] are instances of.  [P this' outcome events]
    holds of every way through the remaining passes. *)
Lemma optimizeStrategy_loop_cases
    (P : t -> result Q -> list OptimizeEvent -> Prop)
    (fuel : nat) (this : t) (barCount : N) (attempts : nat) (winRate maxScore : Q) :
  ltb winRate 0.60 = true -> (attempts < 3)%nat ->
  let request :=
    GetHistoricalData (currentSymbol this) barCount (currentTimeframe this) in
  (forall message,
      getHistoricalData (currentSymbol this) barCount (currentTimeframe this)
      = Throw message ->
      P this (Throw message) [request]) ->
  (forall allData message,
      getHistoricalData (currentSymbol this) barCount (currentTimeframe this) = Ok allData ->
      optimizeMAParameters allData (currentTimeframe this) = Throw message ->
      P (set_historicalData this allData) (Throw message)
        [request; LoadedLog (List.length allData) (S attempts)]) ->
  (forall allData best allResults,
      getHistoricalData (currentSymbol this) barCount (currentTimeframe this) = Ok allData ->
      optimizeMAParameters allData (currentTimeframe this) = Ok (best, allResults) ->
      0.60 <= StrategyOptimizer.winRate (performance best) ->
      P (set_optimizedStrategy (set_historicalData this allData) best) (Ok (score best))
        [request; LoadedLog (List.length allData) (S attempts)]) ->
  (forall allData best allResults,
      getHistoricalData (currentSymbol this) barCount (currentTimeframe this) = Ok allData ->
      optimizeMAParameters allData (currentTimeframe this) = Ok (best, allResults) ->
      StrategyOptimizer.winRate (performance best) < 0.60 ->
      attempts = 2%nat ->
      P (set_optimizedStrategy (set_historicalData this allData) best) (Ok (score best))
        [request; LoadedLog (List.length allData) (S attempts); WinRateWarningLog 3]) ->
  (forall allData best allResults this'' outcome events,
      getHistoricalData (currentSymbol this) barCount (currentTimeframe this) = Ok allData ->
      optimizeMAParameters allData (currentTimeframe this) = Ok (best, allResults) ->
      StrategyOptimizer.winRate (performance best) < 0.60 ->
      (attempts < 2)%nat ->
      optimizeStrategy_loop getHistoricalData fuel
        (set_optimizedStrategy (set_historicalData this allData) best)
        (if (S attempts =? 1)%nat then 1500%N
         else if (S attempts =? 2)%nat then 3500%N else barCount)
        (S attempts) (StrategyOptimizer.winRate (performance best)) (score best)
      = (this'', outcome, events) ->
      P this'' outcome
        (request :: LoadedLog (List.length allData) (S attempts)
                 :: OptimizeSleep 5000%N :: events)) ->
  let '(this', outcome, events) :=
    optimizeStrategy_loop getHistoricalData (S fuel) this barCount attempts winRate maxScore in
  P this' outcome events.
Proof.
  intros Hlow Hleft request Hfetch Hopt Hwon Hwarn Hmore.
  rewrite (optimizeStrategy_loop_pass fuel this barCount attempts winRate maxScore Hlow Hleft).
  cbv zeta. fold request.
  destruct (getHistoricalData _ _ _) as [allData|message] eqn:F; [|apply Hfetch; reflexivity].
  destruct (optimizeMAParameters allData _) as [[best allResults]|message] eqn:O;
    [|apply (Hopt allData message); [reflexivity | exact O]].
  destruct (ltb (StrategyOptimizer.winRate (performance best)) 0.60) eqn:W.
  - apply ltb_true in W.
    destruct (S attempts <? 3)%nat eqn:A.
    + apply Nat.ltb_lt in A.
      destruct (optimizeStrategy_loop _ _ _ _ _ _ _) as [[this'' outcome] events] eqn:L.
      apply (Hmore allData best allResults); try assumption; try reflexivity. lia.
    + apply Nat.ltb_ge in A.
      apply (Hwarn allData best allResults); try assumption; try reflexivity. lia.
  - apply ltb_false in W.
    apply (Hwon allData best allResults); try assumption; reflexivity.
Qed.


(** The loop from its pass number [a + 1] on, with [barCount] on its
    schedule 500, 1500, 3500: it makes [k] passes; all but the last ran to
    their end with a win rate under 60% and were followed by a sleep; the
    last one either failed, or left its bars and the optimum on them in the
    bot, with the win rate reached or the third attempt spent. *)
Lemma optimizeStrategy_loop_spec (symbol timeframe : string) (fuel : nat) :
  forall (this : t) (a : nat) (winRate maxScore : Q),
  currentSymbol this = symbol -> currentTimeframe this = timeframe ->
  ltb winRate 0.60 = true -> (a < 3)%nat -> (3 - a <= fuel)%nat ->
  let '(this', outcome, events) :=
    optimizeStrategy_loop getHistoricalData fuel this (nth a [500; 1500; 3500] 0)%N a
                          winRate maxScore in
  exists k,
    (1 <= k <= 3 - a)%nat
    /\ fetchedBarCounts events = firstn k (skipn a [500; 1500; 3500]%N)
    /\ (forall j, (j < k - 1)%nat ->
          exists allData best allResults,
            getHistoricalData symbol (nth (a + j) [500; 1500; 3500] 0)%N timeframe
            = Ok allData
            /\ optimizeMAParameters allData timeframe = Ok (best, allResults)
            /\ StrategyOptimizer.winRate (performance best) < 0.60)
    /\ List.length
         (filter (fun e => match e with OptimizeSleep _ => true | _ => false end) events)
       = (k - 1)%nat
    /\ existsb isOptimizeExit events = false
    /\ currentSymbol this' = symbol /\ currentTimeframe this' = timeframe
    /\ match outcome with
       | Ok finalScore =>
           exists allResults,
             getHistoricalData symbol (nth (a + k - 1) [500; 1500; 3500] 0)%N timeframe
             = Ok (historicalData this')
             /\ optimizeMAParameters (historicalData this') timeframe
                = Ok (optimizedStrategy this', allResults)
             /\ finalScore = score (optimizedStrategy this')
             /\ (0.60 <= StrategyOptimizer.winRate (performance (optimizedStrategy this'))
                 \/ (a + k = 3)%nat)
       | Throw message =>
           getHistoricalData symbol (nth (a + k - 1) [500; 1500; 3500] 0)%N timeframe
           = Throw message
           \/ exists allData,
                getHistoricalData symbol (nth (a + k - 1) [500; 1500; 3500] 0)%N timeframe
                = Ok allData
                /\ optimizeMAParameters allData timeframe = Throw message
       end.
Proof.
  induction fuel as [|fuel IH]; intros this a winRate maxScore Hsym Htf Hlow Ha Hfuel;
    [lia|].
  assert (Hone : fetchedBarCounts
                   [GetHistoricalData (currentSymbol this) (nth a [500; 1500; 3500] 0)%N
                                      (currentTimeframe this)]
                 = firstn 1 (skipn a [500; 1500; 3500]%N)).
  { destruct a as [|[|[|a]]]; try lia; reflexivity. }
  assert (Hlast : (a + 1 - 1 = a)%nat) by lia.
  apply optimizeStrategy_loop_cases; [exact Hlow | exact Ha | | | | |].
  - (* the fetch failed *)
    intros message F. exists 1%nat. rewrite Hlast, <- Hsym, <- Htf.
    split; [lia|]. split; [exact Hone|]. split; [intros j Hj; lia|].
    repeat split. left. exact F.
  - (* the optimizer failed *)
    intros allData message F O. exists 1%nat. rewrite Hlast, <- Hsym, <- Htf.
    split; [lia|]. split; [exact Hone|]. split; [intros j Hj; lia|].
    repeat split. right. exists allData. split; assumption.
  - (* the win rate is reached *)
    intros allData best allResults F O W. exists 1%nat. rewrite Hlast, <- Hsym, <- Htf.
    split; [lia|]. split; [exact Hone|]. split; [intros j Hj; lia|].
    repeat split. exists allResults.
    cbn [historicalData optimizedStrategy set_optimizedStrategy set_historicalData].
    repeat split; try assumption. left. exact W.
  - (* the third attempt, the win rate still low *)
    intros allData best allResults F O W A. exists 1%nat. rewrite Hlast, <- Hsym, <- Htf.
    split; [lia|]. split; [exact Hone|]. split; [intros j Hj; lia|].
    repeat split. exists allResults.
    cbn [historicalData optimizedStrategy set_optimizedStrategy set_historicalData].
    repeat split; try assumption. right. lia.
  - (* on to the next pass *)
    intros allData best allResults this'' outcome events F O W A L.
    assert (Hnext : (if (S a =? 1)%nat then 1500%N
                     else if (S a =? 2)%nat then 3500%N
                          else nth a [500; 1500; 3500]%N 0%N)
                    = nth (S a) [500; 1500; 3500]%N 0%N).
    { destruct a as [|[|a]]; try lia; reflexivity. }
    rewrite Hnext in L.
    specialize (IH (set_optimizedStrategy (set_historicalData this allData) best) (S a)
                   (StrategyOptimizer.winRate (performance best)) (score best)
                   Hsym Htf).
    rewrite L in IH.
    destruct IH as (k & Hk & Hfetched & Hearlier & Hsleeps & Hexit & Hs & Ht & Hout);
      [apply ltb_true; exact W | lia | lia |].
    exists (S k). split; [lia|].
    split.
    { change (fetchedBarCounts (?r :: ?l :: ?s :: events))
        with (nth a [500; 1500; 3500]%N 0%N :: fetchedBarCounts events).
      rewrite Hfetched. destruct a as [|[|a]]; try lia; reflexivity. }
    split.
    { intros j Hj. destruct j as [|j].
      - rewrite Nat.add_0_r, <- Hsym, <- Htf. exists allData, best, allResults.
        repeat split; assumption.
      - replace (a + S j)%nat with (S a + j)%nat by lia. apply Hearlier. lia. }
    split.
    { cbn [filter List.length]. rewrite Hsleeps. lia. }
    split; [exact Hexit|]. split; [exact Hs|]. split; [exact Ht|].
    replace (a + S k - 1)%nat with (S a + k - 1)%nat by lia.
    destruct outcome as [finalScore|message]; [|exact Hout].
    destruct Hout as (all' & G & O' & E & Hend). exists all'.
    repeat split; try assumption. destruct Hend as [Hend|Hend]; [left; exact Hend | right; lia].
Qed.


(** [optimizeStrategy] in terms of its loop: the passes of
    [optimizeStrategy_loop_spec] from the first one on. *)
Lemma optimizeStrategy_spec (this : t) :
  exists this' outcome events,
    optimizeStrategy_loop getHistoricalData 3 this 500%N 0 0 0 = (this', outcome, events)
    /\ optimizeStrategy getHistoricalData this
       = (this',
          events ++ match outcome with
                    | Ok maxScore => [OptimizationCompleteLog maxScore]
                    | Throw message => [OptimizationFailedLog message; OptimizeExit 1]
                    end)
    /\ fetchedBarCounts (snd (optimizeStrategy getHistoricalData this))
       = fetchedBarCounts events
    /\ existsb isOptimizeExit (snd (optimizeStrategy getHistoricalData this))
       = match outcome with Ok _ => false | Throw _ => true end
    /\ List.length
         (filter (fun e => match e with OptimizeSleep _ => true | _ => false end)
                 (snd (optimizeStrategy getHistoricalData this)))
       = List.length
           (filter (fun e => match e with OptimizeSleep _ => true | _ => false end) events).
Proof.
  pose proof (optimizeStrategy_loop_spec (currentSymbol this) (currentTimeframe this) 3
                this 0 0 0 eq_refl eq_refl eq_refl) as Hspec.
  unfold optimizeStrategy, maxAttempts.
  change (nth 0 [500; 1500; 3500] 0)%N with 500%N in Hspec.
  destruct (optimizeStrategy_loop getHistoricalData 3 this 500%N 0 0 0)
    as [[this' outcome] events].
  destruct Hspec as (k & _ & _ & _ & _ & Hexit & _); [lia | lia |].
  exists this', outcome, events. split; [reflexivity|].
  destruct outcome as [maxScore|message]; cbn [snd];
    (split; [reflexivity|]);
    unfold fetchedBarCounts; rewrite flat_map_app, existsb_app, filter_app, Hexit;
    cbn [flat_map app existsb isOptimizeExit orb filter]; rewrite !app_nil_r;
    repeat split; reflexivity.
Qed.

(** X25.  The requests for bars: 500, then 1500, then 3500, each further one
    made only after the optimization on the bars before it ran to its end
    with a win rate under 60%, and after a sleep of five seconds. *)
Theorem optimizeStrategy_requests (this : t) :
  let events := snd (optimizeStrategy getHistoricalData this) in
  let fetched := fetchedBarCounts events in
  let low (barCount : N) :=
    exists allData best allResults,
      getHistoricalData (currentSymbol this) barCount (currentTimeframe this) = Ok allData
      /\ optimizeMAParameters allData (currentTimeframe this) = Ok (best, allResults)
      /\ StrategyOptimizer.winRate (performance best) < 0.60 in
  (fetched = [500] \/ fetched = [500; 1500] \/ fetched = [500; 1500; 3500])%N
  /\ (In 1500%N fetched -> low 500%N)
  /\ (In 3500%N fetched -> low 1500%N)
  /\ List.length (filter (fun e => match e with OptimizeSleep _ => true | _ => false end)
                         events)
     = (List.length fetched - 1)%nat.
Proof.
  cbv zeta.
  pose proof (optimizeStrategy_loop_spec (currentSymbol this) (currentTimeframe this) 3
                this 0 0 0 eq_refl eq_refl eq_refl) as Hspec.
  change (nth 0 [500; 1500; 3500] 0)%N with 500%N in Hspec.
  destruct (optimizeStrategy_spec this)
    as (this' & outcome & events & Hloop & _ & -> & _ & ->).
  rewrite Hloop in Hspec.
  destruct Hspec as (k & Hk & -> & Hearlier & -> & _); [lia | lia |].
  cbn [skipn].
  destruct k as [|[|[|[|k]]]]; try lia; cbn [firstn List.length Nat.sub].
  - split; [auto|]. split; [|split; [|reflexivity]];
      intros [E|[]]; discriminate E.
  - split; [auto|]. split; [intros _; apply (Hearlier 0%nat); lia|].
    split; [|reflexivity]. intros [E|[E|[]]]; discriminate E.
  - split; [auto|]. split; [intros _; apply (Hearlier 0%nat); lia|].
    split; [|reflexivity]. intros _. apply (Hearlier 1%nat). lia.
Qed.

(** X26.  When [optimizeStrategy] runs to its end, the bot holds the bars of
    the last request and the optimizer's result on exactly those bars,
    also when an earlier attempt had scored higher; the strategy is one of
    the 7 x 26 candidates; its win rate is at least 60% unless all of 3500
    bars were tried; and symbol and timeframe are as before. *)
Theorem optimizeStrategy_completed (this : t) :
  let out := optimizeStrategy getHistoricalData this in
  let strategy := optimizedStrategy (fst out) in
  existsb isOptimizeExit (snd out) = false ->
  exists allResults,
    getHistoricalData (currentSymbol this) (last (fetchedBarCounts (snd out)) 0%N)
                      (currentTimeframe this)
    = Ok (historicalData (fst out))
    /\ optimizeMAParameters (historicalData (fst out)) (currentTimeframe this)
       = Ok (strategy, allResults)
    /\ In (type strategy) maTypes
    /\ (5 <= length strategy <= 30)%nat
    /\ (50 <= List.length (historicalData (fst out)))%nat
    /\ (0.60 <= StrategyOptimizer.winRate (performance strategy)
        \/ fetchedBarCounts (snd out) = [500; 1500; 3500]%N)
    /\ last (snd out) (OptimizeExit 0) = OptimizationCompleteLog (score strategy)
    /\ currentSymbol (fst out) = currentSymbol this
    /\ currentTimeframe (fst out) = currentTimeframe this.
Proof.
  cbv zeta.
  pose proof (optimizeStrategy_loop_spec (currentSymbol this) (currentTimeframe this) 3
                this 0 0 0 eq_refl eq_refl eq_refl) as Hspec.
  change (nth 0 [500; 1500; 3500] 0)%N with 500%N in Hspec.
  destruct (optimizeStrategy_spec this)
    as (this' & outcome & events & Hloop & -> & -> & -> & _).
  rewrite Hloop in Hspec.
  destruct Hspec as (k & Hk & Hfetched & _ & _ & _ & Hs & Ht & Hout); [lia | lia |].
  destruct outcome as [maxScore|message]; [intros _ | discriminate].
  destruct Hout as (allResults & G & O & -> & Hend).
  cbn [fst snd]. rewrite last_last, Hfetched.
  assert (Hbar : last (firstn k (skipn 0 [500; 1500; 3500]%N)) 0%N
                 = nth (0 + k - 1) [500; 1500; 3500]%N 0%N).
  { destruct k as [|[|[|[|k]]]]; try lia; reflexivity. }
  rewrite Hbar.
  destruct (optimizeMAParameters_ok _ _ _ _ O) as (Hlen & Hall & Hmax).
  destruct (firstMaximum_max _ _ Hmax) as [Hin _]. rewrite Hall in Hin.
  destruct (scoredCandidates_score _ _ _ Hin) as [Hcomb _].
  unfold combinations in Hcomb. apply in_prod_iff in Hcomb.
  destruct Hcomb as [Htype Hlength]. unfold lengths in Hlength.
  apply in_seq in Hlength. unfold lengthRange_min, lengthRange_max in Hlength.
  exists allResults. split; [exact G|]. split; [exact O|]. split; [exact Htype|].
  split; [lia|]. split; [exact Hlen|].
  split; [|split; [reflexivity | split; assumption]].
  destruct Hend as [Hend|Hend]; [left; exact Hend | right].
  assert (k = 3%nat) as -> by lia. reflexivity.
Qed.

(** X27.  When [optimizeStrategy] does not run to its end, the last request
    is the one that failed: the data
    manager threw, or the optimizer threw on the bars delivered.  The failure
    is logged and the process exits with code 1, whatever an earlier
    attempt had found. *)
Theorem optimizeStrategy_failed (this : t) :
  let out := optimizeStrategy getHistoricalData this in
  let barCount := last (fetchedBarCounts (snd out)) 0%N in
  existsb isOptimizeExit (snd out) = true ->
  exists message events,
    snd out = events ++ [OptimizationFailedLog message; OptimizeExit 1]
    /\ (getHistoricalData (currentSymbol this) barCount (currentTimeframe this)
        = Throw message
        \/ exists allData,
             getHistoricalData (currentSymbol this) barCount (currentTimeframe this)
             = Ok allData
             /\ optimizeMAParameters allData (currentTimeframe this) = Throw message).
Proof.
  cbv zeta.
  pose proof (optimizeStrategy_loop_spec (currentSymbol this) (currentTimeframe this) 3
                this 0 0 0 eq_refl eq_refl eq_refl) as Hspec.
  change (nth 0 [500; 1500; 3500] 0)%N with 500%N in Hspec.
  destruct (optimizeStrategy_spec this)
    as (this' & outcome & events & Hloop & -> & -> & -> & _).
  rewrite Hloop in Hspec.
  destruct Hspec as (k & Hk & Hfetched & _ & _ & _ & _ & _ & Hout); [lia | lia |].
  destruct outcome as [maxScore|message]; [discriminate | intros _].
  cbn [snd]. rewrite Hfetched.
  assert (Hbar : last (firstn k (skipn 0 [500; 1500; 3500]%N)) 0%N
                 = nth (0 + k - 1) [500; 1500; 3500]%N 0%N).
  { destruct k as [|[|[|[|k]]]]; try lia; reflexivity. }
  rewrite Hbar. exists message, events. split; [reflexivity|].
  destruct Hout as [G|(allData & G & O)]; [left; exact G | right].
  exists allData. split; [exact G | exact O].
Qed.

End OptimizeStrategy.

Section OptimizeStrategyExamples.

Import StrategyOptimizer BitFlowBot Examples.

(** A data manager that always delivers fifty flat bars: no candidate
    trades, all three requests are made, and the optimization completes
    with the result on the bars of the last. *)
Lemma optimizeStrategy_completed_witness :
  let getHistoricalData : string -> N -> string -> result (list Bar) :=
    fun _ _ _ => Ok (flatBars 50) in
  let this := demoBot "5m" [] in
  let out := @optimizeStrategy Reference.math Reference.indicators getHistoricalData this in
  let strategy := optimizedStrategy (fst out) in
  existsb isOptimizeExit (snd out) = false
  /\ exists allResults,
       getHistoricalData (currentSymbol this) (last (fetchedBarCounts (snd out)) 0%N)
                         (currentTimeframe this)
       = Ok (historicalData (fst out))
       /\ @optimizeMAParameters Reference.math Reference.indicators
            (historicalData (fst out)) (currentTimeframe this)
          = Ok (strategy, allResults)
       /\ In (type strategy) maTypes
       /\ (5 <= length strategy <= 30)%nat
       /\ (50 <= List.length (historicalData (fst out)))%nat
       /\ (0.60 <= StrategyOptimizer.winRate (performance strategy)
           \/ fetchedBarCounts (snd out) = [500; 1500; 3500]%N)
       /\ last (snd out) (OptimizeExit 0) = OptimizationCompleteLog (score strategy)
       /\ currentSymbol (fst out) = currentSymbol this
       /\ currentTimeframe (fst out) = currentTimeframe this.
Proof.
  intros getHistoricalData this out strategy.
  assert (Hdone : existsb isOptimizeExit (snd out) = false) by (lazy; reflexivity).
  split; [exact Hdone|].
  exact (@optimizeStrategy_completed Reference.math Reference.indicators
           getHistoricalData this Hdone).
Defined.

(** A data manager that is down: one request, the failure logged, exit
    code 1. *)
Lemma optimizeStrategy_failed_witness :
  let getHistoricalData : string -> N -> string -> result (list Bar) :=
    fun _ _ _ => Throw "Failed to get historical data" in
  let this := demoBot "5m" [] in
  let out := @optimizeStrategy Reference.math Reference.indicators getHistoricalData this in
  fetchedBarCounts (snd out) = [500%N]
  /\ exists message events,
       snd out = events ++ [OptimizationFailedLog message; OptimizeExit 1]
       /\ (getHistoricalData (currentSymbol this) 500%N (currentTimeframe this)
           = Throw message
           \/ exists allData,
                getHistoricalData (currentSymbol this) 500%N (currentTimeframe this)
                = Ok allData
                /\ @optimizeMAParameters Reference.math Reference.indicators
                     allData (currentTimeframe this) = Throw message).
Proof.
  intros getHistoricalData this out.
  split; [reflexivity|].
  exact (@optimizeStrategy_failed Reference.math Reference.indicators
           getHistoricalData this eq_refl).
Defined.

End OptimizeStrategyExamples.
